(** * Beijing commute optimizer: route planning core

    A shallow embedding of the planning engine of the repository
    (route planner service, mixed route generator, map-provider facade and
    HTTP entry point) together with the properties of its specification.

    Conventions of the embedding.
    - A JavaScript number is an exact rational ([Q]).  The inputs met in
      practice are integers (metres, minutes) and one-decimal amounts, on
      which the double-precision results and the exact ones agree after
      the rounding the code performs.  The infinities are not represented.
      [NaN] arises in one place, the composite score computed from
      undefined weights: a number that may be [NaN] is an [option Q], with
      [None] for [NaN].
    - A number that the code only prints after a double-precision
      subtraction (the two comparison tags of a recommendation) is kept as
      its two operands and not evaluated.
    - A JavaScript string is a Rocq [string] holding its UTF-8 bytes.  For
      well-formed text, [String.prototype.includes] on UTF-16 code units and
      byte-wise search on UTF-8 agree, both encodings being
      self-synchronising.
    - [undefined] / [null] in an optional position is [None].
    - [console.log] / [console.error] output is not represented.
    - An [async] method is a computation in the monad [M] below: it threads
      the log of requests sent to the map provider and may throw. *)

From Stdlib Require Import ZArith QArith Qround Qminmax Qabs.
From Stdlib Require Import List String Bool Lia Lqa DecimalString.
From Stdlib Require Import Sorting.Sorted Sorting.Permutation.
Import ListNotations.

Open Scope string_scope.
Open Scope list_scope.
Open Scope Z_scope.
Open Scope Q_scope.

(** ** JavaScript primitives *)

(** [Math.round]: nearest integer, halves towards +infinity. *)
Definition Math_round (x : Q) : Z := Qfloor (x + (1 # 2)).

Definition Math_floor (x : Q) : Z := Qfloor x.

Definition Math_max (a b : Q) : Q := Qmax a b.

(** [Math.min(...l)] and [Math.max(...l)] on a non-empty array.  On the
    empty array JavaScript answers an infinity; the planner never asks
    (it returns early), and the model answers 0 there. *)
Definition Math_min_of (l : list Q) : Q :=
  match l with
  | [] => 0
  | x :: xs => fold_left Qmin xs x
  end.

Definition Math_max_of (l : list Q) : Q :=
  match l with
  | [] => 0
  | x :: xs => fold_left Qmax xs x
  end.

(** [a < b] on numbers. *)
Definition Qlt_bool (a b : Q) : bool := negb (Qle_bool b a).

(** [a <= b] and [a < b] on numbers that may be [NaN]: every comparison
    with [NaN] is false. *)
Definition num_le (a b : option Q) : Prop :=
  match a, b with
  | Some x, Some y => x <= y
  | _, _ => False
  end.

Definition num_lt (a b : option Q) : Prop :=
  match a, b with
  | Some x, Some y => x < y
  | _, _ => False
  end.

(** [a - b] used as the result of a sort comparator: a [NaN] result is
    treated by [Array.prototype.sort] as [+0]. *)
Definition compare_by_difference (a b : option Q) : Q :=
  match a, b with
  | Some x, Some y => x - y
  | _, _ => 0
  end.

(** [s.includes(needle)]. *)
Fixpoint includes (needle s : string) : bool :=
  if prefix needle s then true
  else match s with
       | EmptyString => false
       | String _ rest => includes needle rest
       end.

(** [x?.includes(needle)] used as a condition: [undefined] is falsy. *)
Definition opt_includes (needle : string) (s : option string) : bool :=
  match s with
  | Some s => includes needle s
  | None => false
  end.

(** [`${n}`] for an integer. *)
Definition show_Z (n : Z) : string := NilZero.string_of_int (Z.to_int n).

(** [`${x}`] for an optional string. *)
Definition show_opt (s : option string) : string :=
  match s with
  | Some s => s
  | None => "undefined"
  end.

(** [arr.slice(0, n)] and [arr.slice(-n)]. *)
Definition slice_first {A} (n : nat) (l : list A) : list A := firstn n l.

Definition slice_last {A} (n : nat) (l : list A) : list A :=
  skipn (List.length l - n) l.

(** [arr.sort(cmp)] with a comparator returning a number: [a] is placed
    before [b] when [cmp a b < 0]; the sort is stable, so elements that
    compare equal keep their order.  Insertion from the right realises
    exactly that order. *)
Section Sort.
Context {A : Type} (cmp : A -> A -> Q).

Fixpoint insert_sorted (x : A) (l : list A) : list A :=
  match l with
  | [] => [x]
  | y :: ys =>
      if Qle_bool (cmp x y) 0 then x :: y :: ys
      else y :: insert_sorted x ys
  end.

Definition array_sort (l : list A) : list A := fold_right insert_sorted [] l.
End Sort.

(** ** Data model *)

Record GeoPoint := {
  lng : option Q;
  lat : option Q;
  name : option string
}.

Inductive Mode := taxi_mode | subway_mode | walk_mode.

Definition Mode_eqb (a b : Mode) : bool :=
  match a, b with
  | taxi_mode, taxi_mode | subway_mode, subway_mode | walk_mode, walk_mode => true
  | _, _ => false
  end.

(** A taxi leg: [{ mode: 'taxi', from, to, distance, duration, cost,
    waitTime }]. *)
Record TaxiLeg := {
  tx_from : option string;
  tx_to : option string;
  tx_distance : Q;
  tx_duration : Q;
  tx_cost : Q;
  tx_waitTime : Q
}.

(** One leg of travel; the three object shapes the code builds. *)
Inductive Segment :=
| TaxiSeg (leg : TaxiLeg)
| SubwaySeg (line from_station to_station : string) (stations duration : Q)
| WalkSeg (distance duration : Q).

Definition mode (s : Segment) : Mode :=
  match s with
  | TaxiSeg _ => taxi_mode
  | SubwaySeg _ _ _ _ _ => subway_mode
  | WalkSeg _ _ => walk_mode
  end.

(** Field reads; a field the shape lacks reads [undefined]. *)
Definition seg_duration (s : Segment) : Q :=
  match s with
  | TaxiSeg leg => tx_duration leg
  | SubwaySeg _ _ _ _ d => d
  | WalkSeg _ d => d
  end.

Definition seg_distance (s : Segment) : option Q :=
  match s with
  | TaxiSeg leg => Some (tx_distance leg)
  | SubwaySeg _ _ _ _ _ => None
  | WalkSeg d _ => Some d
  end.

Definition seg_cost (s : Segment) : option Q :=
  match s with
  | TaxiSeg leg => Some (tx_cost leg)
  | _ => None
  end.

Definition seg_waitTime (s : Segment) : option Q :=
  match s with
  | TaxiSeg leg => Some (tx_waitTime leg)
  | _ => None
  end.

(** [x || 0] for a number that may be absent. *)
Definition or_0 (x : option Q) : Q :=
  match x with
  | Some q => q
  | None => 0
  end.

(** A transit itinerary as the provider facade returns it. *)
Record Transit := {
  t_id : string;
  t_duration : Q;
  t_distance : Q;
  t_cost : Q;
  t_walkDistance : Q;
  t_segments : list Segment
}.

(** A driving estimate as the provider facade returns it. *)
Record Driving := {
  d_distance : Q;
  d_duration : Q;
  d_traffic : Q;
  d_tolls : Q
}.

Inductive RouteType := subway | taxi | mixed.

(** A route candidate.  (A pure-subway candidate is the provider's object
    with these fields added; its remaining provider fields are never read
    again and are dropped here.) *)
Record Route := {
  id : string;
  type : RouteType;
  segments : list Segment;
  totalDuration : Q;
  totalCost : Q;
  totalDistance : Q
}.

Inductive Scenario := RushToCatch | LateNight | Peak | Routine.

(** The labels the code uses for the four scenarios. *)
Definition scenario_label (s : Scenario) : string :=
  match s with
  | RushToCatch => "赶路模式"
  | LateNight => "深夜模式"
  | Peak => "高峰模式"
  | Routine => "日常模式"
  end.

(** A [Date], reduced to what the planner reads of it: [getHours()]. *)
Record Date := { getHours : Z }.

(** The [scores] object; [total] is [NaN] ([None]) when the weights are
    undefined. *)
Record Scores := {
  s_time : Z;
  s_cost : Z;
  s_comfort : Z;
  s_total : option Q
}.

Record Summary := {
  description : string;
  totalTime : Q;
  sum_totalCost : Q;
  walkDistance : Q
}.

Record ScoredRoute := {
  route : Route;
  scores : Scores;
  summary : Summary
}.

(** A tag of a recommendation.  [FasterBy slowest fastest] is the text
    [`比最慢快${Math.round(slowest - fastest)}分钟`] and
    [CheaperBy priciest cheapest] the text
    [`比最贵省¥${Math.round(priciest - cheapest)}`]: the code subtracts in
    double precision before rounding, so the printed number is not computed
    here, only its two operands. *)
Inductive Tag :=
| Text (s : string)
| FasterBy (slowest fastest : Q)
| CheaperBy (priciest cheapest : Q).

Record TaggedRoute := {
  scored : ScoredRoute;
  tags : list Tag
}.

Record Meta := {
  meta_scenario : Scenario;
  preference : string;
  totalCandidates : nat;
  calculatedAt : string
}.

Record Recommendation := {
  recommended : option TaggedRoute;
  fastest : option TaggedRoute;
  cheapest : option TaggedRoute
}.

Record PlanResult := {
  res_recommended : option TaggedRoute;
  res_fastest : option TaggedRoute;
  res_cheapest : option TaggedRoute;
  allRoutes : list ScoredRoute;
  meta : Meta
}.

(** ** Effects: provider requests and exceptions *)

Inductive Call :=
| GetSubwayRoutes (origin destination : GeoPoint)
| GetDrivingRoute (origin destination : GeoPoint).

(** Requests sent so far, oldest first. *)
Definition Log := list Call.

Inductive JsError := TypeError (msg : string).

Inductive Outcome (A : Type) :=
| Return (a : A)
| Throw (e : JsError).
Arguments Return {A} a.
Arguments Throw {A} e.

Definition M (A : Type) : Type := Log -> Outcome A * Log.

Definition ret {A} (a : A) : M A := fun log => (Return a, log).

Definition throw {A} (e : JsError) : M A := fun log => (Throw e, log).

Definition bind {A B} (m : M A) (k : A -> M B) : M B :=
  fun log =>
    match m log with
    | (Return a, log') => k a log'
    | (Throw e, log') => (Throw e, log')
    end.

Notation "x <- m ;; k" := (bind m (fun x => k))
  (at level 61, m at next level, right associativity).

(** [try { body } catch (error) { handler }]. *)
Definition try_catch {A} (body : M A) (handler : JsError -> M A) : M A :=
  fun log =>
    match body log with
    | (Return a, log') => (Return a, log')
    | (Throw e, log') => handler e log'
    end.

(** [for (const x of l) { try { ... routes.push(r) ... } catch {} }]: the
    body either pushes one route or none. *)
Fixpoint for_collect {A B} (body : A -> M (option B)) (l : list A) : M (list B) :=
  match l with
  | [] => ret []
  | x :: xs =>
      r <- body x ;;
      rs <- for_collect body xs ;;
      ret (match r with Some b => b :: rs | None => rs end)
  end.

(** The map provider behind the facade: what a transit query and a driving
    query answer, possibly depending on the requests already served.  The
    facade itself never throws: on a network error it falls back to its
    simulated data, on a refused request it answers [[]] resp. [null]. *)
Record Provider := {
  transits : Log -> GeoPoint -> GeoPoint -> list Transit;
  driving : Log -> GeoPoint -> GeoPoint -> option Driving
}.

(** ** The provider facade (amapService) *)

Module AmapService.

Definition getSubwayRoutes (P : Provider) (origin destination : GeoPoint)
  : M (list Transit) :=
  fun log => (Return (transits P log origin destination),
              log ++ [GetSubwayRoutes origin destination]).

Definition getDrivingRoute (P : Provider) (origin destination : GeoPoint)
  : M (option Driving) :=
  fun log => (Return (driving P log origin destination),
              log ++ [GetDrivingRoute origin destination]).

(** The simulated data the facade serves when no API key is set. *)
Definition _mockSubwayRoutes (origin destination : GeoPoint) : list Transit :=
  [ {| t_id := "subway_mock_1";
       t_duration := 65;
       t_distance := 45000;
       t_cost := 9;
       t_walkDistance := 800;
       t_segments :=
         [ WalkSeg 300 4;
           SubwaySeg "大兴机场线" "大兴机场站" "草桥站" 3 20;
           SubwaySeg "4号线" "草桥站" "西直门站" 18 35;
           SubwaySeg "昌平线" "西直门站" "生命科学园站" 4 10;
           WalkSeg 500 6 ] |} ].

Definition _mockDrivingRoute (origin destination : GeoPoint) : Driving :=
  {| d_distance := 52000; d_duration := 78; d_traffic := 25; d_tolls := 0 |}.

(** The facade without an API key: every query gets the simulated data. *)
Definition mockProvider : Provider :=
  {| transits := fun _ o d => _mockSubwayRoutes o d;
     driving := fun _ o d => Some (_mockDrivingRoute o d) |}.

End AmapService.

(** ** The mixed route generator *)

Module MixedRouteGenerator.
Import AmapService.

(** Fare estimate of a taxi leg. *)
Definition _estimateTaxiCost (distance duration : Q) : Q :=
  let baseFare := 13 in
  let perKm := 2.3 in
  let perMin := 0.5 in
  let kmCost := Math_max 0 (distance / 1000 - 3) * perKm in
  let timeCost := duration * perMin in
  inject_Z (Math_round ((baseFare + kmCost + timeCost) * 10)) / 10.

(** Rule 1 drops a route with a taxi leg of at most 2 km; rule 2 sorts by
    duration plus twice the cost and keeps the first ten. *)
Definition _pruneRoutes (routes : list Route) : list Route :=
  let filtered :=
    filter (fun r =>
      let taxiSegments :=
        filter (fun s => Mode_eqb (mode s) taxi_mode) (segments r) in
      forallb (fun s =>
                 match seg_distance s with
                 | Some d => Qlt_bool 2000 d
                 | None => false
                 end) taxiSegments) routes in
  let filtered :=
    array_sort (fun a b =>
                  let scoreA := totalDuration a + totalCost a * 2 in
                  let scoreB := totalDuration b + totalCost b * 2 in
                  scoreA - scoreB) filtered in
  slice_first 10 filtered.

(** Stations along the route (fixed data in the source). *)
Definition getSubwayStationsAlongRoute (origin destination : GeoPoint)
  : M (list GeoPoint) :=
  ret [ {| name := Some "大兴机场站"; lng := Some 116.410742; lat := Some 39.509723 |};
        {| name := Some "大兴新城站"; lng := Some 116.338611; lat := Some 39.728831 |};
        {| name := Some "草桥站"; lng := Some 116.345678; lat := Some 39.856789 |};
        {| name := Some "西单站"; lng := Some 116.374762; lat := Some 39.912289 |};
        {| name := Some "西直门站"; lng := Some 116.347382; lat := Some 39.942327 |};
        {| name := Some "北京北站"; lng := Some 116.358065; lat := Some 39.953039 |};
        {| name := Some "生命科学园站"; lng := Some 116.293678; lat := Some 40.072345 |} ].

Section WithProvider.
Variable P : Provider.

(** A taxi leg between two points; reading [driving.distance] throws
    when the provider has no driving estimate. *)
Definition _calculateTaxiSegment (from to : GeoPoint) : M TaxiLeg :=
  driving <- getDrivingRoute P from to ;;
  match driving with
  | None =>
      throw (TypeError "Cannot read properties of null (reading 'distance')")
  | Some driving =>
      let cost := _estimateTaxiCost (d_distance driving) (d_duration driving) in
      ret {| tx_from := name from;
             tx_to := name to;
             tx_distance := d_distance driving;
             tx_duration := d_duration driving + 3;
             tx_cost := cost;
             tx_waitTime := 3 |}
  end.

(** Strategy 1: taxi to a station, then transit to the destination. *)
Definition _generateStartTaxiRoutes (origin destination : GeoPoint)
    (stations : list GeoPoint) : M (list Route) :=
  let nearbyStations := slice_first 5 stations in
  for_collect (fun station =>
    try_catch
      (taxiSegment <- _calculateTaxiSegment origin station ;;
       subwayRoutes <- getSubwayRoutes P station destination ;;
       match subwayRoutes with
       | subwaySegment :: _ =>
           ret (Some
             {| id := ("mixed_start_taxi_" ++ show_opt (name station))%string;
                type := mixed;
                segments := TaxiSeg taxiSegment :: t_segments subwaySegment;
                totalDuration := tx_duration taxiSegment + t_duration subwaySegment;
                totalCost := tx_cost taxiSegment + t_cost subwaySegment;
                totalDistance := tx_distance taxiSegment + t_distance subwaySegment |})
       | [] => ret None
       end)
      (fun error => ret None)) nearbyStations.

(** Strategy 2: transit to a station, then taxi to the destination. *)
Definition _generateEndTaxiRoutes (origin destination : GeoPoint)
    (stations : list GeoPoint) : M (list Route) :=
  let nearbyStations := slice_last 5 stations in
  for_collect (fun station =>
    try_catch
      (subwayRoutes <- getSubwayRoutes P origin station ;;
       match subwayRoutes with
       | subwaySegment :: _ =>
           taxiSegment <- _calculateTaxiSegment station destination ;;
           ret (Some
             {| id := ("mixed_end_taxi_" ++ show_opt (name station))%string;
                type := mixed;
                segments := t_segments subwaySegment ++ [TaxiSeg taxiSegment];
                totalDuration := t_duration subwaySegment + tx_duration taxiSegment;
                totalCost := t_cost subwaySegment + tx_cost taxiSegment;
                totalDistance := t_distance subwaySegment + tx_distance taxiSegment |})
       | [] => ret None
       end)
      (fun error => ret None)) nearbyStations.

(** Strategy 3: taxi, transit, taxi. *)
Definition _generateBothTaxiRoutes (origin destination : GeoPoint)
    (stations : list GeoPoint) : M (list Route) :=
  let startStations := slice_first 2 stations in
  let endStations := slice_last 2 stations in
  perStart <-
    for_collect (fun startStation =>
      inner <-
        for_collect (fun endStation =>
          try_catch
            (startTaxi <- _calculateTaxiSegment origin startStation ;;
             subwayRoutes <- getSubwayRoutes P startStation endStation ;;
             match subwayRoutes with
             | subwaySegment :: _ =>
                 endTaxi <- _calculateTaxiSegment endStation destination ;;
                 ret (Some
                   {| id := ("mixed_both_taxi_" ++ show_opt (name startStation)
                              ++ "_" ++ show_opt (name endStation))%string;
                      type := mixed;
                      segments := TaxiSeg startTaxi :: t_segments subwaySegment
                                    ++ [TaxiSeg endTaxi];
                      totalDuration := tx_duration startTaxi + t_duration subwaySegment
                                       + tx_duration endTaxi;
                      totalCost := tx_cost startTaxi + t_cost subwaySegment
                                   + tx_cost endTaxi;
                      totalDistance := tx_distance startTaxi + t_distance subwaySegment
                                       + tx_distance endTaxi |})
             | [] => ret None
             end)
            (fun error => ret None)) endStations ;;
      ret (Some inner)) startStations ;;
  ret (List.concat perStart).

Definition generateMixedRoutes (origin destination : GeoPoint)
    (subwayStations : list GeoPoint) : M (list Route) :=
  startTaxiRoutes <- _generateStartTaxiRoutes origin destination subwayStations ;;
  endTaxiRoutes <- _generateEndTaxiRoutes origin destination subwayStations ;;
  bothTaxiRoutes <- _generateBothTaxiRoutes origin destination subwayStations ;;
  let mixedRoutes := startTaxiRoutes ++ endTaxiRoutes ++ bothTaxiRoutes in
  ret (_pruneRoutes mixedRoutes).

End WithProvider.
End MixedRouteGenerator.

(** ** The route planner service *)

Record Weights := {
  w_time : Q;
  w_cost : Q;
  w_comfort : Q
}.

(** The argument of [planRoute]; an absent property is [None].  (The
    [options] property is never read.) *)
Record PlanParams := {
  p_origin : option GeoPoint;
  p_destination : option GeoPoint;
  p_time : option Date;
  p_preference : option string
}.

(** [x = dflt] in a destructuring pattern or parameter list. *)
Definition default {A} (dflt : A) (x : option A) : A :=
  match x with
  | Some a => a
  | None => dflt
  end.

Module RoutePlannerService.
Import AmapService.

(** Scenario detection. *)
Definition _detectScenario (origin destination : GeoPoint) (time : Date)
  : Scenario :=
  let hour := getHours time in
  if opt_includes "机场" (name destination)
     || opt_includes "火车站" (name destination)
  then RushToCatch
  else if (23 <=? hour)%Z || (hour <? 5)%Z then LateNight
  else if ((7 <=? hour)%Z && (hour <=? 9)%Z)
          || ((17 <=? hour)%Z && (hour <=? 19)%Z) then Peak
  else Routine.

(** Fare estimate with the peak and late-night surcharges; an omitted
    scenario argument defaults to the routine one. *)
Definition _estimateTaxiCost (distance duration : Q)
    (scenario : option Scenario) : Q :=
  let scenario := default Routine scenario in
  let baseFare := 13 in
  let perKm := 2.3 in
  let perMin := 0.5 in
  let cost := baseFare in
  let cost := cost + Math_max 0 (distance / 1000 - 3) * perKm in
  let cost := cost + duration * perMin in
  let cost := match scenario with Peak => cost * 1.3 | _ => cost end in
  let cost := match scenario with LateNight => cost * 1.5 | _ => cost end in
  inject_Z (Math_round (cost * 10)) / 10.

(** Number of subway legs directly following a subway leg. *)
Fixpoint transfers_after (prev : Segment) (l : list Segment) : nat :=
  match l with
  | [] => O
  | seg :: rest =>
      ((if Mode_eqb (mode seg) subway_mode && Mode_eqb (mode prev) subway_mode
        then 1 else 0) + transfers_after seg rest)%nat
  end.

Definition transfers (l : list Segment) : nat :=
  match l with
  | [] => O
  | seg :: rest => transfers_after seg rest
  end.

(** Total of the [distance] fields of the walking legs. *)
Definition walk_total (l : list Segment) : Q :=
  fold_left (fun sum seg => sum + or_0 (seg_distance seg))
    (filter (fun seg => Mode_eqb (mode seg) walk_mode) l) 0.

Definition _calculateComfortScore (r : Route) : Q :=
  let score := 100 in
  let score := score - inject_Z (Z.of_nat (transfers (segments r))) * 15 in
  let walkDistance := walk_total (segments r) in
  let score := score - inject_Z (Math_floor (walkDistance / 500)) * 5 in
  let taxiWait :=
    fold_left (fun sum seg => sum + or_0 (seg_waitTime seg))
      (filter (fun seg => Mode_eqb (mode seg) taxi_mode) (segments r)) 0 in
  let score := score - taxiWait * 2 in
  Math_max 0 score.

(** The property names the object literal [baseWeights] inherits from
    [Object.prototype].  Reading one of them gives a function (for
    ["__proto__"] the prototype object itself): a truthy value, so the
    [|| baseWeights.balance] fallback is not taken, and a value without
    [time], [cost] or [comfort]. *)
Definition inherited_keys : list string :=
  [ "constructor"; "__defineGetter__"; "__defineSetter__"; "hasOwnProperty";
    "__lookupGetter__"; "__lookupSetter__"; "isPrototypeOf";
    "propertyIsEnumerable"; "toString"; "valueOf"; "__proto__";
    "toLocaleString" ].

Definition inherited_key (k : string) : bool :=
  existsb (String.eqb k) inherited_keys.

(** Weights by preference, replaced outright in two scenarios.  A key that
    [baseWeights] neither owns nor inherits falls back to the balanced
    weights.  The answer [None] is an inherited value: its [time], [cost]
    and [comfort] all read [undefined]. *)
Definition _getWeights (preference : string) (scenario : Scenario)
  : option Weights :=
  let weights :=
    if String.eqb preference "time"
    then Some {| w_time := 0.7; w_cost := 0.2; w_comfort := 0.1 |}
    else if String.eqb preference "cost"
    then Some {| w_time := 0.2; w_cost := 0.7; w_comfort := 0.1 |}
    else if String.eqb preference "balance"
    then Some {| w_time := 0.4; w_cost := 0.4; w_comfort := 0.2 |}
    else if inherited_key preference
    then None
    else Some {| w_time := 0.4; w_cost := 0.4; w_comfort := 0.2 |} in
  match scenario with
  | RushToCatch => Some {| w_time := 0.8; w_cost := 0.1; w_comfort := 0.1 |}
  | LateNight => Some {| w_time := 0.4; w_cost := 0.3; w_comfort := 0.3 |}
  | _ => weights
  end.

Definition count_mode (m : Mode) (l : list Segment) : nat :=
  List.length (filter (fun s => Mode_eqb (mode s) m) l).

Definition _generateSummary (r : Route) : Summary :=
  let taxiCount := count_mode taxi_mode (segments r) in
  let subwayCount := count_mode subway_mode (segments r) in
  let description :=
    match type r with
    | taxi => "全程打车"
    | subway => "全程地铁"
    | mixed => ("打车" ++ show_Z (Z.of_nat taxiCount) ++ "段 + 地铁"
                  ++ show_Z (Z.of_nat subwayCount) ++ "段")%string
    end in
  {| description := description;
     totalTime := totalDuration r;
     sum_totalCost := totalCost r;
     walkDistance := walk_total (segments r) |}.

(** Scores of all candidates, normalised over the whole set.  A product
    with an undefined weight is [NaN], and so are the sum and the rounded
    total. *)
Definition _calculateScores (routes : list Route) (preference : string)
    (scenario : Scenario) : list ScoredRoute :=
  match routes with
  | [] => []
  | _ =>
      let minTime := Math_min_of (map totalDuration routes) in
      let maxTime := Math_max_of (map totalDuration routes) in
      let minCost := Math_min_of (map totalCost routes) in
      let maxCost := Math_max_of (map totalCost routes) in
      map (fun r =>
        let timeScore :=
          if Qeq_bool maxTime minTime then 100
          else 100 * (1 - (totalDuration r - minTime) / (maxTime - minTime)) in
        let costScore :=
          if Qeq_bool maxCost minCost then 100
          else 100 * (1 - (totalCost r - minCost) / (maxCost - minCost)) in
        let comfortScore := _calculateComfortScore r in
        let weights := _getWeights preference scenario in
        let totalScore :=
          match weights with
          | Some weights =>
              Some ((timeScore * w_time weights
                     + costScore * w_cost weights
                     + comfortScore * w_comfort weights) / 100)
          | None => None
          end in
        {| route := r;
           scores := {| s_time := Math_round timeScore;
                        s_cost := Math_round costScore;
                        s_comfort := Math_round comfortScore;
                        s_total :=
                          match totalScore with
                          | Some totalScore =>
                              Some (inject_Z (Math_round (totalScore * 10)) / 10)
                          | None => None
                          end |};
           summary := _generateSummary r |}) routes
  end.

Definition _getRecommendReason (r : ScoredRoute) (scenario : Scenario) : string :=
  match scenario with
  | Peak =>
      match type (route r) with
      | subway => "高峰期地铁更稳定"
      | _ => "省时且不堵车"
      end
  | LateNight => "安全便捷"
  | RushToCatch => "最快到达"
  | Routine => "综合性价比最高"
  end.

(** The fastest, the cheapest and the best-scored candidate, with tags.
    (When some totals are [NaN] and others are not, the third comparator
    is inconsistent and the order JavaScript produces is left to the
    engine; the scores computed above are all numbers or all [NaN].) *)
Definition _recommend (scoredRoutes : list ScoredRoute) (scenario : Scenario)
    (preference : string) : Recommendation :=
  match scoredRoutes with
  | [] => {| recommended := None; fastest := None; cheapest := None |}
  | r0 :: _ =>
      let byTime :=
        array_sort (fun a b => totalDuration (route a) - totalDuration (route b))
          scoredRoutes in
      let byCost :=
        array_sort (fun a b => totalCost (route a) - totalCost (route b))
          scoredRoutes in
      let byScore :=
        array_sort
          (fun a b =>
             compare_by_difference (s_total (scores b)) (s_total (scores a)))
          scoredRoutes in
      let fastest :=
        {| scored := hd r0 byTime;
           tags := [ Text "最快方案";
                     FasterBy (totalDuration (route (last byTime r0)))
                              (totalDuration (route (hd r0 byTime))) ] |} in
      let cheapest :=
        {| scored := hd r0 byCost;
           tags := [ Text "最省钱";
                     CheaperBy (totalCost (route (last byCost r0)))
                               (totalCost (route (hd r0 byCost))) ] |} in
      let recommended :=
        {| scored := hd r0 byScore;
           tags := [ Text "推荐方案";
                     Text (_getRecommendReason (hd r0 byScore) scenario) ] |} in
      {| recommended := Some recommended;
         fastest := Some fastest;
         cheapest := Some cheapest |}
  end.

Section WithProvider.
Variable P : Provider.
(** The clock: [new Date()] and [new Date().toISOString()]. *)
Variable now : Date.
Variable nowISO : string.

(** The pure-taxi candidate. *)
Definition _generateTaxiRoute (origin destination : GeoPoint)
  : M (option Route) :=
  driving <- getDrivingRoute P origin destination ;;
  match driving with
  | None => ret None
  | Some driving =>
      let cost :=
        _estimateTaxiCost (d_distance driving) (d_duration driving) None in
      ret (Some
        {| id := "taxi_full";
           type := taxi;
           segments :=
             [ TaxiSeg {| tx_from := name origin;
                          tx_to := name destination;
                          tx_distance := d_distance driving;
                          tx_duration := d_duration driving;
                          tx_cost := cost;
                          tx_waitTime := 5 |} ];
           totalDuration := d_duration driving + 5;
           totalCost := cost;
           totalDistance := d_distance driving |})
  end.

(** A pure-subway candidate: the provider's itinerary, its totals copied
    from the itinerary's own fields. *)
Definition subway_candidate (t : Transit) : Route :=
  {| id := t_id t;
     type := subway;
     segments := t_segments t;
     totalDuration := t_duration t;
     totalCost := t_cost t;
     totalDistance := t_distance t |}.

(** All candidates: pure subway, pure taxi, mixed.  One [try] spans the
    three stages: a throw keeps what was pushed before it. *)
Definition _generateAllRoutes (origin destination : GeoPoint)
  : M (list Route) :=
  fun log =>
    let allRoutes := [] in
    match getSubwayRoutes P origin destination log with
    | (Throw _, log) => (Return allRoutes, log)
    | (Return subwayRoutes, log) =>
        let allRoutes := allRoutes ++ map subway_candidate subwayRoutes in
        match _generateTaxiRoute origin destination log with
        | (Throw _, log) => (Return allRoutes, log)
        | (Return taxiRoute, log) =>
            let allRoutes :=
              match taxiRoute with
              | Some t => allRoutes ++ [t]
              | None => allRoutes
              end in
            match (stations <-
                     MixedRouteGenerator.getSubwayStationsAlongRoute
                       origin destination ;;
                   MixedRouteGenerator.generateMixedRoutes P
                     origin destination stations) log with
            | (Throw _, log) => (Return allRoutes, log)
            | (Return mixedRoutes, log) =>
                (Return (allRoutes ++ mixedRoutes), log)
            end
        end
    end.

(** Reading [origin.name] / [destination.name] for the opening log lines
    throws when the point itself is absent; nothing else is checked. *)
Definition planRoute (params : PlanParams) : M PlanResult :=
  match p_origin params, p_destination params with
  | Some origin, Some destination =>
      let time := default now (p_time params) in
      let preference := default "balance" (p_preference params) in
      let scenario := _detectScenario origin destination time in
      allRoutes <- _generateAllRoutes origin destination ;;
      let scoredRoutes := _calculateScores allRoutes preference scenario in
      let recommendation := _recommend scoredRoutes scenario preference in
      ret {| res_recommended := recommended recommendation;
             res_fastest := fastest recommendation;
             res_cheapest := cheapest recommendation;
             allRoutes := slice_first 10 scoredRoutes;
             meta := {| meta_scenario := scenario;
                        preference := preference;
                        totalCandidates := List.length allRoutes;
                        calculatedAt := nowISO |} |}
  | _, _ =>
      throw (TypeError "Cannot read properties of undefined (reading 'name')")
  end.

End WithProvider.
End RoutePlannerService.

(** ** The HTTP entry point *)

Module Handler.
Import RoutePlannerService.

(** The request body: [{ start, end, time, preference, options }]; [b_time]
    is the time already converted by [new Date(time)], and the unused
    [options] is left out. *)
Record Body := {
  b_start : option GeoPoint;
  b_end : option GeoPoint;
  b_time : option Date;
  b_preference : option string
}.

Inductive Nullish := js_undefined | js_null.

Definition show_nullish (n : Nullish) : string :=
  match n with
  | js_undefined => "undefined"
  | js_null => "null"
  end.

(** [req.body]: the parsed body, or [undefined] / [null] when the request
    carries none. *)
Inductive ReqBody :=
| Absent (n : Nullish)
| Present (b : Body).

Record Request := {
  method : string;
  url : string;
  body : ReqBody
}.

(** [const { start, ... } = b]: destructuring [undefined] or [null] throws. *)
Definition destructure (what : string) (b : ReqBody) : M Body :=
  match b with
  | Present b => ret b
  | Absent n =>
      throw (TypeError ("Cannot destructure property 'start' of '" ++ what
                        ++ "' as it is " ++ show_nullish n ++ ".")%string)
  end.

Inductive Json :=
| HealthBody (status timestamp : string)
| ErrorBody (code : Z) (message : string)
| SuccessBody (code : Z) (message : string) (data : PlanResult).

Record Response := {
  statusCode : Z;
  json : option Json
}.

(** [s || dflt] for a string: absent and empty are both falsy. *)
Definition str_or (s : option string) (dflt : string) : string :=
  match s with
  | Some s => if String.eqb s EmptyString then dflt else s
  | None => dflt
  end.

Section WithProvider.
Variable P : Provider.
Variable now : Date.
Variable nowISO : string.

Definition handler (req : Request) : M Response :=
  if String.eqb (method req) "OPTIONS"
  then ret {| statusCode := 200; json := None |}
  else
    try_catch
      (if String.eqb (url req) "/health" && String.eqb (method req) "GET"
       then ret {| statusCode := 200; json := Some (HealthBody "ok" nowISO) |}
       else if String.eqb (url req) "/api/routes/plan"
               && String.eqb (method req) "POST"
       then
         b <- destructure "req.body" (body req) ;;
         match b_start b, b_end b with
         | Some start, Some end_ =>
             let params :=
               {| p_origin := Some {| lng := lng start;
                                      lat := lat start;
                                      name := Some (str_or (name start) "起点") |};
                  p_destination := Some {| lng := lng end_;
                                           lat := lat end_;
                                           name := Some (str_or (name end_) "终点") |};
                  p_time := Some (default now (b_time b));
                  p_preference := Some (str_or (b_preference b) "balance") |} in
             result <- planRoute P now nowISO params ;;
             ret {| statusCode := 200;
                    json := Some (SuccessBody 0 "success" result) |}
         | _, _ =>
             ret {| statusCode := 400;
                    json := Some (ErrorBody 400 "缺少起点或终点参数") |}
         end
       else ret {| statusCode := 404; json := Some (ErrorBody 404 "Not Found") |})
      (fun error =>
         match error with
         | TypeError msg =>
             ret {| statusCode := 500;
                    json := Some (ErrorBody 500 ("服务器错误: " ++ msg)%string) |}
         end).
End WithProvider.
End Handler.


(** ** The other entry points *)

(** The Express route [POST /api/routes/plan]. *)
Module ExpressApp.
Import RoutePlannerService.

Section WithProvider.
Variable P : Provider.
Variable now : Date.
Variable nowISO : string.

Definition post_plan (body : Handler.ReqBody) : M Handler.Response :=
  try_catch
    (b <- Handler.destructure "req.body" body ;;
     match Handler.b_start b, Handler.b_end b with
     | Some start, Some end_ =>
         let params :=
           {| p_origin := Some {| lng := lng start;
                                  lat := lat start;
                                  name := Some (Handler.str_or (name start) "起点") |};
              p_destination := Some {| lng := lng end_;
                                       lat := lat end_;
                                       name := Some (Handler.str_or (name end_) "终点") |};
              p_time := Some (default now (Handler.b_time b));
              p_preference :=
                Some (Handler.str_or (Handler.b_preference b) "balance") |} in
         result <- planRoute P now nowISO params ;;
         ret {| Handler.statusCode := 200;
                Handler.json := Some (Handler.SuccessBody 0 "success" result) |}
     | _, _ =>
         ret {| Handler.statusCode := 400;
                Handler.json := Some (Handler.ErrorBody 400 "缺少起点或终点参数") |}
     end)
    (fun error =>
       match error with
       | TypeError msg =>
           ret {| Handler.statusCode := 500;
                  Handler.json :=
                    Some (Handler.ErrorBody 500 ("路线规划失败: " ++ msg)%string) |}
       end).

End WithProvider.
End ExpressApp.

(** The function-compute entry [planRoute(event, context)].  The response
    headers are constant and left out; the response body is kept as a
    structure, not serialised. *)
Module FunctionCompute.
Import RoutePlannerService.

(** [event.body]: a string to parse, an object, or a falsy value (in which
    case the event itself is read as the body). *)
Inductive EventBody :=
| BodyString (s : string)
| BodyObject (b : Handler.Body)
| BodyFalsy.

Record Event := {
  ev_body : EventBody;
  ev_fields : Handler.Body
}.

Record FcResponse := {
  fc_statusCode : Z;
  fc_json : Handler.Json;
  fc_requestId : option string
}.

Section WithProvider.
Variable P : Provider.
Variable now : Date.
Variable nowISO : string.
(** [JSON.parse]: the parsed body, or the message of the error thrown by
    the parse or by destructuring its result.  (The model has a single
    error constructor; only the message of a caught error is read.) *)
Variable JSON_parse : string -> string + Handler.Body.

Definition planRoute (event : Event) (requestId : string) : M FcResponse :=
  try_catch
    (body <- match ev_body event with
             | BodyString s =>
                 match JSON_parse s with
                 | inr b => ret b
                 | inl msg => throw (TypeError msg)
                 end
             | BodyObject b => ret b
             | BodyFalsy => ret (ev_fields event)
             end ;;
     match Handler.b_start body, Handler.b_end body with
     | Some start, Some end_ =>
         let params :=
           {| p_origin := Some {| lng := lng start;
                                  lat := lat start;
                                  name := Some (Handler.str_or (name start) "起点") |};
              p_destination := Some {| lng := lng end_;
                                       lat := lat end_;
                                       name := Some (Handler.str_or (name end_) "终点") |};
              p_time := Some (default now (Handler.b_time body));
              p_preference :=
                Some (Handler.str_or (Handler.b_preference body) "balance") |} in
         result <- RoutePlannerService.planRoute P now nowISO params ;;
         ret {| fc_statusCode := 200;
                fc_json := Handler.SuccessBody 0 "success" result;
                fc_requestId := Some requestId |}
     | _, _ =>
         ret {| fc_statusCode := 400;
                fc_json := Handler.ErrorBody 400 "缺少起点或终点参数";
                fc_requestId := None |}
     end)
    (fun error =>
       match error with
       | TypeError msg =>
           ret {| fc_statusCode := 500;
                  fc_json := Handler.ErrorBody 500 ("路线规划失败: " ++ msg)%string;
                  fc_requestId := Some requestId |}
       end).

End WithProvider.
End FunctionCompute.

(** ** Inside the provider facade: parsing the provider's payload *)

(** The payload of the map provider, as far as the facade reads it.  Its
    numeric fields are taken as numbers; a property the code dereferences
    may be absent. *)
Record RawStop := { stop_name : string }.

Record RawBusline := {
  bl_name : string;
  departure_stop : option RawStop;
  arrival_stop : option RawStop;
  via_num : Q;
  bl_duration : Q
}.

Record RawBus := { buslines : option (list RawBusline) }.

Record RawWalking := { wk_distance : Q; wk_duration : Q }.

Record RawSegment := {
  bus : option RawBus;
  walking : option RawWalking
}.

Record RawTransit := {
  rt_duration : Q;
  rt_distance : Q;
  rt_cost : option Q;
  rt_walking_distance : Q;
  rt_segments : option (list RawSegment)
}.

Record RawPath := {
  pa_distance : Q;
  pa_duration : Q;
  pa_traffic_lights : option Q;
  pa_tolls : option Q
}.

(** [response.data.route] of the two services. *)
Record RawTransitRoute := { rr_transits : option (list RawTransit) }.

Record RawDrivingRoute := { rr_paths : option (list RawPath) }.

(** What an HTTP request to the provider comes to: an error thrown by the
    client, or a payload with its [status] and its optional [route]. *)
Inductive NetReply (A : Type) :=
| NetError (msg : string)
| NetData (status : string) (route : option A).
Arguments NetError {A} msg.
Arguments NetData {A} status route.

Record Network := {
  transit_reply : Log -> GeoPoint -> GeoPoint -> NetReply RawTransitRoute;
  driving_reply : Log -> GeoPoint -> GeoPoint -> NetReply RawDrivingRoute
}.

Module AmapFacade.
Import AmapService.

(** [Math.ceil]. *)
Definition Math_ceil (x : Q) : Z := Qceiling x.

(** [x || dflt] for a number: absent and zero are both falsy. *)
Definition num_or (x : option Q) (dflt : Q) : Q :=
  match x with
  | Some q => if Qeq_bool q 0 then dflt else q
  | None => dflt
  end.

(** Synchronous code that may throw. *)
Definition obind {A B} (m : Outcome A) (k : A -> Outcome B) : Outcome B :=
  match m with
  | Return a => k a
  | Throw e => Throw e
  end.

Fixpoint map_throwing {A B} (f : A -> Outcome B) (l : list A) : Outcome (list B) :=
  match l with
  | [] => Return []
  | x :: xs =>
      obind (f x) (fun y => obind (map_throwing f xs) (fun ys => Return (y :: ys)))
  end.

(** One segment of an itinerary: a subway leg, a walking leg, or [null]
    (dropped afterwards by [filter(Boolean)]). *)
Definition parse_segment (seg : RawSegment) : Outcome (option Segment) :=
  match match bus seg with
        | Some b => match buslines b with
                    | Some (line :: _) => Some line
                    | _ => None
                    end
        | None => None
        end with
  | Some line =>
      match departure_stop line, arrival_stop line with
      | Some dep, Some arr =>
          Return (Some (SubwaySeg (bl_name line) (stop_name dep) (stop_name arr)
                          (via_num line + 2)
                          (inject_Z (Math_ceil (bl_duration line / 60)))))
      | _, _ =>
          Throw (TypeError "Cannot read properties of undefined (reading 'name')")
      end
  | None =>
      match walking seg with
      | Some w =>
          Return (Some (WalkSeg (wk_distance w)
                          (inject_Z (Math_ceil (wk_duration w / 60)))))
      | None => Return None
      end
  end.

Definition keep_some {A} (l : list (option A)) : list A :=
  flat_map (fun o => match o with Some a => [a] | None => [] end) l.

Definition _parseTransitSegments (segments : option (list RawSegment))
  : Outcome (list Segment) :=
  match segments with
  | None => Throw (TypeError "Cannot read properties of undefined (reading 'map')")
  | Some segments =>
      obind (map_throwing parse_segment segments) (fun l => Return (keep_some l))
  end.

(** The itineraries from index [index] on. *)
Fixpoint parse_transits_from (index : nat) (transits : list RawTransit)
  : Outcome (list Transit) :=
  match transits with
  | [] => Return []
  | transit :: rest =>
      obind (_parseTransitSegments (rt_segments transit)) (fun segs =>
      obind (parse_transits_from (S index) rest) (fun ts =>
      Return ({| t_id := ("subway_" ++ show_Z (Z.of_nat index))%string;
                 t_duration := inject_Z (Math_ceil (rt_duration transit / 60));
                 t_distance := rt_distance transit;
                 t_cost := num_or (rt_cost transit) 9;
                 t_walkDistance := rt_walking_distance transit;
                 t_segments := segs |} :: ts)))
  end.

Definition _parseSubwayRoutes (transits : option (list RawTransit))
  : Outcome (list Transit) :=
  match transits with
  | None => Throw (TypeError "Cannot read properties of undefined (reading 'slice')")
  | Some transits => parse_transits_from 0 (slice_first 3 transits)
  end.

Definition _parseDrivingRoute (path : option RawPath) : Outcome Driving :=
  match path with
  | None =>
      Throw (TypeError "Cannot read properties of undefined (reading 'distance')")
  | Some path =>
      Return {| d_distance := pa_distance path;
                d_duration := inject_Z (Math_ceil (pa_duration path / 60));
                d_traffic := num_or (pa_traffic_lights path) 0;
                d_tolls := num_or (pa_tolls path) 0 |}
  end.

(** [!this.apiKey]: no key, or an empty one. *)
Definition no_key (apiKey : option string) : bool :=
  match apiKey with
  | Some k => String.eqb k EmptyString
  | None => true
  end.

(** The transit query of the facade, given what the HTTP request comes to. *)
Definition getSubwayRoutes (apiKey : option string)
    (reply : NetReply RawTransitRoute) (origin destination : GeoPoint)
  : list Transit :=
  if no_key apiKey then _mockSubwayRoutes origin destination
  else
    match match reply with
          | NetError msg => Throw (TypeError msg)
          | NetData status route =>
              match String.eqb status "1", route with
              | true, Some route => _parseSubwayRoutes (rr_transits route)
              | _, _ => Return []
              end
          end with
    | Return l => l
    | Throw error => _mockSubwayRoutes origin destination
    end.

(** The driving query of the facade. *)
Definition getDrivingRoute (apiKey : option string)
    (reply : NetReply RawDrivingRoute) (origin destination : GeoPoint)
  : option Driving :=
  if no_key apiKey then Some (_mockDrivingRoute origin destination)
  else
    match match reply with
          | NetError msg => Throw (TypeError msg)
          | NetData status route =>
              match String.eqb status "1", route with
              | true, Some route =>
                  match rr_paths route with
                  | None =>
                      Throw (TypeError
                        "Cannot read properties of undefined (reading '0')")
                  | Some paths =>
                      obind (_parseDrivingRoute (hd_error paths))
                        (fun drv => Return (Some drv))
                  end
              | _, _ => Return None
              end
          end with
    | Return r => r
    | Throw error => Some (_mockDrivingRoute origin destination)
    end.

(** The facade as a provider, over a network. *)
Definition provider (apiKey : option string) (net : Network) : Provider :=
  {| transits := fun log o d =>
       getSubwayRoutes apiKey (transit_reply net log o d) o d;
     driving := fun log o d =>
       getDrivingRoute apiKey (driving_reply net log o d) o d |}.

End AmapFacade.
(** ** Specification-side vocabulary *)

(** [s] contains [needle] as a substring. *)
Definition contains (needle s : string) : Prop :=
  exists pre post, s = (pre ++ needle ++ post)%string.

(** The destination names a transport hub: its name is present and holds
    the airport keyword or the railway-station keyword. *)
Definition hub_destination (destination : GeoPoint) : Prop :=
  exists nm, name destination = Some nm
             /\ (contains "机场" nm \/ contains "火车站" nm).

(** The raw axis score of the scoring engine for a value [v] in a set whose
    least and greatest values are [minV] and [maxV]. *)
Definition axis_raw (minV maxV v : Q) : Q :=
  if Qeq_bool maxV minV then 100
  else 100 * (1 - (v - minV) / (maxV - minV)).

(** The surcharge factor the estimator applies for a scenario argument. *)
Definition surcharge (scenario : option Scenario) : Q :=
  match scenario with
  | Some Peak => 1.3
  | Some LateNight => 1.5
  | _ => 1
  end.

(** The scenario decided by the hour alone. *)
Definition scenario_by_hour (hour : Z) : Scenario :=
  if (23 <=? hour)%Z || (hour <? 5)%Z then LateNight
  else if ((7 <=? hour)%Z && (hour <=? 9)%Z)
          || ((17 <=? hour)%Z && (hour <=? 19)%Z) then Peak
  else Routine.

(** ** Example requests and providers *)

(** The end-to-end example: from the airport to a residential area at 18h,
    balanced preference, served by the facade's simulated data (one transit
    itinerary of 65 min, 9 yuan, 45000 m; one driving estimate of 78 min,
    52000 m). *)
Definition example_origin : GeoPoint :=
  {| lng := Some 116.4107; lat := Some 39.5097; name := Some "Airport" |}.

Definition example_destination : GeoPoint :=
  {| lng := Some 116.2937; lat := Some 40.0723; name := Some "ResidentialArea" |}.

Definition example_time : Date := {| getHours := 18 |}.

Definition example_params : PlanParams :=
  {| p_origin := Some example_origin;
     p_destination := Some example_destination;
     p_time := Some example_time;
     p_preference := Some "balance" |}.

Definition example_iso : string := "2025-01-06T10:00:00.000Z".

(** A candidate has a short taxi leg: one of its taxi segments covers at
    most 2000 metres. *)
Definition short_taxi_leg (r : Route) : Prop :=
  exists leg, In (TaxiSeg leg) (segments r) /\ tx_distance leg <= 2000.

(** The pre-ranking key of the pruning filter. *)
Definition prune_key (r : Route) : Q := totalDuration r + 2 * totalCost r.

(** Ascending order of a list under a numeric key. *)
Definition ascending {A} (key : A -> Q) (l : list A) : Prop :=
  StronglySorted (fun a b => key a <= key b) l.

(** Descending order of scored candidates under the composite score. *)
Definition descending_by_total (l : list ScoredRoute) : Prop :=
  StronglySorted (fun a b => num_le (s_total (scores b)) (s_total (scores a))) l.

(** A provider that knows two transit itineraries, the slower and dearer
    one first, and has no driving estimate. *)
Definition slow_transit : Transit :=
  {| t_id := "subway_0";
     t_duration := 90;
     t_distance := 30000;
     t_cost := 9;
     t_walkDistance := 0;
     t_segments := [SubwaySeg "1号线" "苹果园站" "四惠东站" 22 90] |}.

Definition fast_transit : Transit :=
  {| t_id := "subway_1";
     t_duration := 60;
     t_distance := 28000;
     t_cost := 5;
     t_walkDistance := 0;
     t_segments := [SubwaySeg "6号线" "金安桥站" "潞城站" 30 60] |}.

Definition transitOnlyProvider : Provider :=
  {| transits := fun _ _ _ => [slow_transit; fast_transit];
     driving := fun _ _ _ => None |}.

Definition two_candidates : list Route :=
  [RoutePlannerService.subway_candidate slow_transit;
   RoutePlannerService.subway_candidate fast_transit].

(** A provider that answers nothing: no transit itinerary, no driving
    estimate. *)
Definition silentProvider : Provider :=
  {| transits := fun _ _ _ => [];
     driving := fun _ _ _ => None |}.

(** A morning request between two plain addresses. *)
Definition plain_origin : GeoPoint :=
  {| lng := Some 116.30; lat := Some 39.90; name := Some "家" |}.

Definition plain_destination : GeoPoint :=
  {| lng := Some 116.45; lat := Some 39.92; name := Some "公司" |}.

Definition plain_params : PlanParams :=
  {| p_origin := Some plain_origin;
     p_destination := Some plain_destination;
     p_time := Some {| getHours := 10 |};
     p_preference := Some "balance" |}.

(** ** Reasoning vocabulary for the effectful code *)

(** A computation only appends to the request log. *)
Definition extends {A} (m : M A) : Prop :=
  forall log, exists ext, snd (m log) = log ++ ext.

(** A computation never throws. *)
Definition returns {A} (m : M A) : Prop :=
  forall log, exists a, fst (m log) = Return a.

(** Every value a computation returns satisfies [Q]. *)
Definition post {A} (m : M A) (Q : A -> Prop) : Prop :=
  forall log a log', m log = (Return a, log') -> Q a.

(** ** Totals of a candidate *)

Definition sumQ (l : list Q) : Q := fold_right Qplus 0 l.

(** The sums of the segment fields of a candidate; a field a segment lacks
    counts for nothing. *)
Definition segments_duration (r : Route) : Q :=
  sumQ (map seg_duration (segments r)).

Definition segments_cost (r : Route) : Q :=
  sumQ (map (fun s => or_0 (seg_cost s)) (segments r)).

Definition segments_distance (r : Route) : Q :=
  sumQ (map (fun s => or_0 (seg_distance s)) (segments r)).

(** Totals equal to the segment sums, up to one unit of rounding. *)
Definition totals_are_segment_sums (r : Route) : Prop :=
  Qabs (totalDuration r - segments_duration r) <= 1
  /\ Qabs (totalCost r - segments_cost r) <= 1
  /\ Qabs (totalDistance r - segments_distance r) <= 1.

(** The provider answered [t] to some transit query. *)
Definition answered (P : Provider) (t : Transit) : Prop :=
  exists log origin destination, In t (transits P log origin destination).

(** Totals of a candidate built on a transit itinerary [t], with taxi legs
    before and after it: the taxi legs' fields plus the itinerary's own
    duration, cost and distance. *)
Definition transit_based_totals (P : Provider) (r : Route) : Prop :=
  exists (before : list TaxiLeg) (t : Transit) (after : list TaxiLeg),
    answered P t
    /\ segments r = map TaxiSeg before ++ t_segments t ++ map TaxiSeg after
    /\ totalDuration r == sumQ (map tx_duration (before ++ after)) + t_duration t
    /\ totalCost r == sumQ (map tx_cost (before ++ after)) + t_cost t
    /\ totalDistance r == sumQ (map tx_distance (before ++ after)) + t_distance t.

(** Totals of the pure-taxi candidate: its single leg's cost and distance,
    and the leg's duration plus its waiting time. *)
Definition single_taxi_totals (r : Route) : Prop :=
  exists leg,
    segments r = [TaxiSeg leg]
    /\ totalDuration r == tx_duration leg + tx_waitTime leg
    /\ totalCost r == tx_cost leg
    /\ totalDistance r == tx_distance leg.

Definition candidate_totals (P : Provider) (r : Route) : Prop :=
  match type r with
  | taxi => single_taxi_totals r
  | _ => transit_based_totals P r
  end.

(** The candidates of the end-to-end example. *)
Definition example_candidates : list Route :=
  match fst (RoutePlannerService._generateAllRoutes AmapService.mockProvider
               example_origin example_destination []) with
  | Return rs => rs
  | Throw _ => []
  end.

(** A request whose origin has no coordinates. *)
Definition no_coordinates_origin : GeoPoint :=
  {| lng := None; lat := None; name := Some "家" |}.

Definition no_coordinates_params : PlanParams :=
  {| p_origin := Some no_coordinates_origin;
     p_destination := Some plain_destination;
     p_time := Some {| getHours := 10 |};
     p_preference := Some "balance" |}.

Definition no_coordinates_request : Handler.Request :=
  {| Handler.method := "POST";
     Handler.url := "/api/routes/plan";
     Handler.body :=
       Handler.Present {| Handler.b_start := Some no_coordinates_origin;
                          Handler.b_end := Some plain_destination;
                          Handler.b_time := Some {| getHours := 10 |};
                          Handler.b_preference := Some "balance" |} |}.

(** A planning request without its [start]. *)
Definition no_start_request : Handler.Request :=
  {| Handler.method := "POST";
     Handler.url := "/api/routes/plan";
     Handler.body :=
       Handler.Present {| Handler.b_start := None;
                          Handler.b_end := Some plain_destination;
                          Handler.b_time := None;
                          Handler.b_preference := None |} |}.

(** A planning request without a body. *)
Definition no_body_request : Handler.Request :=
  {| Handler.method := "POST";
     Handler.url := "/api/routes/plan";
     Handler.body := Handler.Absent Handler.js_undefined |}.

(** A request to a destination without a name, at 8h. *)
Definition unnamed_destination : GeoPoint :=
  {| lng := Some 116.45; lat := Some 39.92; name := None |}.

Definition unnamed_params : PlanParams :=
  {| p_origin := Some plain_origin;
     p_destination := Some unnamed_destination;
     p_time := Some {| getHours := 8 |};
     p_preference := None |}.

(** A provider whose direct transit itinerary is a long detour, while the
    stations along the route are well connected; driving estimates are the
    facade's simulated ones. *)
Definition detour_transit : Transit :=
  {| t_id := "subway_0";
     t_duration := 300;
     t_distance := 60000;
     t_cost := 9;
     t_walkDistance := 0;
     t_segments := [SubwaySeg "S1线" "金安桥站" "石厂站" 8 300] |}.

Definition named (p : GeoPoint) (s : string) : bool :=
  match name p with
  | Some nm => String.eqb nm s
  | None => false
  end.

Definition detourProvider : Provider :=
  {| transits := fun _ o d =>
       if named o "家" && named d "公司" then [detour_transit]
       else [fast_transit];
     driving := fun _ o d => Some (AmapService._mockDrivingRoute o d) |}.

Definition time_params : PlanParams :=
  {| p_origin := Some plain_origin;
     p_destination := Some plain_destination;
     p_time := Some {| getHours := 10 |};
     p_preference := Some "time" |}.

Definition detour_candidates : list Route :=
  match fst (RoutePlannerService._generateAllRoutes detourProvider
               plain_origin plain_destination []) with
  | Return rs => rs
  | Throw _ => []
  end.


(** ** Further vocabulary *)

(** The walking distances and the taxi waiting times of a segment list are
    not negative. *)
Definition nonneg_legs (l : list Segment) : Prop :=
  Forall (fun s => match s with
                   | WalkSeg d _ => 0 <= d
                   | TaxiSeg leg => 0 <= tx_waitTime leg
                   | SubwaySeg _ _ _ _ _ => True
                   end) l.

(** The scored entry the scoring engine builds for candidate [r] of the
    set [routes]. *)
Definition score_entry (routes : list Route) (preference : string)
    (scenario : Scenario) (r : Route) : ScoredRoute :=
  let timeScore :=
    axis_raw (Math_min_of (map totalDuration routes))
             (Math_max_of (map totalDuration routes)) (totalDuration r) in
  let costScore :=
    axis_raw (Math_min_of (map totalCost routes))
             (Math_max_of (map totalCost routes)) (totalCost r) in
  let comfortScore := RoutePlannerService._calculateComfortScore r in
  let weights := RoutePlannerService._getWeights preference scenario in
  let totalScore :=
    match weights with
    | Some weights =>
        Some ((timeScore * w_time weights + costScore * w_cost weights
               + comfortScore * w_comfort weights) / 100)
    | None => None
    end in
  {| route := r;
     scores := {| s_time := Math_round timeScore;
                  s_cost := Math_round costScore;
                  s_comfort := Math_round comfortScore;
                  s_total :=
                    match totalScore with
                    | Some totalScore =>
                        Some (inject_Z (Math_round (totalScore * 10)) / 10)
                    | None => None
                    end |};
     summary := RoutePlannerService._generateSummary r |}.

(** The weights are numbers: the preference is not a key the weight table
    inherits, or the scenario replaces the weights. *)
Definition weights_defined (preference : string) (scenario : Scenario) : Prop :=
  RoutePlannerService.inherited_key preference = false
  \/ scenario = RushToCatch \/ scenario = LateNight.

(** The weights are undefined: an inherited key in a scenario that keeps
    the weights of the preference. *)
Definition weights_undefined (preference : string) (scenario : Scenario) : Prop :=
  RoutePlannerService.inherited_key preference = true
  /\ (scenario = Peak \/ scenario = Routine).

(** The composite score of a scored candidate, where it is a number. *)
Definition total_of (sr : ScoredRoute) : Q := or_0 (s_total (scores sr)).

(** Every composite score of the list is a number, resp. is [NaN]. *)
Definition totals_are_numbers (l : list ScoredRoute) : Prop :=
  forall sr, In sr l -> exists t, s_total (scores sr) = Some t.

Definition totals_are_NaN (l : list ScoredRoute) : Prop :=
  forall sr, In sr l -> s_total (scores sr) = None.

(** [x] is the first element of [l] whose key is least: strictly below the
    keys before it, at most the keys after it. *)
Definition first_least {A} (key : A -> Q) (l : list A) (x : A) : Prop :=
  exists pre post,
    l = pre ++ x :: post
    /\ (forall y, In y pre -> key x < key y)
    /\ (forall y, In y post -> key x <= key y).

(** The hybrid candidates of the end-to-end example before pruning. *)
Definition example_hybrids : list Route :=
  match fst ((stations <-
                MixedRouteGenerator.getSubwayStationsAlongRoute
                  example_origin example_destination ;;
              startTaxiRoutes <-
                MixedRouteGenerator._generateStartTaxiRoutes
                  AmapService.mockProvider example_origin example_destination
                  stations ;;
              endTaxiRoutes <-
                MixedRouteGenerator._generateEndTaxiRoutes
                  AmapService.mockProvider example_origin example_destination
                  stations ;;
              bothTaxiRoutes <-
                MixedRouteGenerator._generateBothTaxiRoutes
                  AmapService.mockProvider example_origin example_destination
                  stations ;;
              ret (startTaxiRoutes ++ endTaxiRoutes ++ bothTaxiRoutes)) []) with
  | Return l => l
  | Throw _ => []
  end.

(** A computation appends at most [n] requests to the log. *)
Definition calls_at_most {A} (n : nat) (m : M A) : Prop :=
  forall log, exists ext,
    snd (m log) = log ++ ext /\ (List.length ext <= n)%nat.

(** [minutes] is the least whole number of minutes that covers [seconds]. *)
Definition minutes_of (seconds minutes : Q) : Prop :=
  (exists n : Z, minutes = inject_Z n)
  /\ seconds <= minutes * 60
  /\ (minutes - 1) * 60 < seconds.

Definition no_taxi_leg (l : list Segment) : Prop :=
  Forall (fun s => mode s <> taxi_mode) l.

(** The itinerary [t] carries the data of the payload itinerary [rt]. *)
Definition parsed_from (rt : RawTransit) (t : Transit) : Prop :=
  minutes_of (rt_duration rt) (t_duration t)
  /\ t_distance t = rt_distance rt
  /\ t_walkDistance t = rt_walking_distance rt
  /\ (forall c, rt_cost rt = Some c -> ~ c == 0 -> t_cost t = c)
  /\ (rt_cost rt = None \/ (exists c, rt_cost rt = Some c /\ c == 0) ->
      t_cost t = 9)
  /\ no_taxi_leg (t_segments t)
  /\ (exists segs, rt_segments rt = Some segs
                   /\ (List.length (t_segments t) <= List.length segs)%nat).

(** The provider declined the request: status other than ["1"], or no
    route in the payload. *)
Definition refused {A} (reply : NetReply A) : Prop :=
  exists status route,
    reply = NetData status route /\ (status <> "1" \/ route = None).

(** A payload with two itineraries, the second without cost and with a
    segment that is neither a line nor a walk, and a network that always
    answers it. *)
Definition raw_line : RawBusline :=
  {| bl_name := "4号线";
     departure_stop := Some {| stop_name := "草桥站" |};
     arrival_stop := Some {| stop_name := "西直门站" |};
     via_num := 16;
     bl_duration := 2050 |}.

Definition raw_transits : list RawTransit :=
  [ {| rt_duration := 3301;
       rt_distance := 21000;
       rt_cost := Some 6;
       rt_walking_distance := 450;
       rt_segments :=
         Some [ {| bus := None;
                   walking := Some {| wk_distance := 450; wk_duration := 361 |} |};
                {| bus := Some {| buslines := Some [raw_line] |};
                   walking := None |} ] |};
    {| rt_duration := 3600;
       rt_distance := 23000;
       rt_cost := None;
       rt_walking_distance := 0;
       rt_segments :=
         Some [ {| bus := Some {| buslines := Some [] |}; walking := None |};
                {| bus := Some {| buslines := Some [raw_line] |};
                   walking := None |} ] |} ].

Definition raw_network : Network :=
  {| transit_reply := fun _ _ _ =>
       NetData "1" (Some {| rr_transits := Some raw_transits |});
     driving_reply := fun _ _ _ =>
       NetData "1" (Some {| rr_paths :=
         Some [ {| pa_distance := 18000; pa_duration := 1501;
                   pa_traffic_lights := Some 12; pa_tolls := None |} ] |}) |}.

(** A network that declines every request. *)
Definition refusing_network : Network :=
  {| transit_reply := fun _ _ _ => NetData "0" None;
     driving_reply := fun _ _ _ => NetData "0" None |}.

(** The planner's argument the entry points build from a request body with
    its [start] and [end]. *)
Definition params_of_body (now : Date) (body : Handler.Body)
    (start end_ : GeoPoint) : PlanParams :=
  {| p_origin := Some {| lng := lng start;
                         lat := lat start;
                         name := Some (Handler.str_or (name start) "起点") |};
     p_destination := Some {| lng := lng end_;
                              lat := lat end_;
                              name := Some (Handler.str_or (name end_) "终点") |};
     p_time := Some (default now (Handler.b_time body));
     p_preference := Some (Handler.str_or (Handler.b_preference body) "balance") |}.

(** A complete request body and a parser that knows one string. *)
Definition plain_body : Handler.Body :=
  {| Handler.b_start := Some {| lng := Some 116.30; lat := Some 39.90;
                                name := None |};
     Handler.b_end := Some plain_destination;
     Handler.b_time := None;
     Handler.b_preference := None |}.

Definition plain_request : Handler.Request :=
  {| Handler.method := "POST";
     Handler.url := "/api/routes/plan";
     Handler.body := Handler.Present plain_body |}.

Definition toy_parse (s : string) : string + Handler.Body :=
  if String.eqb s "{plain}" then inr plain_body
  else inl "Unexpected token in JSON".

(** ** Facts on the primitives *)

Lemma prefix_spec (needle s : string) :
  prefix needle s = true <-> exists post, s = (needle ++ post)%string.
Proof.
  revert s. induction needle as [|c needle IH]; intros s.
  - split; [intros _; now exists s | intros _; now destruct s].
  - destruct s as [|c' s]; simpl.
    + split; [discriminate | intros [post H]; simpl in H; discriminate].
    + destruct (Ascii.ascii_dec c c') as [->|Hne].
      * rewrite IH. split; intros [post H]; exists post.
        -- now rewrite H.
        -- simpl in H. now injection H.
      * split; [discriminate |].
        intros [post H]. simpl in H. injection H as H1 _. now elim Hne.
Qed.

Lemma includes_spec (needle s : string) :
  includes needle s = true <-> contains needle s.
Proof.
  split.
  - induction s as [|c s IH]; cbn [includes].
    + destruct (prefix needle EmptyString) eqn:E; [|intros; discriminate].
      intros _. apply prefix_spec in E as [post E].
      exists EmptyString, post. exact E.
    + destruct (prefix needle (String c s)) eqn:E.
      * intros _. apply prefix_spec in E as [post E].
        exists EmptyString, post. exact E.
      * intros H. destruct (IH H) as (pre & post & ->).
        now exists (String c pre), post.
  - intros (pre & post & ->). induction pre as [|c pre IH].
    + assert (E : prefix needle (EmptyString ++ needle ++ post) = true)
        by (apply prefix_spec; now exists post).
      destruct (EmptyString ++ needle ++ post)%string eqn:Es; cbn [includes]; now rewrite E.
    + cbn [append includes].
      destruct (prefix needle (String c (pre ++ needle ++ post))); auto.
Qed.

Lemma opt_includes_spec (needle : string) (destination : GeoPoint) :
  opt_includes needle (name destination) = true
  <-> exists nm, name destination = Some nm /\ contains needle nm.
Proof.
  unfold opt_includes. destruct (name destination) as [nm|].
  - rewrite includes_spec. split.
    + intros H. now exists nm.
    + intros (nm' & [= <-] & H). exact H.
  - split; [discriminate | intros (nm & [=] & _)].
Qed.

Lemma hub_destination_spec (destination : GeoPoint) :
  opt_includes "机场" (name destination)
  || opt_includes "火车站" (name destination) = true
  <-> hub_destination destination.
Proof.
  rewrite orb_true_iff, !opt_includes_spec. unfold hub_destination. split.
  - intros [(nm & E & H)|(nm & E & H)]; exists nm; auto.
  - intros (nm & E & [H|H]); [left|right]; now exists nm.
Qed.

Lemma Math_round_comp (a b : Q) : a == b -> Math_round a = Math_round b.
Proof. intros H. unfold Math_round. now rewrite H. Qed.

Lemma Math_round_le (a b : Q) : a <= b -> (Math_round a <= Math_round b)%Z.
Proof. intros H. unfold Math_round. apply Qfloor_resp_le. lra. Qed.

Lemma Math_round_Z (z : Z) : Math_round (inject_Z z) = z.
Proof.
  unfold Math_round, Qplus, inject_Z, Qfloor. cbn [Qnum Qden Pos.mul].
  replace (z * 2 + 1 * 1)%Z with (1 + z * 2)%Z by lia.
  rewrite Z.div_add by lia. reflexivity.
Qed.

(** Rounding to one decimal keeps a lower bound that has one decimal. *)
Lemma round1_lower (k : Z) (c : Q) :
  inject_Z k / 10 <= c -> inject_Z k / 10 <= inject_Z (Math_round (c * 10)) / 10.
Proof.
  intros H.
  assert (Hk : (k <= Math_round (c * 10))%Z).
  { rewrite <- (Math_round_Z k) at 1. apply Math_round_le.
    change (inject_Z k / 10) with (inject_Z k * (1 # 10)) in H. lra. }
  rewrite Zle_Qle in Hk.
  change (inject_Z k / 10) with (inject_Z k * (1 # 10)).
  change (inject_Z (Math_round (c * 10)) / 10)
    with (inject_Z (Math_round (c * 10)) * (1 # 10)).
  lra.
Qed.

Lemma round1_exact (k : Z) (c : Q) :
  c == inject_Z k / 10 -> inject_Z (Math_round (c * 10)) / 10 == inject_Z k / 10.
Proof.
  intros H.
  rewrite (Math_round_comp (c * 10) (inject_Z k)).
  - now rewrite Math_round_Z.
  - rewrite H. field.
Qed.

(** The least and the greatest of a non-empty array. *)
Lemma fold_left_Qmin_le_init (xs : list Q) (x : Q) : fold_left Qmin xs x <= x.
Proof.
  revert x. induction xs as [|y ys IH]; intros x; simpl.
  - lra.
  - eapply Qle_trans; [apply IH | apply Q.le_min_l].
Qed.

Lemma fold_left_Qmin_le (xs : list Q) (x y : Q) :
  In y xs -> fold_left Qmin xs x <= y.
Proof.
  revert x. induction xs as [|z zs IH]; intros x; simpl; [tauto|].
  intros [->|H].
  - eapply Qle_trans; [apply fold_left_Qmin_le_init | apply Q.le_min_r].
  - now apply IH.
Qed.

Lemma fold_left_Qmin_In (xs : list Q) (x : Q) :
  exists y, In y (x :: xs) /\ fold_left Qmin xs x == y.
Proof.
  revert x. induction xs as [|z zs IH]; intros x; simpl.
  - exists x. split; [now left | reflexivity].
  - destruct (IH (Qmin x z)) as (y & [<-|Hy] & E).
    + destruct (Q.min_dec x z) as [E'|E'].
      * exists x. split; [now left | now rewrite E].
      * exists z. split; [right; now left | now rewrite E].
    + exists y. split; [right; now right | exact E].
Qed.

Lemma fold_left_Qmax_ge_init (xs : list Q) (x : Q) : x <= fold_left Qmax xs x.
Proof.
  revert x. induction xs as [|y ys IH]; intros x; simpl.
  - lra.
  - eapply Qle_trans; [apply Q.le_max_l | apply IH].
Qed.

Lemma fold_left_Qmax_ge (xs : list Q) (x y : Q) :
  In y xs -> y <= fold_left Qmax xs x.
Proof.
  revert x. induction xs as [|z zs IH]; intros x; simpl; [tauto|].
  intros [->|H].
  - eapply Qle_trans; [apply Q.le_max_r | apply fold_left_Qmax_ge_init].
  - now apply IH.
Qed.

Lemma fold_left_Qmax_In (xs : list Q) (x : Q) :
  exists y, In y (x :: xs) /\ fold_left Qmax xs x == y.
Proof.
  revert x. induction xs as [|z zs IH]; intros x; simpl.
  - exists x. split; [now left | reflexivity].
  - destruct (IH (Qmax x z)) as (y & [<-|Hy] & E).
    + destruct (Q.max_dec x z) as [E'|E'].
      * exists x. split; [now left | now rewrite E].
      * exists z. split; [right; now left | now rewrite E].
    + exists y. split; [right; now right | exact E].
Qed.

Lemma Math_min_of_le (l : list Q) (y : Q) : In y l -> Math_min_of l <= y.
Proof.
  destruct l as [|x xs]; simpl; [tauto|].
  intros [->|H]; [apply fold_left_Qmin_le_init | now apply fold_left_Qmin_le].
Qed.

Lemma Math_min_of_In (l : list Q) :
  l <> [] -> exists y, In y l /\ Math_min_of l == y.
Proof.
  destruct l as [|x xs]; [congruence|]. intros _. apply fold_left_Qmin_In.
Qed.

Lemma Math_max_of_ge (l : list Q) (y : Q) : In y l -> y <= Math_max_of l.
Proof.
  destruct l as [|x xs]; simpl; [tauto|].
  intros [->|H]; [apply fold_left_Qmax_ge_init | now apply fold_left_Qmax_ge].
Qed.

Lemma Math_max_of_In (l : list Q) :
  l <> [] -> exists y, In y l /\ Math_max_of l == y.
Proof.
  destruct l as [|x xs]; [congruence|]. intros _. apply fold_left_Qmax_In.
Qed.

(** ** Properties of the planner *)

Import AmapService RoutePlannerService.

(** *** Bounds of the fare estimate *)

Lemma round1_floor (k : Z) (b c : Q) :
  b == inject_Z k / 10 -> b <= c -> b <= inject_Z (Math_round (c * 10)) / 10.
Proof.
  intros E H. rewrite E in *. now apply round1_lower.
Qed.

Lemma km_surcharge_nonneg (distance : Q) :
  0 <= Math_max 0 (distance / 1000 - 3) * 2.3.
Proof.
  unfold Math_max.
  assert (H := Q.le_max_l 0 (distance / 1000 - 3)).
  apply Qmult_le_0_compat; [exact H | lra].
Qed.

Lemma km_surcharge_zero (distance : Q) :
  distance <= 3000 -> Math_max 0 (distance / 1000 - 3) * 2.3 == 0.
Proof.
  intros H. unfold Math_max. rewrite Q.max_l.
  - lra.
  - change (distance / 1000) with (distance * (1 # 1000)). lra.
Qed.

Lemma planner_estimate_floor (distance duration : Q) (scenario : option Scenario) :
  0 <= duration -> 13 <= _estimateTaxiCost distance duration scenario.
Proof.
  intros Hd. unfold _estimateTaxiCost.
  assert (K := km_surcharge_nonneg distance).
  set (km := Math_max 0 (distance / 1000 - 3) * 2.3) in *.
  apply (round1_floor 130); [reflexivity|].
  destruct scenario as [[]|]; cbn [default]; lra.
Qed.

Lemma mixed_estimate_floor (distance duration : Q) :
  0 <= duration -> 13 <= MixedRouteGenerator._estimateTaxiCost distance duration.
Proof.
  intros Hd. unfold MixedRouteGenerator._estimateTaxiCost.
  assert (K := km_surcharge_nonneg distance).
  set (km := Math_max 0 (distance / 1000 - 3) * 2.3) in *.
  apply (round1_floor 130); [reflexivity|]. lra.
Qed.

Lemma planner_estimate_base (distance duration : Q) (scenario : option Scenario) :
  distance <= 3000 -> duration == 0 ->
  _estimateTaxiCost distance duration scenario
  == match default Routine scenario with
     | Peak => 16.9
     | LateNight => 19.5
     | _ => 13
     end.
Proof.
  intros Hx Hd. unfold _estimateTaxiCost.
  assert (K := km_surcharge_zero distance Hx).
  set (km := Math_max 0 (distance / 1000 - 3) * 2.3) in *.
  destruct scenario as [[]|]; cbn [default].
  - rewrite (round1_exact 130); [reflexivity | rewrite K, Hd; reflexivity].
  - rewrite (round1_exact 195); [reflexivity | rewrite K, Hd; reflexivity].
  - rewrite (round1_exact 169); [reflexivity | rewrite K, Hd; reflexivity].
  - rewrite (round1_exact 130); [reflexivity | rewrite K, Hd; reflexivity].
  - rewrite (round1_exact 130); [reflexivity | rewrite K, Hd; reflexivity].
Qed.

Lemma mixed_estimate_base (distance duration : Q) :
  distance <= 3000 -> duration == 0 ->
  MixedRouteGenerator._estimateTaxiCost distance duration == 13.
Proof.
  intros Hx Hd. unfold MixedRouteGenerator._estimateTaxiCost.
  assert (K := km_surcharge_zero distance Hx).
  set (km := Math_max 0 (distance / 1000 - 3) * 2.3) in *.
  rewrite (round1_exact 130); [reflexivity | rewrite K, Hd; reflexivity].
Qed.

(** The planner's estimator and the generator's agree when no scenario is
    passed. *)
Lemma estimators_agree (distance duration : Q) :
  _estimateTaxiCost distance duration None
  = MixedRouteGenerator._estimateTaxiCost distance duration.
Proof. reflexivity. Qed.

(** *** One axis of the normalisation *)

Section Axis.
Variable f : Route -> Q.
Variable routes : list Route.

Local Notation "'minV'" := (Math_min_of (map f routes)).
Local Notation "'maxV'" := (Math_max_of (map f routes)).

Lemma axis_min_le (r : Route) : In r routes -> minV <= f r.
Proof. intros H. apply Math_min_of_le. now apply in_map. Qed.

Lemma axis_le_max (r : Route) : In r routes -> f r <= maxV.
Proof. intros H. apply Math_max_of_ge. now apply in_map. Qed.

Lemma axis_min_attained (r : Route) :
  In r routes -> exists r', In r' routes /\ minV == f r'.
Proof.
  intros H. destruct (Math_min_of_In (map f routes)) as (y & Hy & E).
  - destruct routes; [contradiction | discriminate].
  - apply in_map_iff in Hy as (r' & <- & Hr'). now exists r'.
Qed.

Lemma axis_max_attained (r : Route) :
  In r routes -> exists r', In r' routes /\ maxV == f r'.
Proof.
  intros H. destruct (Math_max_of_In (map f routes)) as (y & Hy & E).
  - destruct routes; [contradiction | discriminate].
  - apply in_map_iff in Hy as (r' & <- & Hr'). now exists r'.
Qed.

Lemma axis_range (r : Route) :
  In r routes -> (0 <= Math_round (axis_raw minV maxV (f r)) <= 100)%Z.
Proof.
  intros H. assert (L := axis_min_le r H). assert (U := axis_le_max r H).
  assert (R : 0 <= axis_raw minV maxV (f r) <= 100).
  { unfold axis_raw. destruct (Qeq_bool maxV minV) eqn:E; [lra|].
    apply Qeq_bool_neq in E.
    assert (Hpos : 0 < maxV - minV) by (destruct (Qlt_le_dec minV maxV); lra).
    assert (Q0 : 0 <= (f r - minV) / (maxV - minV))
      by (apply Qle_shift_div_l; lra).
    assert (Q1 : (f r - minV) / (maxV - minV) <= 1)
      by (apply Qle_shift_div_r; lra).
    lra. }
  split.
  - change 0%Z with (Math_round 0). now apply Math_round_le.
  - change 100%Z with (Math_round 100). now apply Math_round_le.
Qed.

Lemma axis_best (r : Route) :
  In r routes -> (forall r', In r' routes -> f r <= f r') ->
  Math_round (axis_raw minV maxV (f r)) = 100%Z.
Proof.
  intros H Hmin. destruct (axis_min_attained r H) as (r' & Hr' & E).
  assert (L := axis_min_le r H). assert (L' := Hmin r' Hr').
  change 100%Z with (Math_round 100). apply Math_round_comp.
  unfold axis_raw. destruct (Qeq_bool maxV minV); [reflexivity|].
  setoid_replace (f r - minV) with 0 by lra.
  unfold Qdiv. ring.
Qed.

Lemma axis_worst (r : Route) :
  In r routes -> (forall r', In r' routes -> f r' <= f r) ->
  (exists r', In r' routes /\ ~ f r' == f r) ->
  Math_round (axis_raw minV maxV (f r)) = 0%Z.
Proof.
  intros H Hmax (r0 & Hr0 & Hne).
  destruct (axis_max_attained r H) as (r' & Hr' & E).
  assert (U := axis_le_max r H). assert (U' := Hmax r' Hr').
  assert (L0 := axis_min_le r0 Hr0). assert (U0 := Hmax r0 Hr0).
  change 0%Z with (Math_round 0). apply Math_round_comp.
  unfold axis_raw. destruct (Qeq_bool maxV minV) eqn:Eb.
  - apply Qeq_bool_eq in Eb. exfalso. apply Hne. lra.
  - apply Qeq_bool_neq in Eb.
    setoid_replace (f r - minV) with (maxV - minV) by lra.
    field. intros Hz. apply Eb. lra.
Qed.

Lemma axis_tie (r : Route) :
  In r routes ->
  (forall r1 r2, In r1 routes -> In r2 routes -> f r1 == f r2) ->
  Math_round (axis_raw minV maxV (f r)) = 100%Z.
Proof.
  intros H Hall. apply axis_best; [exact H|].
  intros r' Hr'. rewrite (Hall r r'); auto. lra.
Qed.
End Axis.

(** *** The scoring engine, entry by entry *)

Lemma calculateScores_routes (routes : list Route) (pref : string) (sc : Scenario) :
  map route (_calculateScores routes pref sc) = routes.
Proof.
  unfold _calculateScores. destruct routes as [|r0 rs]; [reflexivity|].
  rewrite map_map. cbn [route]. apply map_id.
Qed.

Lemma calculateScores_length (routes : list Route) (pref : string) (sc : Scenario) :
  List.length (_calculateScores routes pref sc) = List.length routes.
Proof.
  rewrite <- (calculateScores_routes routes pref sc) at 2. now rewrite length_map.
Qed.

Lemma calculateScores_entry (routes : list Route) (pref : string) (sc : Scenario)
    (sr : ScoredRoute) :
  In sr (_calculateScores routes pref sc) ->
  In (route sr) routes
  /\ s_time (scores sr)
     = Math_round (axis_raw (Math_min_of (map totalDuration routes))
                            (Math_max_of (map totalDuration routes))
                            (totalDuration (route sr)))
  /\ s_cost (scores sr)
     = Math_round (axis_raw (Math_min_of (map totalCost routes))
                            (Math_max_of (map totalCost routes))
                            (totalCost (route sr))).
Proof.
  unfold _calculateScores. destruct routes as [|r0 rs]; [intros []|].
  intros H. apply in_map_iff in H as (r & <- & Hr). cbn [route scores s_time s_cost].
  auto.
Qed.

Lemma calculateScores_map (routes : list Route) (pref : string) (sc : Scenario) :
  _calculateScores routes pref sc = map (score_entry routes pref sc) routes.
Proof. destruct routes; reflexivity. Qed.

Lemma calculateScores_nth (routes : list Route) (pref : string) (sc : Scenario)
    (i : nat) (r : Route) :
  nth_error routes i = Some r ->
  nth_error (_calculateScores routes pref sc) i
  = Some (score_entry routes pref sc r).
Proof.
  intros H. rewrite calculateScores_map. now apply map_nth_error.
Qed.

(** *** Sorting *)

Section SortFacts.
Context {A : Type} (cmp : A -> A -> Q).

Lemma insert_sorted_perm (x : A) (l : list A) :
  Permutation (insert_sorted cmp x l) (x :: l).
Proof.
  induction l as [|y ys IH]; simpl; [reflexivity|].
  destruct (Qle_bool (cmp x y) 0); [reflexivity|].
  rewrite IH. apply perm_swap.
Qed.

Lemma sort_perm (l : list A) : Permutation (array_sort cmp l) l.
Proof.
  induction l as [|x xs IH]; simpl; [reflexivity|].
  rewrite insert_sorted_perm. now constructor.
Qed.

Lemma sort_In (l : list A) (x : A) : In x (array_sort cmp l) <-> In x l.
Proof.
  split; apply Permutation_in; [apply sort_perm | symmetry; apply sort_perm].
Qed.

Lemma sort_length (l : list A) : List.length (array_sort cmp l) = List.length l.
Proof. apply Permutation_length, sort_perm. Qed.

(** When the comparator is the difference of a key, the result ascends. *)
Variable key : A -> Q.
Hypothesis cmp_key : forall a b, cmp a b <= 0 <-> key a <= key b.

Lemma insert_sorted_ascending (x : A) (l : list A) :
  ascending key l -> ascending key (insert_sorted cmp x l).
Proof.
  unfold ascending. induction l as [|y ys IH]; intros Hs; simpl.
  - repeat constructor.
  - inversion_clear Hs as [|? ? Hys Hy].
    destruct (Qle_bool (cmp x y) 0) eqn:E.
    + apply Qle_bool_iff, cmp_key in E.
      constructor; [now constructor|].
      constructor; [exact E|].
      eapply Forall_impl; [|exact Hy]. cbv beta. intros z Hz. lra.
    + assert (Hyx : key y <= key x).
      { destruct (Qlt_le_dec (key y) (key x)) as [Hlt|Hle]; [lra|].
        apply cmp_key, Qle_bool_iff in Hle. congruence. }
      constructor; [now apply IH|].
      eapply Permutation_Forall; [symmetry; apply insert_sorted_perm|].
      now constructor.
Qed.

Lemma sort_ascending (l : list A) : ascending key (array_sort cmp l).
Proof.
  induction l as [|x xs IH]; simpl; [constructor|].
  now apply insert_sorted_ascending.
Qed.
End SortFacts.

Lemma firstn_In {A} (n : nat) (l : list A) (x : A) :
  In x (firstn n l) -> In x l.
Proof.
  intros H. rewrite <- (firstn_skipn n l). apply in_or_app. now left.
Qed.

Lemma skipn_In {A} (n : nat) (l : list A) (x : A) :
  In x (skipn n l) -> In x l.
Proof.
  intros H. rewrite <- (firstn_skipn n l). apply in_or_app. now right.
Qed.

Lemma ascending_firstn {A} (key : A -> Q) (n : nat) (l : list A) :
  ascending key l -> ascending key (firstn n l).
Proof.
  unfold ascending. revert n. induction l as [|x xs IH]; intros [|n] Hs; simpl;
    try constructor.
  - inversion_clear Hs. now apply IH.
  - inversion_clear Hs as [|? ? _ Hx].
    rewrite Forall_forall in *. intros y Hy. apply Hx.
    eapply firstn_In; eauto.
Qed.

(** *** The pruning filter *)

Lemma prune_keep_spec (r : Route) :
  forallb (fun s => match seg_distance s with
                    | Some d => Qlt_bool 2000 d
                    | None => false
                    end)
    (filter (fun s => Mode_eqb (mode s) taxi_mode) (segments r)) = true
  <-> ~ short_taxi_leg r.
Proof.
  rewrite forallb_forall. split.
  - intros H (leg & Hin & Hd).
    specialize (H (TaxiSeg leg)). cbn in H.
    assert (E : Qlt_bool 2000 (tx_distance leg) = true)
      by (apply H, filter_In; split; [exact Hin | reflexivity]).
    unfold Qlt_bool in E. apply negb_true_iff in E.
    apply Qle_bool_iff in Hd. congruence.
  - intros H s Hs. apply filter_In in Hs as [Hin Hm].
    destruct s as [leg| |]; try discriminate. cbn.
    unfold Qlt_bool. destruct (Qle_bool (tx_distance leg) 2000) eqn:E; [|reflexivity].
    exfalso. apply H. exists leg. split; [exact Hin | now apply Qle_bool_iff].
Qed.

(** C4.  Pruning keeps exactly the candidates without a taxi segment of at
    most 2000 metres, sorts them in ascending order of
    [totalDuration + 2 * totalCost], and returns the first ten of them: the
    result has at most ten elements, is itself ascending, and holds only
    surviving candidates of the input. *)
Theorem C4_prune_filter_sort_cap (routes : list Route) :
  exists survivors sorted,
    (exists keep, survivors = filter keep routes
                  /\ forall r, keep r = true <-> ~ short_taxi_leg r)
    /\ Permutation sorted survivors
    /\ ascending prune_key sorted
    /\ MixedRouteGenerator._pruneRoutes routes = firstn 10 sorted
    /\ (List.length (MixedRouteGenerator._pruneRoutes routes) <= 10)%nat
    /\ ascending prune_key (MixedRouteGenerator._pruneRoutes routes)
    /\ (forall r, In r (MixedRouteGenerator._pruneRoutes routes) ->
                  In r routes /\ ~ short_taxi_leg r).
Proof.
  set (keep := fun r : Route =>
    forallb (fun s => match seg_distance s with
                      | Some d => Qlt_bool 2000 d
                      | None => false
                      end)
      (filter (fun s => Mode_eqb (mode s) taxi_mode) (segments r))).
  set (cmp := fun a b : Route =>
    totalDuration a + totalCost a * 2 - (totalDuration b + totalCost b * 2)).
  assert (Hcmp : forall a b, cmp a b <= 0 <-> prune_key a <= prune_key b)
    by (intros a b; unfold cmp, prune_key; split; intros; lra).
  assert (Hsorted : ascending prune_key (array_sort cmp (filter keep routes)))
    by (apply sort_ascending; exact Hcmp).
  exists (filter keep routes), (array_sort cmp (filter keep routes)).
  change (MixedRouteGenerator._pruneRoutes routes)
    with (firstn 10 (array_sort cmp (filter keep routes))).
  repeat split.
  - exists keep. split; [reflexivity|]. intros r. apply prune_keep_spec.
  - apply sort_perm.
  - exact Hsorted.
  - rewrite length_firstn. lia.
  - now apply ascending_firstn.
  - apply firstn_In, sort_In, filter_In in H. tauto.
  - apply firstn_In, sort_In, filter_In in H as [_ H].
    now apply prune_keep_spec.
Qed.

(** *** Scenario detection *)

Lemma detectScenario_unfold (origin destination : GeoPoint) (time : Date) :
  _detectScenario origin destination time
  = if opt_includes "机场" (name destination)
       || opt_includes "火车站" (name destination)
    then RushToCatch
    else scenario_by_hour (getHours time).
Proof. reflexivity. Qed.

(** C6.  For a local hour between 0 and 23, scenario detection answers
    [RushToCatch] whenever the destination name holds the airport or the
    railway-station keyword, whatever the hour; otherwise [LateNight] for an
    hour in [23,24) or [0,5); otherwise [Peak] for an hour in [7,9] or
    [17,19]; otherwise [Routine]. *)
Theorem C6_detectScenario_cases (origin destination : GeoPoint) (time : Date) :
  (0 <= getHours time < 24)%Z ->
  let hour := getHours time in
  let scenario := _detectScenario origin destination time in
  (hub_destination destination -> scenario = RushToCatch)
  /\ (~ hub_destination destination ->
      (23 <= hour < 24 \/ 0 <= hour < 5)%Z -> scenario = LateNight)
  /\ (~ hub_destination destination ->
      (7 <= hour <= 9 \/ 17 <= hour <= 19)%Z -> scenario = Peak)
  /\ (~ hub_destination destination ->
      ~ (23 <= hour < 24 \/ 0 <= hour < 5)%Z ->
      ~ (7 <= hour <= 9 \/ 17 <= hour <= 19)%Z -> scenario = Routine).
Proof.
  intros Hh hour scenario. subst scenario. rewrite detectScenario_unfold.
  destruct (opt_includes "机场" (name destination)
            || opt_includes "火车站" (name destination)) eqn:E.
  - apply hub_destination_spec in E. repeat split; intros; tauto.
  - assert (Hn : ~ hub_destination destination)
      by (intros H; apply hub_destination_spec in H; congruence).
    unfold scenario_by_hour. fold hour.
    repeat split; intros;
      try tauto;
      destruct (Z.leb_spec 23 hour), (Z.ltb_spec hour 5),
        (Z.leb_spec 7 hour), (Z.leb_spec hour 9),
        (Z.leb_spec 17 hour), (Z.leb_spec hour 19);
      cbn; try reflexivity; exfalso; lia.
Qed.

Lemma C6_witness :
  _detectScenario example_origin
    {| lng := None; lat := None; name := Some "首都机场T3" |}
    {| getHours := 23 |} = RushToCatch.
Proof.
  apply (C6_detectScenario_cases example_origin
           {| lng := None; lat := None; name := Some "首都机场T3" |}
           {| getHours := 23 |}).
  - cbn. lia.
  - exists "首都机场T3". split; [reflexivity|].
    left. exists "首都", "T3". reflexivity.
Defined.

(** *** The fare formula and its callers *)

Lemma planner_estimate_formula (distance duration : Q) (scenario : option Scenario) :
  _estimateTaxiCost distance duration scenario
  == inject_Z (Math_round
       ((13 + Math_max 0 (distance / 1000 - 3) * 2.3 + duration * 0.5)
        * surcharge scenario * 10)) / 10.
Proof.
  unfold _estimateTaxiCost.
  set (raw := 13 + Math_max 0 (distance / 1000 - 3) * 2.3 + duration * 0.5).
  destruct scenario as [[]|]; cbn [default surcharge];
    (rewrite (Math_round_comp _ (raw * 1 * 10)) by ring; reflexivity)
    || reflexivity.
Qed.

(** C1.  The estimator itself computes the stated formula: base fare 13,
    2.3 per kilometre beyond 3 km, 0.5 per minute, times 1.3 for a peak and
    1.5 for a late-night scenario argument, rounded to one decimal.  The
    pure-taxi generator calls it without a scenario, so the cost of the
    pure-taxi candidate never carries a surcharge.  In the end-to-end
    example (52000 m, 78 min, detected scenario peak) the estimator would
    answer 214.1 for the peak scenario, and the [taxi_full] candidate costs
    164.7. *)
Theorem C1_taxi_full_cost_example :
  (forall distance duration scenario,
     _estimateTaxiCost distance duration scenario
     == inject_Z (Math_round
          ((13 + Math_max 0 (distance / 1000 - 3) * 2.3 + duration * 0.5)
           * surcharge scenario * 10)) / 10)
  /\ (forall P origin destination log,
        match fst (_generateTaxiRoute P origin destination log),
              driving P log origin destination with
        | Return (Some t), Some drv =>
            totalCost t
            = _estimateTaxiCost (d_distance drv) (d_duration drv) None
        | Return None, None => True
        | _, _ => False
        end)
  /\ _estimateTaxiCost 52000 78 (Some Peak) == 214.1
  /\ _estimateTaxiCost 52000 78 None == 164.7
  /\ exists res t,
       fst (planRoute mockProvider example_time example_iso example_params [])
       = Return res
       /\ meta_scenario (meta res) = Peak
       /\ nth_error (allRoutes res) 1 = Some t
       /\ id (route t) = "taxi_full"
       /\ type (route t) = taxi
       /\ totalCost (route t) == 164.7.
Proof.
  split; [exact planner_estimate_formula|].
  split.
  { intros P o d log. unfold _generateTaxiRoute, bind, getDrivingRoute.
    destruct (driving P log o d) as [drv|]; reflexivity || exact I. }
  split; [vm_compute; reflexivity|].
  split; [vm_compute; reflexivity|].
  eexists. eexists.
  split; [vm_compute; reflexivity|].
  split; [reflexivity|].
  split; [reflexivity|].
  split; [reflexivity|].
  split; [reflexivity|].
  vm_compute. reflexivity.
Qed.

(** C7 (counterexample).  With distance 0 and duration -100 the estimate is
    -37: neither the base fare nor non-negative.  With distance 0 and
    duration 10 it is 18, not the base fare. *)
Lemma C7_counterexample :
  (0 : Q) <= 0 /\ -100 <= 0
  /\ _estimateTaxiCost 0 (-100) None == -37
  /\ MixedRouteGenerator._estimateTaxiCost 0 (-100) == -37
  /\ ~ (_estimateTaxiCost 0 (-100) None == 13)
  /\ ~ (0 <= _estimateTaxiCost 0 (-100) None)
  /\ ~ (0 <= MixedRouteGenerator._estimateTaxiCost 0 (-100))
  /\ _estimateTaxiCost 0 10 None == 18.
Proof.
  split; [vm_compute; discriminate|].
  split; [vm_compute; discriminate|].
  split; [vm_compute; reflexivity|].
  split; [vm_compute; reflexivity|].
  split; [intros H; vm_compute in H; discriminate|].
  split; [intros H; vm_compute in H; now apply H|].
  split; [intros H; vm_compute in H; now apply H|].
  vm_compute; reflexivity.
Qed.

(** C7 (amended).  With a distance of at most 3000 metres (zero and negative
    distances included) and a zero duration, the estimate is the base fare
    13, times the surcharge when a peak or late-night scenario is passed
    (16.9 and 19.5).  With a non-negative duration, whatever the distance,
    the estimate is at least 13, hence never negative. *)
Theorem C7_estimate_base_fare (distance duration : Q) (scenario : option Scenario) :
  (distance <= 3000 -> duration == 0 ->
     MixedRouteGenerator._estimateTaxiCost distance duration == 13
     /\ _estimateTaxiCost distance duration scenario
        == match default Routine scenario with
           | Peak => 16.9
           | LateNight => 19.5
           | _ => 13
           end)
  /\ (0 <= duration ->
      13 <= MixedRouteGenerator._estimateTaxiCost distance duration
      /\ 13 <= _estimateTaxiCost distance duration scenario).
Proof.
  split.
  - intros Hx Hd. split.
    + now apply mixed_estimate_base.
    + now apply planner_estimate_base.
  - intros Hd. split.
    + now apply mixed_estimate_floor.
    + now apply planner_estimate_floor.
Qed.

Lemma C7_witness :
  MixedRouteGenerator._estimateTaxiCost (-500) 0 == 13
  /\ _estimateTaxiCost (-500) 0 None == 13.
Proof.
  apply (C7_estimate_base_fare (-500) 0 None).
  - vm_compute. discriminate.
  - reflexivity.
Defined.

(** *** Normalised scores *)

(** C5.  The scoring engine scores every candidate of the set, in order:
    the scored list has one entry per candidate, and the entry at the
    position of a candidate is that candidate's.  On the time axis and on
    the cost axis each score lies between 0 and 100; a candidate whose raw
    value is the least of the set scores 100; a candidate whose raw value
    is the greatest scores 0, unless all candidates share one raw value, in
    which case every candidate scores 100. *)
Theorem C5_axis_scores (routes : list Route) (pref : string) (sc : Scenario) :
  map route (_calculateScores routes pref sc) = routes
  /\ List.length (_calculateScores routes pref sc) = List.length routes
  /\ (forall (i : nat) (r : Route),
        nth_error routes i = Some r ->
        exists sr,
          nth_error (_calculateScores routes pref sc) i = Some sr
          /\ route sr = r
          /\ (0 <= s_time (scores sr) <= 100)%Z
          /\ (0 <= s_cost (scores sr) <= 100)%Z
          /\ ((forall r', In r' routes -> totalDuration r <= totalDuration r') ->
              s_time (scores sr) = 100%Z)
          /\ ((forall r', In r' routes -> totalCost r <= totalCost r') ->
              s_cost (scores sr) = 100%Z)
          /\ ((forall r', In r' routes -> totalDuration r' <= totalDuration r) ->
              (exists r', In r' routes /\ ~ totalDuration r' == totalDuration r) ->
              s_time (scores sr) = 0%Z)
          /\ ((forall r', In r' routes -> totalCost r' <= totalCost r) ->
              (exists r', In r' routes /\ ~ totalCost r' == totalCost r) ->
              s_cost (scores sr) = 0%Z)
          /\ ((forall r1 r2, In r1 routes -> In r2 routes ->
                             totalDuration r1 == totalDuration r2) ->
              s_time (scores sr) = 100%Z)
          /\ ((forall r1 r2, In r1 routes -> In r2 routes ->
                             totalCost r1 == totalCost r2) ->
              s_cost (scores sr) = 100%Z)).
Proof.
  split; [apply calculateScores_routes|].
  split; [apply calculateScores_length|].
  intros i r Hi.
  exists (score_entry routes pref sc r).
  split; [now apply calculateScores_nth|].
  assert (Hin : In r routes) by (eapply nth_error_In; eauto).
  cbn [score_entry route scores s_time s_cost].
  split; [reflexivity|].
  split; [now apply axis_range|].
  split; [now apply axis_range|].
  split; [now apply axis_best|].
  split; [now apply axis_best|].
  split; [now apply axis_worst|].
  split; [now apply axis_worst|].
  split; [now apply axis_tie | now apply axis_tie].
Qed.

Lemma C5_witness :
  exists sr, nth_error (_calculateScores two_candidates "balance" Routine) 1
             = Some sr
             /\ id (route sr) = "subway_1"
             /\ s_time (scores sr) = 100%Z
             /\ s_cost (scores sr) = 100%Z.
Proof.
  destruct (C5_axis_scores two_candidates "balance" Routine) as (_ & _ & H).
  destruct (H 1%nat (subway_candidate fast_transit) eq_refl)
    as (sr & E & Er & _ & _ & Htime & Hcost & _).
  exists sr. split; [exact E|]. split; [rewrite Er; reflexivity|]. split.
  - apply Htime. intros r Hr. unfold two_candidates in Hr. cbn [In] in Hr.
    destruct Hr as [<-|[<-|[]]]; vm_compute; discriminate.
  - apply Hcost. intros r Hr. unfold two_candidates in Hr. cbn [In] in Hr.
    destruct Hr as [<-|[<-|[]]]; vm_compute; discriminate.
Defined.

(** *** The request log, exceptions and postconditions *)

Lemma extends_ret {A} (a : A) : extends (ret a).
Proof. intros log. exists []. cbn. now rewrite app_nil_r. Qed.

Lemma extends_throw {A} (e : JsError) : extends (@throw A e).
Proof. intros log. exists []. cbn. now rewrite app_nil_r. Qed.

Lemma extends_bind {A B} (m : M A) (k : A -> M B) :
  extends m -> (forall a, extends (k a)) -> extends (bind m k).
Proof.
  intros Hm Hk log. unfold bind. destruct (Hm log) as [ext E].
  destruct (m log) as [[a|e] log1]; cbn in E; subst log1.
  - destruct (Hk a (log ++ ext)) as [ext' E']. exists (ext ++ ext').
    now rewrite E', app_assoc.
  - now exists ext.
Qed.

Lemma extends_try_catch {A} (body : M A) (handler : JsError -> M A) :
  extends body -> (forall e, extends (handler e)) ->
  extends (try_catch body handler).
Proof.
  intros Hm Hk log. unfold try_catch. destruct (Hm log) as [ext E].
  destruct (body log) as [[a|e] log1]; cbn in E; subst log1.
  - now exists ext.
  - destruct (Hk e (log ++ ext)) as [ext' E']. exists (ext ++ ext').
    now rewrite E', app_assoc.
Qed.

Lemma extends_for_collect {A B} (body : A -> M (option B)) (l : list A) :
  (forall x, extends (body x)) -> extends (for_collect body l).
Proof.
  intros Hb. induction l as [|x xs IH]; cbn [for_collect].
  - apply extends_ret.
  - apply extends_bind; [apply Hb|]. intros r.
    apply extends_bind; [exact IH|]. intros rs. apply extends_ret.
Qed.

Lemma extends_getSubwayRoutes P o d : extends (getSubwayRoutes P o d).
Proof. intros log. now exists [GetSubwayRoutes o d]. Qed.

Lemma extends_getDrivingRoute P o d : extends (getDrivingRoute P o d).
Proof. intros log. now exists [GetDrivingRoute o d]. Qed.

Lemma returns_ret {A} (a : A) : returns (ret a).
Proof. intros log. now exists a. Qed.

Lemma returns_bind {A B} (m : M A) (k : A -> M B) :
  returns m -> (forall a, returns (k a)) -> returns (bind m k).
Proof.
  intros Hm Hk log. unfold bind. destruct (Hm log) as [a E].
  destruct (m log) as [[a'|e] log1]; cbn in E; [|discriminate].
  apply Hk.
Qed.

Lemma returns_try_catch {A} (body : M A) (handler : JsError -> M A) :
  (forall e, returns (handler e)) -> returns (try_catch body handler).
Proof.
  intros Hk log. unfold try_catch.
  destruct (body log) as [[a|e] log1]; [now exists a | apply Hk].
Qed.

Lemma returns_for_collect {A B} (body : A -> M (option B)) (l : list A) :
  (forall x, returns (body x)) -> returns (for_collect body l).
Proof.
  intros Hb. induction l as [|x xs IH]; cbn [for_collect].
  - apply returns_ret.
  - apply returns_bind; [apply Hb|]. intros r.
    apply returns_bind; [exact IH|]. intros rs. apply returns_ret.
Qed.

Lemma post_ret {A} (a : A) (Q : A -> Prop) : Q a -> post (ret a) Q.
Proof. intros H log a' log' [= <- _]. exact H. Qed.

Lemma post_throw {A} (e : JsError) (Q : A -> Prop) : post (throw e) Q.
Proof. intros log a log' [=]. Qed.

Lemma post_bind {A B} (m : M A) (k : A -> M B) (Q1 : A -> Prop) (Q2 : B -> Prop) :
  post m Q1 -> (forall a, Q1 a -> post (k a) Q2) -> post (bind m k) Q2.
Proof.
  intros Hm Hk log b log'. unfold bind.
  destruct (m log) as [[a|e] log1] eqn:E; [|discriminate].
  intros Hb. exact (Hk a (Hm _ _ _ E) _ _ _ Hb).
Qed.

Lemma post_try_catch {A} (body : M A) (handler : JsError -> M A) (Q : A -> Prop) :
  post body Q -> (forall e, post (handler e) Q) -> post (try_catch body handler) Q.
Proof.
  intros Hm Hk log a log'. unfold try_catch.
  destruct (body log) as [[a'|e] log1] eqn:E.
  - intros [= <- _]. exact (Hm _ _ _ E).
  - apply Hk.
Qed.

Lemma post_for_collect {A B} (body : A -> M (option B)) (l : list A)
    (Q : B -> Prop) :
  (forall x, post (body x) (fun r => forall b, r = Some b -> Q b)) ->
  post (for_collect body l) (Forall Q).
Proof.
  intros Hb. induction l as [|x xs IH]; cbn [for_collect].
  - apply post_ret. constructor.
  - eapply post_bind; [apply Hb|]. intros r Hr.
    eapply post_bind; [exact IH|]. intros rs Hrs.
    apply post_ret. destruct r as [b|]; [constructor; auto | exact Hrs].
Qed.

Lemma post_getSubwayRoutes P o d :
  post (getSubwayRoutes P o d) (Forall (answered P)).
Proof.
  intros log ts log' [= <- _]. apply Forall_forall. intros t Ht.
  now exists log, o, d.
Qed.

(** *** Candidate generation *)

Lemma pruneRoutes_In (routes : list Route) (r : Route) :
  In r (MixedRouteGenerator._pruneRoutes routes) -> In r routes.
Proof.
  unfold MixedRouteGenerator._pruneRoutes, slice_first.
  intros H. apply firstn_In, sort_In, filter_In in H. tauto.
Qed.

Lemma pruneRoutes_Forall (Q : Route -> Prop) (routes : list Route) :
  Forall Q routes -> Forall Q (MixedRouteGenerator._pruneRoutes routes).
Proof.
  rewrite !Forall_forall. intros H r Hr. apply H. now apply pruneRoutes_In.
Qed.

Section Generation.
Variable P : Provider.

Local Notation "'hybrid'" :=
  (fun r : Route => type r = mixed /\ transit_based_totals P r).

Lemma extends_calculateTaxiSegment a b :
  extends (MixedRouteGenerator._calculateTaxiSegment P a b).
Proof.
  unfold MixedRouteGenerator._calculateTaxiSegment.
  apply extends_bind; [apply extends_getDrivingRoute|].
  intros [drv|]; [apply extends_ret | apply extends_throw].
Qed.

Lemma post_any {A} (m : M A) : post m (fun _ => True).
Proof. intros log a log' _. exact I. Qed.

Lemma post_generateStartTaxiRoutes o d stations :
  post (MixedRouteGenerator._generateStartTaxiRoutes P o d stations)
       (Forall hybrid).
Proof.
  unfold MixedRouteGenerator._generateStartTaxiRoutes.
  apply post_for_collect. intros station. apply post_try_catch.
  - eapply post_bind; [apply post_any|]. intros leg _.
    eapply post_bind; [apply post_getSubwayRoutes|]. intros ts Hts.
    destruct ts as [|t ts']; apply post_ret; intros r [= <-].
    split; [reflexivity|]. exists [leg], t, [].
    inversion_clear Hts as [|? ? Ht _]. cbn.
    rewrite app_nil_r. repeat split; auto; ring.
  - intros e. apply post_ret. intros r [=].
Qed.

Lemma post_generateEndTaxiRoutes o d stations :
  post (MixedRouteGenerator._generateEndTaxiRoutes P o d stations)
       (Forall hybrid).
Proof.
  unfold MixedRouteGenerator._generateEndTaxiRoutes.
  apply post_for_collect. intros station. apply post_try_catch.
  - eapply post_bind; [apply post_getSubwayRoutes|]. intros ts Hts.
    destruct ts as [|t ts']; [apply post_ret; intros r [=]|].
    eapply post_bind; [apply post_any|]. intros leg _.
    apply post_ret; intros r [= <-].
    split; [reflexivity|]. exists [], t, [leg].
    inversion_clear Hts as [|? ? Ht _]. cbn.
    repeat split; auto; ring.
  - intros e. apply post_ret. intros r [=].
Qed.

Lemma post_generateBothTaxiRoutes o d stations :
  post (MixedRouteGenerator._generateBothTaxiRoutes P o d stations)
       (Forall hybrid).
Proof.
  unfold MixedRouteGenerator._generateBothTaxiRoutes.
  eapply post_bind.
  - apply post_for_collect with (Q := Forall hybrid). intros startStation.
    eapply post_bind.
    + apply post_for_collect with (Q := hybrid). intros endStation.
      apply post_try_catch.
      * eapply post_bind; [apply post_any|]. intros startTaxi _.
        eapply post_bind; [apply post_getSubwayRoutes|]. intros ts Hts.
        destruct ts as [|t ts']; [apply post_ret; intros r [=]|].
        eapply post_bind; [apply post_any|]. intros endTaxi _.
        apply post_ret; intros r [= <-].
        split; [reflexivity|]. exists [startTaxi], t, [endTaxi].
        inversion_clear Hts as [|? ? Ht _]. cbn.
        repeat split; auto; ring.
      * intros e. apply post_ret. intros r [=].
    + intros inner Hinner. apply post_ret. intros b [= <-]. exact Hinner.
  - intros perStart Hper. apply post_ret.
    apply Forall_forall. intros r Hr. apply in_concat in Hr as (l & Hl & Hr).
    rewrite Forall_forall in Hper. specialize (Hper l Hl).
    rewrite Forall_forall in Hper. now apply Hper.
Qed.

Lemma post_generateMixedRoutes o d stations :
  post (MixedRouteGenerator.generateMixedRoutes P o d stations)
       (Forall hybrid).
Proof.
  unfold MixedRouteGenerator.generateMixedRoutes.
  eapply post_bind; [apply post_generateStartTaxiRoutes|]. intros l1 H1.
  eapply post_bind; [apply post_generateEndTaxiRoutes|]. intros l2 H2.
  eapply post_bind; [apply post_generateBothTaxiRoutes|]. intros l3 H3.
  apply post_ret. apply pruneRoutes_Forall.
  apply Forall_app. split; [exact H1|]. apply Forall_app. now split.
Qed.

Lemma post_generateTaxiRoute o d :
  post (_generateTaxiRoute P o d)
       (fun r => forall t, r = Some t -> type t = taxi /\ single_taxi_totals t).
Proof.
  unfold _generateTaxiRoute.
  eapply post_bind; [apply post_any|]. intros [drv|] _; apply post_ret;
    intros t [= <-].
  split; [reflexivity|]. eexists. cbn. repeat split; reflexivity.
Qed.
End Generation.

Ltac extends_tac :=
  repeat first
    [ apply extends_ret
    | apply extends_throw
    | apply extends_getSubwayRoutes
    | apply extends_getDrivingRoute
    | apply extends_calculateTaxiSegment
    | apply extends_for_collect; intros
    | apply extends_try_catch; [|intros]
    | apply extends_bind; [|intros]
    | match goal with
      | |- extends (match ?x with _ => _ end) => destruct x
      end ].

Ltac returns_tac :=
  repeat first
    [ apply returns_ret
    | apply returns_for_collect; intros
    | apply returns_try_catch; intros
    | apply returns_bind; [|intros] ].

Section GenerationEffects.
Variable P : Provider.

Lemma extends_generateMixedRoutes o d stations :
  extends (MixedRouteGenerator.generateMixedRoutes P o d stations).
Proof.
  unfold MixedRouteGenerator.generateMixedRoutes,
    MixedRouteGenerator._generateStartTaxiRoutes,
    MixedRouteGenerator._generateEndTaxiRoutes,
    MixedRouteGenerator._generateBothTaxiRoutes.
  extends_tac.
Qed.

Lemma returns_generateMixedRoutes o d stations :
  returns (MixedRouteGenerator.generateMixedRoutes P o d stations).
Proof.
  unfold MixedRouteGenerator.generateMixedRoutes,
    MixedRouteGenerator._generateStartTaxiRoutes,
    MixedRouteGenerator._generateEndTaxiRoutes,
    MixedRouteGenerator._generateBothTaxiRoutes.
  returns_tac.
Qed.

Lemma extends_generateTaxiRoute o d : extends (_generateTaxiRoute P o d).
Proof. unfold _generateTaxiRoute. extends_tac. Qed.

Lemma subway_candidate_totals (t : Transit) :
  answered P t -> candidate_totals P (subway_candidate t).
Proof.
  intros Ht. exists [], t, []. cbn. rewrite app_nil_r.
  repeat split; auto; ring.
Qed.

(** Candidate generation never throws; its first request is the transit
    query for the whole trip; every candidate has the totals of its
    kind. *)
Lemma generateAllRoutes_spec (o d : GeoPoint) (log : Log) :
  exists rs ext,
    _generateAllRoutes P o d log
    = (Return rs, log ++ GetSubwayRoutes o d :: ext)
    /\ Forall (candidate_totals P) rs.
Proof.
  unfold _generateAllRoutes.
  change (getSubwayRoutes P o d log)
    with (Return (transits P log o d), log ++ [GetSubwayRoutes o d]).
  cbv iota beta.
  assert (Hsub : Forall (candidate_totals P)
                   (map subway_candidate (transits P log o d))).
  { apply Forall_forall. intros r Hr. apply in_map_iff in Hr as (t & <- & Ht).
    apply subway_candidate_totals. now exists log, o, d. }
  destruct (extends_generateTaxiRoute o d (log ++ [GetSubwayRoutes o d]))
    as [ext2 E2].
  destruct (_generateTaxiRoute P o d (log ++ [GetSubwayRoutes o d]))
    as [[taxiRoute|e] log2] eqn:Etaxi; cbn [snd] in E2; subst log2.
  2:{ exists (map subway_candidate (transits P log o d)), ext2.
      rewrite <- app_assoc. split; [reflexivity | exact Hsub]. }
  set (all2 := match taxiRoute with
               | Some t => [] ++ map subway_candidate (transits P log o d) ++ [t]
               | None => [] ++ map subway_candidate (transits P log o d)
               end).
  assert (Hall2 : Forall (candidate_totals P) all2).
  { subst all2. destruct taxiRoute as [t|]; cbn [app]; [|exact Hsub].
    apply Forall_app. split; [exact Hsub|]. constructor; [|constructor].
    destruct (post_generateTaxiRoute P o d _ _ _ Etaxi t eq_refl) as [Ety Ht].
    unfold candidate_totals. now rewrite Ety. }
  set (m3 := bind (MixedRouteGenerator.getSubwayStationsAlongRoute o d)
               (fun stations =>
                  MixedRouteGenerator.generateMixedRoutes P o d stations)).
  assert (Hext3 : extends m3).
  { subst m3. apply extends_bind; [apply extends_ret|]. intros stations.
    apply extends_generateMixedRoutes. }
  assert (Hpost3 : post m3 (Forall (candidate_totals P))).
  { subst m3. eapply post_bind; [apply post_any|]. intros stations _.
    intros l rs l' E. apply (post_generateMixedRoutes P) in E.
    eapply Forall_impl; [|exact E]. cbv beta. intros r [Ety Hr].
    unfold candidate_totals. now rewrite Ety. }
  destruct (Hext3 ((log ++ [GetSubwayRoutes o d]) ++ ext2)) as [ext3 E3].
  destruct (m3 ((log ++ [GetSubwayRoutes o d]) ++ ext2))
    as [[mixedRoutes|e] log3] eqn:Emixed; cbn [snd] in E3; subst log3.
  - exists (all2 ++ mixedRoutes), (ext2 ++ ext3).
    split.
    + subst all2. rewrite <- !app_assoc. cbn [app].
      destruct taxiRoute; rewrite <- ?app_assoc; reflexivity.
    + apply Forall_app. split; [exact Hall2|]. exact (Hpost3 _ _ _ Emixed).
  - exists all2, (ext2 ++ ext3). split.
    + subst all2. rewrite <- !app_assoc. cbn [app].
      destruct taxiRoute; reflexivity.
    + exact Hall2.
Qed.
End GenerationEffects.

(** *** The planning orchestrator *)

Lemma planRoute_spec (P : Provider) (now : Date) (nowISO : string)
    (params : PlanParams) (o d : GeoPoint) (log : Log) :
  p_origin params = Some o -> p_destination params = Some d ->
  exists candidates ext,
    _generateAllRoutes P o d log
    = (Return candidates, log ++ GetSubwayRoutes o d :: ext)
    /\ Forall (candidate_totals P) candidates
    /\ planRoute P now nowISO params log
       = (Return
            (let time := default now (p_time params) in
             let preference := default "balance" (p_preference params) in
             let scenario := _detectScenario o d time in
             let scoredRoutes := _calculateScores candidates preference scenario in
             let recommendation := _recommend scoredRoutes scenario preference in
             {| res_recommended := recommended recommendation;
                res_fastest := fastest recommendation;
                res_cheapest := cheapest recommendation;
                allRoutes := slice_first 10 scoredRoutes;
                meta := {| meta_scenario := scenario;
                           preference := preference;
                           totalCandidates := List.length candidates;
                           calculatedAt := nowISO |} |}),
          log ++ GetSubwayRoutes o d :: ext).
Proof.
  intros Ho Hd.
  destruct (generateAllRoutes_spec P o d log) as (rs & ext & E & Hrs).
  exists rs, ext. split; [exact E|]. split; [exact Hrs|].
  unfold planRoute. rewrite Ho, Hd. unfold bind. now rewrite E.
Qed.

(** C3 (counterexample).  In the end-to-end example the pure-subway
    candidate lasts 65 minutes in total while its segments add up to 75;
    the pure-taxi candidate lasts 83 against 78; the first mixed candidate
    lasts 146 against 156, costs 173.7 against 164.7 and covers 97000 metres
    against 52800. *)
Lemma C3_counterexample :
  exists r_subway r_taxi r_mixed,
    nth_error example_candidates 0 = Some r_subway
    /\ nth_error example_candidates 1 = Some r_taxi
    /\ nth_error example_candidates 2 = Some r_mixed
    /\ type r_subway = subway /\ type r_taxi = taxi /\ type r_mixed = mixed
    /\ totalDuration r_subway == 65 /\ segments_duration r_subway == 75
    /\ totalDuration r_taxi == 83 /\ segments_duration r_taxi == 78
    /\ totalDuration r_mixed == 146 /\ segments_duration r_mixed == 156
    /\ totalCost r_mixed == 173.7 /\ segments_cost r_mixed == 164.7
    /\ totalDistance r_mixed == 97000 /\ segments_distance r_mixed == 52800
    /\ ~ totals_are_segment_sums r_subway
    /\ ~ totals_are_segment_sums r_taxi
    /\ ~ totals_are_segment_sums r_mixed.
Proof.
  eexists. eexists. eexists.
  split; [vm_compute; reflexivity|].
  split; [vm_compute; reflexivity|].
  split; [vm_compute; reflexivity|].
  repeat (split; [vm_compute; reflexivity|]).
  split; [intros (H & _); vm_compute in H; now apply H|].
  split; [intros (H & _); vm_compute in H; now apply H|].
  intros (H & _); vm_compute in H; now apply H.
Qed.

(** C3 (amended).  Candidate generation always completes, and the totals of
    every candidate it produces come from the provider's route-level data:
    a pure-subway candidate has the transit itinerary's own duration, cost
    and distance; a hybrid candidate has the sum of its taxi legs' duration,
    cost and distance plus the transit itinerary's own duration, cost and
    distance; the pure-taxi candidate has its single leg's cost and
    distance, and the leg's duration plus the leg's waiting time. *)
Theorem C3_candidate_totals (P : Provider) (origin destination : GeoPoint)
    (log : Log) :
  exists candidates log',
    _generateAllRoutes P origin destination log = (Return candidates, log')
    /\ Forall (candidate_totals P) candidates.
Proof.
  destruct (generateAllRoutes_spec P origin destination log)
    as (rs & ext & E & Hrs).
  now exists rs, (log ++ GetSubwayRoutes origin destination :: ext).
Qed.

(** C2 (counterexample).  First request: a provider answers the transit
    query with two itineraries, the slower and dearer one first, and has no
    driving estimate; the result lists the two candidates in that order,
    with composite scores 1/5 and 1: not in descending order.  Second
    request: twelve candidates are generated; the result keeps the first
    ten, among them the pure-subway candidate with composite score 0.3, and
    leaves out a hybrid candidate with composite score 0.6. *)
Lemma C2_counterexample :
  (exists res,
     fst (planRoute transitOnlyProvider example_time example_iso plain_params [])
     = Return res
     /\ map (fun sr => id (route sr)) (allRoutes res) = ["subway_0"; "subway_1"]
     /\ map (fun sr => option_map Qred (s_total (scores sr))) (allRoutes res)
        = [Some (1 # 5); Some 1]
     /\ ~ descending_by_total (allRoutes res))
  /\ (exists res kept dropped,
        fst (planRoute detourProvider example_time example_iso time_params [])
        = Return res
        /\ totalCandidates (meta res) = 12%nat
        /\ nth_error (allRoutes res) 0 = Some kept
        /\ nth_error (_calculateScores detour_candidates "time" Routine) 10
           = Some dropped
        /\ id (route kept) = "subway_0"
        /\ id (route dropped) = "mixed_end_taxi_北京北站"
        /\ ~ In (id (route dropped))
                (map (fun sr => id (route sr)) (allRoutes res))
        /\ option_map Qred (s_total (scores kept)) = Some (3 # 10)
        /\ option_map Qred (s_total (scores dropped)) = Some (3 # 5)
        /\ num_lt (s_total (scores kept)) (s_total (scores dropped))
        /\ ~ descending_by_total (allRoutes res)).
Proof.
  split.
  - eexists. split; [vm_compute; reflexivity|].
    split; [reflexivity|]. split; [vm_compute; reflexivity|].
    intros H. inversion_clear H as [|? ? _ Hhd].
    inversion_clear Hhd as [|? ? Hle _].
    vm_compute in Hle. now apply Hle.
  - eexists. eexists. eexists.
    split; [vm_compute; reflexivity|].
    split; [reflexivity|].
    split; [reflexivity|].
    split; [vm_compute; reflexivity|].
    split; [reflexivity|].
    split; [reflexivity|].
    split.
    { cbn. intros H.
      repeat (destruct H as [H|H]; [discriminate H|]). exact H. }
    split; [vm_compute; reflexivity|].
    split; [vm_compute; reflexivity|].
    split; [vm_compute; reflexivity|].
    intros H. inversion_clear H as [|? ? _ Hhd].
    inversion_clear Hhd as [|? ? Hle _].
    vm_compute in Hle. now apply Hle.
Qed.

(** C2 (amended).  The [allRoutes] field holds the first ten scored
    candidates in generation order (pure-subway candidates, then the
    pure-taxi candidate, then the pruned hybrid candidates), each with the
    scores computed over the whole candidate set; [meta.totalCandidates] is
    the number of candidates before that truncation. *)
Theorem C2_allRoutes_generation_order (P : Provider) (now : Date)
    (nowISO : string) (params : PlanParams) (origin destination : GeoPoint)
    (log : Log) :
  p_origin params = Some origin -> p_destination params = Some destination ->
  exists candidates res log',
    _generateAllRoutes P origin destination log = (Return candidates, log')
    /\ planRoute P now nowISO params log = (Return res, log')
    /\ allRoutes res
       = firstn 10 (_calculateScores candidates (preference (meta res))
                      (meta_scenario (meta res)))
    /\ map route (allRoutes res) = firstn 10 candidates
    /\ List.length (allRoutes res) = Nat.min 10 (List.length candidates)
    /\ totalCandidates (meta res) = List.length candidates.
Proof.
  intros Ho Hd.
  destruct (planRoute_spec P now nowISO params origin destination log Ho Hd)
    as (rs & ext & E & _ & Eplan).
  eexists. eexists. eexists.
  split; [exact E|]. split; [exact Eplan|].
  cbn [allRoutes meta preference meta_scenario totalCandidates].
  unfold slice_first.
  split; [reflexivity|].
  split; [now rewrite <- firstn_map, calculateScores_routes|].
  split; [now rewrite length_firstn, calculateScores_length | reflexivity].
Qed.

Lemma C2_witness :
  exists candidates res log',
    _generateAllRoutes transitOnlyProvider plain_origin plain_destination []
    = (Return candidates, log')
    /\ planRoute transitOnlyProvider example_time example_iso plain_params []
       = (Return res, log')
    /\ allRoutes res
       = firstn 10 (_calculateScores candidates (preference (meta res))
                      (meta_scenario (meta res)))
    /\ map route (allRoutes res) = firstn 10 candidates
    /\ List.length (allRoutes res) = Nat.min 10 (List.length candidates)
    /\ totalCandidates (meta res) = List.length candidates.
Proof.
  apply (C2_allRoutes_generation_order transitOnlyProvider example_time
           example_iso plain_params plain_origin plain_destination []);
    reflexivity.
Defined.

(** C9.  When candidate generation yields no candidate, the planner returns
    normally: no recommended, fastest or cheapest route, an empty
    [allRoutes], and [meta.totalCandidates] equal to 0. *)
Theorem C9_no_candidates (P : Provider) (now : Date) (nowISO : string)
    (params : PlanParams) (origin destination : GeoPoint) (log log' : Log) :
  p_origin params = Some origin -> p_destination params = Some destination ->
  _generateAllRoutes P origin destination log = (Return [], log') ->
  exists res,
    planRoute P now nowISO params log = (Return res, log')
    /\ res_recommended res = None
    /\ res_fastest res = None
    /\ res_cheapest res = None
    /\ allRoutes res = []
    /\ totalCandidates (meta res) = 0%nat.
Proof.
  intros Ho Hd E. unfold planRoute. rewrite Ho, Hd. unfold bind. rewrite E.
  eexists. split; [reflexivity|]. cbn. repeat split; reflexivity.
Qed.

Lemma C9_witness :
  exists res,
    planRoute silentProvider example_time example_iso plain_params []
    = (Return res,
       snd (_generateAllRoutes silentProvider plain_origin plain_destination []))
    /\ res_recommended res = None
    /\ res_fastest res = None
    /\ res_cheapest res = None
    /\ allRoutes res = []
    /\ totalCandidates (meta res) = 0%nat.
Proof.
  apply (C9_no_candidates silentProvider example_time example_iso plain_params
           plain_origin plain_destination []).
  - reflexivity.
  - reflexivity.
  - vm_compute. reflexivity.
Defined.

(** *** Input checks *)

(** C8 (counterexample).  A request whose origin has no coordinates is
    planned like any other: the planner returns a result with a
    recommendation, after 34 provider requests, the first of them the
    transit query from that origin; through the HTTP handler the answer has
    status 200. *)
Lemma C8_counterexample :
  lng no_coordinates_origin = None /\ lat no_coordinates_origin = None
  /\ (exists res,
        fst (planRoute mockProvider example_time example_iso
               no_coordinates_params []) = Return res
        /\ res_recommended res <> None)
  /\ hd_error (snd (planRoute mockProvider example_time example_iso
                      no_coordinates_params []))
     = Some (GetSubwayRoutes no_coordinates_origin plain_destination)
  /\ List.length (snd (planRoute mockProvider example_time example_iso
                         no_coordinates_params [])) = 34%nat
  /\ (exists resp,
        fst (Handler.handler mockProvider example_time example_iso
               no_coordinates_request []) = Return resp
        /\ Handler.statusCode resp = 200%Z).
Proof.
  split; [reflexivity|]. split; [reflexivity|].
  split; [eexists; split; [vm_compute; reflexivity | discriminate]|].
  split; [vm_compute; reflexivity|].
  split; [vm_compute; reflexivity|].
  eexists. split; [vm_compute; reflexivity | reflexivity].
Qed.

(** C8 (amended).  The planner checks no coordinates and knows no
    invalid-input error.  Whenever the origin and the destination objects
    are present, with or without coordinates, [planRoute] returns a result,
    and its first provider request is the transit query for that origin and
    destination.  When the origin or the destination object is absent
    altogether, [planRoute] throws a [TypeError] before any provider
    request.  The HTTP handler answers a planning request whose body lacks
    [start] or [end] with status 400, and a planning request without a body
    with status 500 and the message of the [TypeError] that reading the
    body throws, in both cases before any provider request. *)
Theorem C8_no_coordinate_check (P : Provider) (now : Date) (nowISO : string) :
  (forall params origin destination log,
     p_origin params = Some origin -> p_destination params = Some destination ->
     exists res ext,
       planRoute P now nowISO params log
       = (Return res, log ++ GetSubwayRoutes origin destination :: ext))
  /\ (forall params log,
        p_origin params = None \/ p_destination params = None ->
        exists msg,
          planRoute P now nowISO params log = (Throw (TypeError msg), log))
  /\ (forall req body log,
        Handler.method req = "POST" -> Handler.url req = "/api/routes/plan" ->
        Handler.body req = Handler.Present body ->
        Handler.b_start body = None \/ Handler.b_end body = None ->
        Handler.handler P now nowISO req log
        = (Return {| Handler.statusCode := 400;
                     Handler.json :=
                       Some (Handler.ErrorBody 400 "缺少起点或终点参数") |},
           log))
  /\ (forall req n log,
        Handler.method req = "POST" -> Handler.url req = "/api/routes/plan" ->
        Handler.body req = Handler.Absent n ->
        exists msg,
          Handler.destructure "req.body" (Handler.body req) log
          = (Throw (TypeError msg), log)
          /\ Handler.handler P now nowISO req log
             = (Return {| Handler.statusCode := 500;
                          Handler.json :=
                            Some (Handler.ErrorBody 500
                                    ("服务器错误: " ++ msg)%string) |},
                log)).
Proof.
  split; [|split; [|split]].
  - intros params o d log Ho Hd.
    destruct (planRoute_spec P now nowISO params o d log Ho Hd)
      as (rs & ext & _ & _ & E).
    eexists. exists ext. exact E.
  - intros params log H. unfold planRoute, throw.
    destruct H as [H|H]; rewrite H; [|destruct (p_origin params)];
      eexists; reflexivity.
  - intros req body log Hm Hu Hb H. unfold Handler.handler.
    rewrite Hm, Hu, Hb. cbn. unfold try_catch, bind. cbn.
    destruct H as [H|H]; rewrite H;
      [|destruct (Handler.b_start body)]; reflexivity.
  - intros req n log Hm Hu Hb. unfold Handler.handler.
    rewrite Hm, Hu, Hb. cbn. unfold try_catch, bind. cbn.
    eexists. split; reflexivity.
Qed.

Lemma C8_witness :
  (exists res ext,
     planRoute mockProvider example_time example_iso no_coordinates_params []
     = (Return res,
        [] ++ GetSubwayRoutes no_coordinates_origin plain_destination :: ext))
  /\ Handler.handler mockProvider example_time example_iso no_start_request []
     = (Return {| Handler.statusCode := 400;
                  Handler.json :=
                    Some (Handler.ErrorBody 400 "缺少起点或终点参数") |},
        [])
  /\ (exists msg,
        Handler.handler mockProvider example_time example_iso no_body_request []
        = (Return {| Handler.statusCode := 500;
                     Handler.json :=
                       Some (Handler.ErrorBody 500
                               ("服务器错误: " ++ msg)%string) |},
           [])).
Proof.
  destruct (C8_no_coordinate_check mockProvider example_time example_iso)
    as (Hplan & _ & Hhandler & Hbody).
  split; [|split].
  - apply (Hplan no_coordinates_params); reflexivity.
  - eapply (Hhandler no_start_request);
      [reflexivity | reflexivity | reflexivity | left; reflexivity].
  - destruct (Hbody no_body_request Handler.js_undefined []
                eq_refl eq_refl eq_refl) as (msg & _ & E).
    exists msg. exact E.
Defined.

(** C10.  When the destination has no name, the keyword check is skipped:
    the scenario is the one the hour alone decides (late night from 23h and
    before 5h, else peak from 7h to 9h and from 17h to 19h, else routine),
    and [planRoute] returns a result carrying that scenario. *)
Theorem C10_unnamed_destination (P : Provider) (now : Date) (nowISO : string)
    (params : PlanParams) (origin destination : GeoPoint) (log : Log) :
  p_origin params = Some origin -> p_destination params = Some destination ->
  name destination = None ->
  let hour := getHours (default now (p_time params)) in
  (forall time, _detectScenario origin destination time
                = scenario_by_hour (getHours time))
  /\ ((23 <= hour \/ hour < 5)%Z -> scenario_by_hour hour = LateNight)
  /\ ((7 <= hour <= 9 \/ 17 <= hour <= 19)%Z -> scenario_by_hour hour = Peak)
  /\ ((5 <= hour < 7 \/ 9 < hour < 17 \/ 19 < hour < 23)%Z ->
      scenario_by_hour hour = Routine)
  /\ exists res log',
       planRoute P now nowISO params log = (Return res, log')
       /\ meta_scenario (meta res) = scenario_by_hour hour.
Proof.
  intros Ho Hd Hname hour.
  assert (Hdetect : forall time, _detectScenario origin destination time
                                 = scenario_by_hour (getHours time)).
  { intros time. rewrite detectScenario_unfold, Hname. reflexivity. }
  split; [exact Hdetect|].
  split; [|split; [|split]].
  1-3: intros H; unfold scenario_by_hour;
       destruct (Z.leb_spec 23 hour), (Z.ltb_spec hour 5),
         (Z.leb_spec 7 hour), (Z.leb_spec hour 9),
         (Z.leb_spec 17 hour), (Z.leb_spec hour 19);
       cbn; try reflexivity; exfalso; lia.
  destruct (planRoute_spec P now nowISO params origin destination log Ho Hd)
    as (rs & ext & _ & _ & E).
  eexists. eexists. split; [exact E|]. cbn [meta meta_scenario].
  apply Hdetect.
Qed.

Lemma C10_witness :
  exists res log',
    planRoute mockProvider example_time example_iso unnamed_params []
    = (Return res, log')
    /\ meta_scenario (meta res) = Peak.
Proof.
  destruct (C10_unnamed_destination mockProvider example_time example_iso
              unnamed_params plain_origin unnamed_destination []
              eq_refl eq_refl eq_refl) as (_ & _ & _ & _ & H).
  exact H.
Defined.

(** ** Further properties *)

(** *** Comfort, weights and the composite score *)

Lemma fold_left_sum_nonneg {A} (f : A -> Q) (l : list A) (acc : Q) :
  0 <= acc -> Forall (fun x => 0 <= f x) l ->
  0 <= fold_left (fun sum x => sum + f x) l acc.
Proof.
  revert acc. induction l as [|x xs IH]; intros acc Ha Hl; cbn; [exact Ha|].
  inversion_clear Hl as [|? ? Hx Hxs]. apply IH; [lra | exact Hxs].
Qed.

Lemma walk_total_nonneg (l : list Segment) : nonneg_legs l -> 0 <= walk_total l.
Proof.
  intros H. unfold walk_total. apply fold_left_sum_nonneg; [lra|].
  apply Forall_forall. intros s Hs. apply filter_In in Hs as [Hin Hm].
  unfold nonneg_legs in H. rewrite Forall_forall in H. specialize (H s Hin).
  destruct s; cbn in *; try discriminate; lra.
Qed.

Lemma taxi_wait_nonneg (l : list Segment) :
  nonneg_legs l ->
  0 <= fold_left (fun sum seg => sum + or_0 (seg_waitTime seg))
         (filter (fun seg => Mode_eqb (mode seg) taxi_mode) l) 0.
Proof.
  intros H. apply fold_left_sum_nonneg; [lra|].
  apply Forall_forall. intros s Hs. apply filter_In in Hs as [Hin Hm].
  unfold nonneg_legs in H. rewrite Forall_forall in H. specialize (H s Hin).
  destruct s; cbn in *; try discriminate; lra.
Qed.

Lemma Qfloor_nonneg (x : Q) : 0 <= x -> (0 <= Qfloor x)%Z.
Proof. intros H. change 0%Z with (Qfloor 0). now apply Qfloor_resp_le. Qed.

Lemma comfort_lower (r : Route) : 0 <= _calculateComfortScore r.
Proof. unfold _calculateComfortScore, Math_max. apply Q.le_max_l. Qed.

Lemma comfort_upper (r : Route) :
  nonneg_legs (segments r) -> _calculateComfortScore r <= 100.
Proof.
  intros H. unfold _calculateComfortScore, Math_max, Math_floor.
  assert (Hw := walk_total_nonneg _ H). assert (Ht := taxi_wait_nonneg _ H).
  set (wait := fold_left _ _ _) in *.
  assert (Hf : 0 <= inject_Z (Qfloor (walk_total (segments r) / 500))).
  { change 0 with (inject_Z 0). rewrite <- Zle_Qle. apply Qfloor_nonneg.
    apply Qle_shift_div_l; lra. }
  assert (Hn : 0 <= inject_Z (Z.of_nat (transfers (segments r)))).
  { change 0 with (inject_Z 0). rewrite <- Zle_Qle. lia. }
  apply Q.max_lub; lra.
Qed.

(** X1.  The comfort score is never negative, and it is at most 100 when
    no walking distance and no taxi waiting time of the route is negative;
    the rounded comfort score of a scored candidate then lies between 0 and
    100. *)
Theorem X1_comfort_bounds (r : Route) :
  0 <= _calculateComfortScore r
  /\ (0 <= Math_round (_calculateComfortScore r))%Z
  /\ (nonneg_legs (segments r) ->
      _calculateComfortScore r <= 100
      /\ (Math_round (_calculateComfortScore r) <= 100)%Z).
Proof.
  assert (L := comfort_lower r). split; [exact L|]. split.
  - change 0%Z with (Math_round 0). now apply Math_round_le.
  - intros H. assert (U := comfort_upper r H). split; [exact U|].
    change 100%Z with (Math_round 100). now apply Math_round_le.
Qed.

Lemma X1_witness :
  _calculateComfortScore (subway_candidate slow_transit) <= 100.
Proof.
  apply (X1_comfort_bounds (subway_candidate slow_transit)).
  repeat constructor.
Defined.

Lemma inherited_key_not_own (preference : string) :
  inherited_key preference = true ->
  String.eqb preference "time" = false
  /\ String.eqb preference "cost" = false
  /\ String.eqb preference "balance" = false.
Proof.
  intros H. repeat split.
  - destruct (String.eqb_spec preference "time") as [->|]; [discriminate H | reflexivity].
  - destruct (String.eqb_spec preference "cost") as [->|]; [discriminate H | reflexivity].
  - destruct (String.eqb_spec preference "balance") as [->|]; [discriminate H | reflexivity].
Qed.

Lemma weights_cases (preference : string) (scenario : Scenario) :
  weights_defined preference scenario \/ weights_undefined preference scenario.
Proof.
  unfold weights_defined, weights_undefined.
  destruct (inherited_key preference); destruct scenario; auto.
Qed.

Lemma weights_exclusive (preference : string) (scenario : Scenario) :
  weights_defined preference scenario -> weights_undefined preference scenario ->
  False.
Proof.
  intros [H|[H|H]] [H' [Hs|Hs]]; congruence.
Qed.

Lemma weights_facts (preference : string) (scenario : Scenario) :
  weights_defined preference scenario ->
  exists w,
    _getWeights preference scenario = Some w
    /\ 0 < w_time w /\ 0 < w_cost w /\ 0 < w_comfort w
    /\ w_time w + w_cost w + w_comfort w == 1.
Proof.
  intros H. unfold _getWeights.
  assert (Hsc : scenario = RushToCatch \/ scenario = LateNight
                \/ ((scenario = Peak \/ scenario = Routine)
                    /\ inherited_key preference = false)).
  { destruct H as [H|[H|H]]; auto. destruct scenario; auto. }
  destruct Hsc as [->|[->|[[->| ->] ->]]];
    destruct (String.eqb preference "time");
    destruct (String.eqb preference "cost");
    destruct (String.eqb preference "balance");
    eexists; (split; [reflexivity|]); cbn; repeat split; reflexivity.
Qed.

Lemma weights_none (preference : string) (scenario : Scenario) :
  weights_undefined preference scenario ->
  _getWeights preference scenario = None.
Proof.
  intros [H Hs]. destruct (inherited_key_not_own preference H) as (E1 & E2 & E3).
  unfold _getWeights. rewrite E1, E2, E3, H. now destruct Hs as [->| ->].
Qed.

(** X2.  Whenever the preference is not a property name that the weight
    table inherits, and in the hub-bound and the late-night scenario
    whatever the preference, the three weights are positive and add up to
    1.  For an inherited name (such as ["constructor"]) in the peak or the
    routine scenario the answer carries no weights at all.  In the
    hub-bound and the late-night scenario the weights do not depend on the
    preference, and a preference that the table neither owns nor inherits
    gets the balanced weights. *)
Theorem X2_weights (preference : string) (scenario : Scenario) :
  (weights_defined preference scenario ->
   exists w,
     _getWeights preference scenario = Some w
     /\ 0 < w_time w /\ 0 < w_cost w /\ 0 < w_comfort w
     /\ w_time w + w_cost w + w_comfort w == 1)
  /\ (weights_undefined preference scenario ->
      _getWeights preference scenario = None)
  /\ _getWeights preference RushToCatch = _getWeights "balance" RushToCatch
  /\ _getWeights preference LateNight = _getWeights "balance" LateNight
  /\ (inherited_key preference = false ->
      preference <> "time" -> preference <> "cost" ->
      _getWeights preference scenario = _getWeights "balance" scenario).
Proof.
  split; [apply weights_facts|]. split; [apply weights_none|].
  split; [reflexivity|]. split; [reflexivity|].
  intros Hi Ht Hc. unfold _getWeights. rewrite Hi.
  apply String.eqb_neq in Ht, Hc. rewrite Ht, Hc.
  change (String.eqb "balance" "time") with false.
  change (String.eqb "balance" "cost") with false.
  change (String.eqb "balance" "balance") with true.
  cbv iota. now destruct (String.eqb preference "balance").
Qed.

Lemma X2_witness :
  (exists w,
     _getWeights "time" Peak = Some w
     /\ 0 < w_time w /\ 0 < w_cost w /\ 0 < w_comfort w
     /\ w_time w + w_cost w + w_comfort w == 1)
  /\ _getWeights "constructor" Routine = None
  /\ _getWeights "comfort" Routine = _getWeights "balance" Routine.
Proof.
  destruct (X2_weights "time" Peak) as (Hdef & _).
  destruct (X2_weights "constructor" Routine) as (_ & Hundef & _).
  destruct (X2_weights "comfort" Routine) as (_ & _ & _ & _ & Hother).
  split; [apply Hdef; left; reflexivity|].
  split; [apply Hundef; split; [reflexivity | now right]|].
  apply Hother; [reflexivity | discriminate | discriminate].
Defined.

Lemma round1_ceiling (k : Z) (b c : Q) :
  b == inject_Z k / 10 -> c <= b -> inject_Z (Math_round (c * 10)) / 10 <= b.
Proof.
  intros E H. rewrite E in *.
  assert (Hk : (Math_round (c * 10) <= k)%Z).
  { rewrite <- (Math_round_Z k) at 1. apply Math_round_le.
    change (inject_Z k / 10) with (inject_Z k * (1 # 10)) in H. lra. }
  rewrite Zle_Qle in Hk.
  change (inject_Z k / 10) with (inject_Z k * (1 # 10)).
  change (inject_Z (Math_round (c * 10)) / 10)
    with (inject_Z (Math_round (c * 10)) * (1 # 10)).
  lra.
Qed.

Lemma axis_raw_bounds (f : Route -> Q) (routes : list Route) (r : Route) :
  In r routes ->
  0 <= axis_raw (Math_min_of (map f routes)) (Math_max_of (map f routes)) (f r)
       <= 100.
Proof.
  intros H. assert (L := axis_min_le f routes r H).
  assert (U := axis_le_max f routes r H).
  unfold axis_raw.
  destruct (Qeq_bool (Math_max_of (map f routes)) (Math_min_of (map f routes)))
    eqn:E; [lra|].
  apply Qeq_bool_neq in E.
  set (lo := Math_min_of (map f routes)) in *.
  set (hi := Math_max_of (map f routes)) in *.
  assert (Hpos : 0 < hi - lo) by (destruct (Qlt_le_dec lo hi); lra).
  assert (Q0 : 0 <= (f r - lo) / (hi - lo)) by (apply Qle_shift_div_l; lra).
  assert (Q1 : (f r - lo) / (hi - lo) <= 1) by (apply Qle_shift_div_r; lra).
  lra.
Qed.

Lemma score_entry_total (routes : list Route) (pref : string) (sc : Scenario)
    (r : Route) :
  In r routes ->
  (weights_defined pref sc ->
   exists t,
     s_total (scores (score_entry routes pref sc r)) = Some t
     /\ 0 <= t /\ (nonneg_legs (segments r) -> t <= 1))
  /\ (weights_undefined pref sc ->
      s_total (scores (score_entry routes pref sc r)) = None).
Proof.
  intros Hr. split.
  - intros Hw. destruct (weights_facts pref sc Hw) as (w & Ew & Wt & Wc & Wk & Ws).
    unfold score_entry. cbn [scores s_total]. rewrite Ew.
    eexists. split; [reflexivity|].
    assert (Ht := axis_raw_bounds totalDuration routes r Hr).
    assert (Hc := axis_raw_bounds totalCost routes r Hr).
    set (t := axis_raw _ _ (totalDuration r)) in *.
    set (c := axis_raw _ _ (totalCost r)) in *.
    assert (Hk := comfort_lower r).
    set (k := _calculateComfortScore r) in *.
    assert (P1 : 0 <= t * w_time w) by (apply Qmult_le_0_compat; lra).
    assert (P2 : 0 <= c * w_cost w) by (apply Qmult_le_0_compat; lra).
    assert (P3 : 0 <= k * w_comfort w) by (apply Qmult_le_0_compat; lra).
    split.
    + apply (round1_floor 0); [reflexivity|].
      change ((t * w_time w + c * w_cost w + k * w_comfort w) / 100)
        with ((t * w_time w + c * w_cost w + k * w_comfort w) * (1 # 100)).
      lra.
    + intros Hn. assert (Hk' := comfort_upper r Hn). fold k in Hk'.
      assert (U1 : t * w_time w <= 100 * w_time w)
        by (apply Qmult_le_compat_r; lra).
      assert (U2 : c * w_cost w <= 100 * w_cost w)
        by (apply Qmult_le_compat_r; lra).
      assert (U3 : k * w_comfort w <= 100 * w_comfort w)
        by (apply Qmult_le_compat_r; lra).
      apply (round1_ceiling 10); [reflexivity|].
      change ((t * w_time w + c * w_cost w + k * w_comfort w) / 100)
        with ((t * w_time w + c * w_cost w + k * w_comfort w) * (1 # 100)).
      lra.
  - intros Hw. unfold score_entry. cbn [scores s_total].
    now rewrite (weights_none pref sc Hw).
Qed.

Lemma calculateScores_totals (routes : list Route) (pref : string)
    (sc : Scenario) :
  (weights_defined pref sc ->
   totals_are_numbers (_calculateScores routes pref sc))
  /\ (weights_undefined pref sc ->
      totals_are_NaN (_calculateScores routes pref sc)).
Proof.
  rewrite calculateScores_map. split; intros Hw sr Hsr;
    apply in_map_iff in Hsr as (r & <- & Hr);
    destruct (score_entry_total routes pref sc r Hr) as (Hdef & Hundef).
  - destruct (Hdef Hw) as (t & E & _). now exists t.
  - now apply Hundef.
Qed.

(** X3.  Every candidate gets a composite score at its position of the
    scored list.  When the weights are numbers (the preference is not a
    property name the weight table inherits, or the scenario is the
    hub-bound or the late-night one), that score is a number, never
    negative, and at most 1 when no walking distance and no taxi waiting
    time of the candidate is negative: the weighted blend of three scores
    out of 100 is divided by 100.  Otherwise the composite score is
    [NaN]. *)
Theorem X3_composite_range (routes : list Route) (pref : string) (sc : Scenario)
    (i : nat) (r : Route) :
  nth_error routes i = Some r ->
  exists sr,
    nth_error (_calculateScores routes pref sc) i = Some sr
    /\ route sr = r
    /\ (weights_defined pref sc ->
        exists t,
          s_total (scores sr) = Some t
          /\ 0 <= t
          /\ (nonneg_legs (segments r) -> t <= 1))
    /\ (weights_undefined pref sc -> s_total (scores sr) = None).
Proof.
  intros Hi. exists (score_entry routes pref sc r).
  split; [now apply calculateScores_nth|]. split; [reflexivity|].
  apply score_entry_total. eapply nth_error_In; eauto.
Qed.

Lemma X3_witness :
  (exists sr t,
     nth_error (_calculateScores two_candidates "balance" Routine) 1 = Some sr
     /\ s_total (scores sr) = Some t /\ 0 <= t <= 1)
  /\ (exists sr,
        nth_error (_calculateScores two_candidates "toString" Routine) 1 = Some sr
        /\ s_total (scores sr) = None).
Proof.
  split.
  - destruct (X3_composite_range two_candidates "balance" Routine 1
                (subway_candidate fast_transit) eq_refl)
      as (sr & E & _ & Hdef & _).
    destruct Hdef as (t & Et & H0 & H1); [left; reflexivity|].
    exists sr, t. split; [exact E|]. split; [exact Et|].
    split; [exact H0|]. apply H1. repeat constructor.
  - destruct (X3_composite_range two_candidates "toString" Routine 1
                (subway_candidate fast_transit) eq_refl)
      as (sr & E & _ & _ & Hundef).
    exists sr. split; [exact E|]. apply Hundef. split; [reflexivity | now right].
Defined.

(** *** The scores do not depend on the order of the candidates *)

Lemma Math_min_of_perm (l l' : list Q) :
  Permutation l l' -> Math_min_of l == Math_min_of l'.
Proof.
  intros H. destruct l as [|x xs].
  - apply Permutation_nil in H. subst. reflexivity.
  - assert (Hl' : l' <> []).
    { intros ->. symmetry in H. apply Permutation_nil in H. discriminate. }
    destruct (Math_min_of_In (x :: xs)) as (y & Hy & Ey); [discriminate|].
    destruct (Math_min_of_In l' Hl') as (y' & Hy' & Ey').
    assert (L1 := Math_min_of_le l' y (Permutation_in _ H Hy)).
    assert (L2 := Math_min_of_le (x :: xs) y'
                    (Permutation_in _ (Permutation_sym H) Hy')).
    lra.
Qed.

Lemma Math_max_of_perm (l l' : list Q) :
  Permutation l l' -> Math_max_of l == Math_max_of l'.
Proof.
  intros H. destruct l as [|x xs].
  - apply Permutation_nil in H. subst. reflexivity.
  - assert (Hl' : l' <> []).
    { intros ->. symmetry in H. apply Permutation_nil in H. discriminate. }
    destruct (Math_max_of_In (x :: xs)) as (y & Hy & Ey); [discriminate|].
    destruct (Math_max_of_In l' Hl') as (y' & Hy' & Ey').
    assert (L1 := Math_max_of_ge l' y (Permutation_in _ H Hy)).
    assert (L2 := Math_max_of_ge (x :: xs) y'
                    (Permutation_in _ (Permutation_sym H) Hy')).
    lra.
Qed.

Lemma axis_raw_comp (lo lo' hi hi' v : Q) :
  lo == lo' -> hi == hi' -> axis_raw lo hi v == axis_raw lo' hi' v.
Proof.
  intros El Eh. unfold axis_raw.
  destruct (Qeq_bool hi lo) eqn:E, (Qeq_bool hi' lo') eqn:E'.
  - reflexivity.
  - apply Qeq_bool_eq in E. apply Qeq_bool_neq in E'. exfalso. apply E'. lra.
  - apply Qeq_bool_neq in E. apply Qeq_bool_eq in E'. exfalso. apply E. lra.
  - now rewrite El, Eh.
Qed.

Lemma score_entry_perm (routes routes' : list Route) (pref : string)
    (sc : Scenario) (r : Route) :
  Permutation routes routes' ->
  score_entry routes pref sc r = score_entry routes' pref sc r.
Proof.
  intros H. unfold score_entry.
  assert (Et : axis_raw (Math_min_of (map totalDuration routes))
                 (Math_max_of (map totalDuration routes)) (totalDuration r)
               == axis_raw (Math_min_of (map totalDuration routes'))
                    (Math_max_of (map totalDuration routes')) (totalDuration r)).
  { apply axis_raw_comp;
      [apply Math_min_of_perm | apply Math_max_of_perm];
      now apply Permutation_map. }
  assert (Ec : axis_raw (Math_min_of (map totalCost routes))
                 (Math_max_of (map totalCost routes)) (totalCost r)
               == axis_raw (Math_min_of (map totalCost routes'))
                    (Math_max_of (map totalCost routes')) (totalCost r)).
  { apply axis_raw_comp;
      [apply Math_min_of_perm | apply Math_max_of_perm];
      now apply Permutation_map. }
  f_equal. f_equal.
  - now apply Math_round_comp.
  - now apply Math_round_comp.
  - destruct (_getWeights pref sc) as [w|]; [|reflexivity].
    f_equal. f_equal. f_equal. apply Math_round_comp. now rewrite Et, Ec.
Qed.

(** X4.  Scoring does not depend on the order of the candidates.  Both
    scored lists have one entry per candidate, at the candidate's own
    position; when the candidate list is reordered, a candidate found at
    position [i] of the one list and at position [j] of the other has one
    and the same scored entry at position [i] of the one scored list and at
    position [j] of the other: the scored list is reordered the same way,
    every candidate keeping the very same scores. *)
Theorem X4_scores_order_invariant (routes routes' : list Route) (pref : string)
    (sc : Scenario) :
  Permutation routes routes' ->
  List.length (_calculateScores routes pref sc) = List.length routes
  /\ List.length (_calculateScores routes' pref sc) = List.length routes'
  /\ (forall (i j : nat) (r : Route),
        nth_error routes i = Some r -> nth_error routes' j = Some r ->
        exists sr,
          nth_error (_calculateScores routes pref sc) i = Some sr
          /\ nth_error (_calculateScores routes' pref sc) j = Some sr
          /\ route sr = r)
  /\ Permutation (_calculateScores routes pref sc)
       (_calculateScores routes' pref sc).
Proof.
  intros H.
  split; [apply calculateScores_length|].
  split; [apply calculateScores_length|].
  split.
  - intros i j r Hi Hj. exists (score_entry routes pref sc r).
    split; [now apply calculateScores_nth|].
    split; [|reflexivity].
    rewrite (score_entry_perm routes routes' pref sc r H).
    now apply calculateScores_nth.
  - rewrite !calculateScores_map.
    rewrite (map_ext _ _ (fun r => score_entry_perm routes routes' pref sc r H)).
    now apply Permutation_map.
Qed.

Lemma X4_witness :
  exists sr,
    nth_error (_calculateScores two_candidates "balance" Routine) 0 = Some sr
    /\ nth_error (_calculateScores (rev two_candidates) "balance" Routine) 1
       = Some sr
    /\ id (route sr) = "subway_0".
Proof.
  destruct (X4_scores_order_invariant two_candidates (rev two_candidates)
              "balance" Routine (Permutation_rev two_candidates))
    as (_ & _ & H & _).
  destruct (H 0%nat 1%nat (subway_candidate slow_transit) eq_refl eq_refl)
    as (sr & E & E' & Er).
  exists sr. split; [exact E|]. split; [exact E'|]. now rewrite Er.
Defined.

(** *** The recommendation selector *)

Section SortEnds.
Context {A : Type} (cmp : A -> A -> Q) (key : A -> Q).
Hypothesis cmp_key : forall a b, cmp a b <= 0 <-> key a <= key b.

Lemma first_least_least (l : list A) (x y : A) :
  first_least key l x -> In y l -> key x <= key y.
Proof.
  intros (pre & post & -> & Hpre & Hpost) Hy.
  apply in_app_or in Hy as [Hy|[<-|Hy]].
  - apply Qlt_le_weak. now apply Hpre.
  - lra.
  - now apply Hpost.
Qed.

Lemma sort_hd_first_least (l : list A) (d : A) :
  l <> [] -> first_least key l (hd d (array_sort cmp l)).
Proof.
  induction l as [|x xs IH]; [congruence|]. intros _.
  destruct xs as [|x' xs'].
  - exists [], []. cbn. repeat split; intros y [].
  - assert (Hne : x' :: xs' <> []) by discriminate.
    specialize (IH Hne). set (xs := x' :: xs') in *.
    change (array_sort cmp (x :: xs)) with (insert_sorted cmp x (array_sort cmp xs)).
    assert (Hs : array_sort cmp xs <> []).
    { intros E. apply (f_equal (@List.length A)) in E.
      rewrite sort_length in E. discriminate. }
    destruct (array_sort cmp xs) as [|h t] eqn:Es; [congruence|].
    cbn [hd] in IH. cbn [insert_sorted].
    destruct (Qle_bool (cmp x h) 0) eqn:E; cbn [hd].
    + apply Qle_bool_iff, cmp_key in E. exists [], xs.
      split; [reflexivity|]. split; [intros y []|].
      intros y Hy. assert (Hh := first_least_least xs h y IH Hy). lra.
    + assert (Hlt : key h < key x).
      { destruct (Qlt_le_dec (key h) (key x)) as [Hlt|Hle]; [exact Hlt|].
        apply cmp_key, Qle_bool_iff in Hle. congruence. }
      destruct IH as (pre & post & Exs & Hpre & Hpost).
      exists (x :: pre), post. split; [now rewrite Exs|].
      split; [|exact Hpost].
      intros y [<-|Hy]; [exact Hlt | now apply Hpre].
Qed.

Lemma ascending_last_greatest (l : list A) (d y : A) :
  ascending key l -> In y l -> key y <= key (last l d).
Proof.
  unfold ascending. induction l as [|x xs IH]; [intros _ []|].
  intros Hs Hy. inversion_clear Hs as [|? ? Hxs Hx].
  destruct xs as [|x' xs'].
  - destruct Hy as [<-|[]]. cbn. lra.
  - change (last (x :: x' :: xs') d) with (last (x' :: xs') d).
    destruct Hy as [<-|Hy].
    + rewrite Forall_forall in Hx. apply Hx.
      destruct (exists_last (l := x' :: xs')) as (l0 & a & E); [discriminate|].
      rewrite E, last_last. apply in_or_app. right. now left.
    + now apply IH.
Qed.

Lemma sort_last_greatest (l : list A) (d y : A) :
  In y l -> key y <= key (last (array_sort cmp l) d).
Proof.
  intros Hy. apply ascending_last_greatest.
  - now apply sort_ascending.
  - now apply sort_In.
Qed.

Lemma sort_last_In (l : list A) (d : A) :
  l <> [] -> In (last (array_sort cmp l) d) l.
Proof.
  intros Hne. apply (sort_In cmp).
  assert (Hs : array_sort cmp l <> []).
  { intros E. apply (f_equal (@List.length A)) in E.
    rewrite sort_length in E. destruct l; [congruence | discriminate]. }
  destruct (exists_last Hs) as (l0 & a & E). rewrite E, last_last.
  apply in_or_app. right. now left.
Qed.
End SortEnds.

Lemma sort_ascending_id {A} (cmp : A -> A -> Q) (key : A -> Q) (l : list A) :
  (forall a b, cmp a b <= 0 <-> key a <= key b) ->
  ascending key l -> array_sort cmp l = l.
Proof.
  intros Hck. unfold ascending. induction l as [|x xs IH]; intros Hs; [reflexivity|].
  inversion_clear Hs as [|? ? Hxs Hx]. cbn [array_sort fold_right].
  change (fold_right (insert_sorted cmp) [] xs) with (array_sort cmp xs).
  rewrite (IH Hxs). destruct xs as [|y ys]; [reflexivity|]. cbn [insert_sorted].
  inversion_clear Hx as [|? ? Hxy _].
  apply Hck, Qle_bool_iff in Hxy. now rewrite Hxy.
Qed.

Lemma insert_sorted_ext {A} (cmp cmp' : A -> A -> Q) (x : A) (l : list A) :
  (forall y, In y l -> Qle_bool (cmp x y) 0 = Qle_bool (cmp' x y) 0) ->
  insert_sorted cmp x l = insert_sorted cmp' x l.
Proof.
  induction l as [|y ys IH]; intros H; cbn [insert_sorted]; [reflexivity|].
  rewrite (H y) by now left.
  destruct (Qle_bool (cmp' x y) 0); [reflexivity|].
  f_equal. apply IH. intros z Hz. apply H. now right.
Qed.

(** Sorting reads the comparator on the elements of the array only. *)
Lemma sort_ext {A} (cmp cmp' : A -> A -> Q) (l : list A) :
  (forall x y, In x l -> In y l ->
               Qle_bool (cmp x y) 0 = Qle_bool (cmp' x y) 0) ->
  array_sort cmp l = array_sort cmp' l.
Proof.
  induction l as [|x xs IH]; intros H; [reflexivity|].
  cbn [array_sort fold_right].
  change (fold_right (insert_sorted cmp) [] xs) with (array_sort cmp xs).
  change (fold_right (insert_sorted cmp') [] xs) with (array_sort cmp' xs).
  rewrite IH by (intros a b Ha Hb; apply H; now right).
  apply insert_sorted_ext. intros y Hy. apply H; [now left|].
  right. exact (proj1 (sort_In cmp' xs y) Hy).
Qed.

Lemma recommend_first_least (scoredRoutes : list ScoredRoute)
    (scenario : Scenario) (preference : string) :
  scoredRoutes <> [] ->
  exists r f c,
    _recommend scoredRoutes scenario preference
    = {| recommended := Some r; fastest := Some f; cheapest := Some c |}
    /\ first_least (fun sr => totalDuration (route sr)) scoredRoutes (scored f)
    /\ first_least (fun sr => totalCost (route sr)) scoredRoutes (scored c)
    /\ (totals_are_numbers scoredRoutes ->
        first_least (fun sr => - total_of sr) scoredRoutes (scored r))
    /\ (totals_are_NaN scoredRoutes ->
        hd_error scoredRoutes = Some (scored r)).
Proof.
  intros Hne. unfold _recommend.
  destruct scoredRoutes as [|r0 rest] eqn:E; [congruence|]. rewrite <- E in *.
  eexists. eexists. eexists. split; [reflexivity|]. cbn [scored].
  split; [|split; [|split]].
  - apply sort_hd_first_least; [|exact Hne]. intros a b. split; intros; lra.
  - apply sort_hd_first_least; [|exact Hne]. intros a b. split; intros; lra.
  - intros Hnum.
    rewrite (sort_ext _ (fun a b => total_of b - total_of a)).
    + apply sort_hd_first_least; [|exact Hne]. intros a b. split; intros; lra.
    + intros a b Ha Hb. destruct (Hnum a Ha) as (ta & Ea).
      destruct (Hnum b Hb) as (tb & Eb).
      unfold total_of. now rewrite Ea, Eb.
  - intros Hnan.
    rewrite (sort_ext _ (fun _ _ => 0)).
    + rewrite (sort_ascending_id _ (fun _ => 0)).
      * now rewrite E.
      * intros a b. split; intros; lra.
      * unfold ascending. clear. induction scoredRoutes as [|x xs IH];
          constructor; [exact IH|].
        apply Forall_forall. intros y _. lra.
    + intros a b Ha Hb. now rewrite (Hnan a Ha), (Hnan b Hb).
Qed.

(** X5.  From a non-empty scored set the selector always returns three
    routes: the fastest is the first candidate of least total duration, the
    cheapest the first candidate of least total cost, the recommended the
    first candidate of greatest composite score (ties go to the candidate
    that comes first in the list); when every composite score is [NaN],
    the recommended is the first candidate of the list. *)
Theorem X5_recommend_selection (scoredRoutes : list ScoredRoute)
    (scenario : Scenario) (preference : string) :
  scoredRoutes <> [] ->
  exists r f c,
    _recommend scoredRoutes scenario preference
    = {| recommended := Some r; fastest := Some f; cheapest := Some c |}
    /\ first_least (fun sr => totalDuration (route sr)) scoredRoutes (scored f)
    /\ first_least (fun sr => totalCost (route sr)) scoredRoutes (scored c)
    /\ (totals_are_numbers scoredRoutes ->
        first_least (fun sr => - total_of sr) scoredRoutes (scored r))
    /\ (totals_are_NaN scoredRoutes ->
        hd_error scoredRoutes = Some (scored r)).
Proof.
  intros Hne. now apply recommend_first_least.
Qed.

Lemma X5_witness :
  exists r f c,
    _recommend (_calculateScores two_candidates "balance" Routine) Routine "balance"
    = {| recommended := Some r; fastest := Some f; cheapest := Some c |}
    /\ id (route (scored f)) = "subway_1"
    /\ id (route (scored c)) = "subway_1"
    /\ id (route (scored r)) = "subway_1"
    /\ first_least (fun sr => - total_of sr)
         (_calculateScores two_candidates "balance" Routine) (scored r).
Proof.
  destruct (X5_recommend_selection
              (_calculateScores two_candidates "balance" Routine)
              Routine "balance") as (r & f & c & E & _ & _ & Hnum & _).
  - discriminate.
  - exists r, f, c. split; [exact E|].
    assert (Hr : first_least (fun sr => - total_of sr)
                   (_calculateScores two_candidates "balance" Routine) (scored r)).
    { apply Hnum. apply calculateScores_totals. left. reflexivity. }
    vm_compute in E. injection E as <- <- <-.
    split; [reflexivity|]. split; [reflexivity|]. split; [reflexivity|].
    exact Hr.
Defined.

Lemma least_is_min (f : ScoredRoute -> Q) (l : list ScoredRoute) (x : ScoredRoute) :
  first_least f l x -> f x == Math_min_of (map f l).
Proof.
  intros H.
  assert (Hin : In x l).
  { destruct H as (pre & post & -> & _). apply in_or_app. right. now left. }
  assert (L := Math_min_of_le (map f l) (f x) (in_map f l x Hin)).
  destruct (Math_min_of_In (map f l)) as (y & Hy & Ey).
  { destruct l; [contradiction | discriminate]. }
  apply in_map_iff in Hy as (z & <- & Hz).
  assert (U := first_least_least f l x z H Hz). lra.
Qed.

Lemma greatest_is_max (f : ScoredRoute -> Q) (l : list ScoredRoute) (x : ScoredRoute) :
  In x l -> (forall y, In y l -> f y <= f x) -> f x == Math_max_of (map f l).
Proof.
  intros Hin H.
  assert (L := Math_max_of_ge (map f l) (f x) (in_map f l x Hin)).
  destruct (Math_max_of_In (map f l)) as (y & Hy & Ey).
  { destruct l; [contradiction | discriminate]. }
  apply in_map_iff in Hy as (z & <- & Hz).
  assert (U := H z Hz). lra.
Qed.

(** X6.  The tags of the selections state the spread of the set: the
    comparison tag of the fastest route is built from the greatest total
    duration of the set and the route's own, the least; that of the
    cheapest route from the greatest total cost of the set and the route's
    own, the least.  In both tags the first operand is never below the
    second.  The recommended route is tagged with the reason that goes
    with the scenario. *)
Theorem X6_recommend_tags (scoredRoutes : list ScoredRoute)
    (scenario : Scenario) (preference : string) :
  scoredRoutes <> [] ->
  let duration := fun sr => totalDuration (route sr) in
  let cost := fun sr => totalCost (route sr) in
  exists r f c slowest priciest,
    _recommend scoredRoutes scenario preference
    = {| recommended := Some r; fastest := Some f; cheapest := Some c |}
    /\ In slowest scoredRoutes
    /\ (forall sr, In sr scoredRoutes -> duration sr <= duration slowest)
    /\ (forall sr, In sr scoredRoutes -> duration (scored f) <= duration sr)
    /\ In priciest scoredRoutes
    /\ (forall sr, In sr scoredRoutes -> cost sr <= cost priciest)
    /\ (forall sr, In sr scoredRoutes -> cost (scored c) <= cost sr)
    /\ tags f = [Text "最快方案";
                 FasterBy (duration slowest) (duration (scored f))]
    /\ tags c = [Text "最省钱"; CheaperBy (cost priciest) (cost (scored c))]
    /\ tags r = [Text "推荐方案";
                 Text (_getRecommendReason (scored r) scenario)]
    /\ duration (scored f) <= duration slowest
    /\ cost (scored c) <= cost priciest
    /\ duration slowest
       == Math_max_of (map duration scoredRoutes)
    /\ duration (scored f) == Math_min_of (map duration scoredRoutes)
    /\ cost priciest == Math_max_of (map cost scoredRoutes)
    /\ cost (scored c) == Math_min_of (map cost scoredRoutes).
Proof.
  intros Hne keyT keyC. unfold _recommend.
  destruct scoredRoutes as [|r0 rest]; [congruence|].
  set (l := r0 :: rest) in *.
  set (cmpT := fun a b : ScoredRoute =>
                 totalDuration (route a) - totalDuration (route b)).
  set (cmpC := fun a b : ScoredRoute =>
                 totalCost (route a) - totalCost (route b)).
  assert (HT : forall a b, cmpT a b <= 0 <-> keyT a <= keyT b)
    by (intros a b; unfold cmpT, keyT; split; intros; lra).
  assert (HC : forall a b, cmpC a b <= 0 <-> keyC a <= keyC b)
    by (intros a b; unfold cmpC, keyC; split; intros; lra).
  assert (FT := sort_hd_first_least cmpT keyT HT l r0 Hne).
  assert (FC := sort_hd_first_least cmpC keyC HC l r0 Hne).
  assert (IT := sort_last_In cmpT l r0 Hne).
  assert (IC := sort_last_In cmpC l r0 Hne).
  assert (GT := fun y Hy => sort_last_greatest cmpT keyT HT l r0 y Hy).
  assert (GC := fun y Hy => sort_last_greatest cmpC keyC HC l r0 y Hy).
  assert (LT := fun y Hy => first_least_least keyT l _ y FT Hy).
  assert (LC := fun y Hy => first_least_least keyC l _ y FC Hy).
  eexists. eexists. eexists.
  exists (last (array_sort cmpT l) r0), (last (array_sort cmpC l) r0).
  split; [reflexivity|]. cbn [tags scored].
  split; [exact IT|]. split; [exact GT|]. split; [exact LT|].
  split; [exact IC|]. split; [exact GC|]. split; [exact LC|].
  split; [reflexivity|]. split; [reflexivity|]. split; [reflexivity|].
  split; [now apply LT|]. split; [now apply LC|].
  split; [now apply greatest_is_max|].
  split; [now apply least_is_min|].
  split; [now apply greatest_is_max | now apply least_is_min].
Qed.

Lemma X6_witness :
  exists r f c,
    _recommend (_calculateScores two_candidates "balance" Routine) Routine "balance"
    = {| recommended := Some r; fastest := Some f; cheapest := Some c |}
    /\ tags f = [Text "最快方案"; FasterBy 90 60]
    /\ tags c = [Text "最省钱"; CheaperBy 9 5]
    /\ tags r = [Text "推荐方案"; Text "综合性价比最高"].
Proof.
  destruct (X6_recommend_tags
              (_calculateScores two_candidates "balance" Routine)
              Routine "balance") as (r & f & c & _ & _ & E & _).
  - discriminate.
  - exists r, f, c. split; [exact E|].
    vm_compute in E. injection E as <- <- <-. repeat split; reflexivity.
Defined.

(** *** More on pruning *)

Lemma filter_all {A} (f : A -> bool) (l : list A) :
  (forall x, In x l -> f x = true) -> filter f l = l.
Proof.
  induction l as [|x xs IH]; intros H; [reflexivity|]. cbn.
  rewrite (H x (or_introl eq_refl)). f_equal. apply IH.
  intros y Hy. apply H. now right.
Qed.

Lemma ascending_app_le {A} (key : A -> Q) (l1 l2 : list A) (x y : A) :
  ascending key (l1 ++ l2) -> In x l1 -> In y l2 -> key x <= key y.
Proof.
  unfold ascending. induction l1 as [|z zs IH]; intros Hs Hx Hy; [contradiction|].
  cbn in Hs. inversion_clear Hs as [|? ? Hzs Hz]. destruct Hx as [<-|Hx].
  - rewrite Forall_forall in Hz. apply Hz. apply in_or_app. now right.
  - now apply IH.
Qed.

Lemma pruneRoutes_facts (routes : list Route) :
  (List.length (MixedRouteGenerator._pruneRoutes routes) <= 10)%nat
  /\ ascending prune_key (MixedRouteGenerator._pruneRoutes routes)
  /\ (forall r, In r (MixedRouteGenerator._pruneRoutes routes) ->
                ~ short_taxi_leg r).
Proof.
  unfold MixedRouteGenerator._pruneRoutes, slice_first.
  split; [rewrite length_firstn; lia|]. split.
  - apply ascending_firstn, sort_ascending.
    intros a b. unfold prune_key. split; intros; lra.
  - intros r H. apply firstn_In, sort_In, filter_In in H as [_ H].
    now apply prune_keep_spec.
Qed.

(** X7.  Pruning an already pruned list changes nothing. *)
Theorem X7_prune_idempotent (routes : list Route) :
  MixedRouteGenerator._pruneRoutes (MixedRouteGenerator._pruneRoutes routes)
  = MixedRouteGenerator._pruneRoutes routes.
Proof.
  set (out := MixedRouteGenerator._pruneRoutes routes).
  destruct (pruneRoutes_facts routes) as (Hlen & Hasc & Hkeep).
  fold out in Hlen, Hasc, Hkeep.
  unfold MixedRouteGenerator._pruneRoutes at 1. unfold slice_first.
  rewrite (filter_all _ out).
  - rewrite (sort_ascending_id _ prune_key out).
    + now apply firstn_all2.
    + intros a b. unfold prune_key. split; intros; lra.
    + exact Hasc.
  - intros r Hr. apply prune_keep_spec. now apply Hkeep.
Qed.

(** X8.  The routes pruning keeps are the best of the survivors: a route of
    the input without a short taxi leg that is left out ranks, by total
    duration plus twice the total cost, no better than any route kept, and
    none is left out when the input has at most ten routes. *)
Theorem X8_prune_keeps_best (routes : list Route) (r : Route) :
  In r routes -> ~ short_taxi_leg r ->
  ~ In r (MixedRouteGenerator._pruneRoutes routes) ->
  (forall kept, In kept (MixedRouteGenerator._pruneRoutes routes) ->
                prune_key kept <= prune_key r)
  /\ (10 < List.length routes)%nat.
Proof.
  intros Hin Hok Hout.
  set (keep := fun r : Route =>
    forallb (fun s => match seg_distance s with
                      | Some d => Qlt_bool 2000 d
                      | None => false
                      end)
      (filter (fun s => Mode_eqb (mode s) taxi_mode) (segments r))).
  set (cmp := fun a b : Route =>
    totalDuration a + totalCost a * 2 - (totalDuration b + totalCost b * 2)).
  assert (Hcmp : forall a b, cmp a b <= 0 <-> prune_key a <= prune_key b)
    by (intros a b; unfold cmp, prune_key; split; intros; lra).
  set (sorted := array_sort cmp (filter keep routes)).
  change (MixedRouteGenerator._pruneRoutes routes) with (firstn 10 sorted) in *.
  assert (Hs : In r sorted).
  { apply sort_In, filter_In. split; [exact Hin | now apply prune_keep_spec]. }
  assert (Hasc : ascending prune_key sorted) by (apply sort_ascending; exact Hcmp).
  rewrite <- (firstn_skipn 10 sorted) in Hs, Hasc.
  apply in_app_or in Hs as [Hs|Hs]; [contradiction|].
  split.
  - intros kept Hk. exact (ascending_app_le _ _ _ _ _ Hasc Hk Hs).
  - destruct (Nat.le_gt_cases (List.length routes) 10) as [Hle|Hgt]; [|exact Hgt].
    exfalso. rewrite skipn_all2 in Hs; [contradiction|].
    unfold sorted. rewrite sort_length.
    eapply Nat.le_trans; [apply filter_length_le | exact Hle].
Qed.

Lemma X8_witness :
  exists r,
    nth_error example_hybrids 10 = Some r
    /\ id r = "mixed_both_taxi_大兴机场站_北京北站"
    /\ (forall kept,
          In kept (MixedRouteGenerator._pruneRoutes example_hybrids) ->
          prune_key kept <= prune_key r)
    /\ (10 < List.length example_hybrids)%nat.
Proof.
  destruct (nth_error example_hybrids 10) as [r|] eqn:E;
    [|vm_compute in E; discriminate].
  exists r. split; [reflexivity|].
  assert (Hid : id r = "mixed_both_taxi_大兴机场站_北京北站")
    by (vm_compute in E; injection E as <-; reflexivity).
  split; [exact Hid|].
  apply (X8_prune_keeps_best example_hybrids r).
  - eapply nth_error_In. exact E.
  - apply prune_keep_spec. vm_compute in E. injection E as <-. reflexivity.
  - intros H. apply (in_map id) in H. rewrite Hid in H.
    vm_compute in H.
    repeat (destruct H as [H|H]; [discriminate H|]). exact H.
Defined.

(** *** Counting provider requests *)

Lemma calls_weaken {A} (n n' : nat) (m : M A) :
  (n <= n')%nat -> calls_at_most n m -> calls_at_most n' m.
Proof.
  intros Hn H log. destruct (H log) as (ext & E & L). exists ext.
  split; [exact E | lia].
Qed.

Lemma calls_ret {A} (a : A) : calls_at_most 0 (ret a).
Proof. intros log. exists []. cbn. now rewrite app_nil_r. Qed.

Lemma calls_throw {A} (e : JsError) : calls_at_most 0 (@throw A e).
Proof. intros log. exists []. cbn. now rewrite app_nil_r. Qed.

Lemma calls_bind {A B} (n1 n2 : nat) (m : M A) (k : A -> M B) :
  calls_at_most n1 m -> (forall a, calls_at_most n2 (k a)) ->
  calls_at_most (n1 + n2) (bind m k).
Proof.
  intros Hm Hk log. unfold bind. destruct (Hm log) as (ext & E & L).
  destruct (m log) as [[a|e] log1]; cbn in E; subst log1.
  - destruct (Hk a (log ++ ext)) as (ext' & E' & L'). exists (ext ++ ext').
    rewrite E', app_assoc, length_app. split; [reflexivity | lia].
  - exists ext. split; [reflexivity | lia].
Qed.

Lemma calls_try_catch {A} (n1 n2 : nat) (body : M A) (handler : JsError -> M A) :
  calls_at_most n1 body -> (forall e, calls_at_most n2 (handler e)) ->
  calls_at_most (n1 + n2) (try_catch body handler).
Proof.
  intros Hm Hk log. unfold try_catch. destruct (Hm log) as (ext & E & L).
  destruct (body log) as [[a|e] log1]; cbn in E; subst log1.
  - exists ext. split; [reflexivity | lia].
  - destruct (Hk e (log ++ ext)) as (ext' & E' & L'). exists (ext ++ ext').
    rewrite E', app_assoc, length_app. split; [reflexivity | lia].
Qed.

Lemma calls_for_collect {A B} (n : nat) (body : A -> M (option B)) (l : list A) :
  (forall x, calls_at_most n (body x)) ->
  calls_at_most (List.length l * n) (for_collect body l).
Proof.
  intros Hb. induction l as [|x xs IH]; cbn [for_collect List.length].
  - apply calls_ret.
  - eapply calls_weaken; [|apply calls_bind;
      [apply Hb | intros r; apply calls_bind; [exact IH | intros rs; apply calls_ret]]].
    lia.
Qed.

Lemma calls_getSubwayRoutes P o d : calls_at_most 1 (getSubwayRoutes P o d).
Proof. intros log. exists [GetSubwayRoutes o d]. split; [reflexivity | cbn; lia]. Qed.

Lemma calls_getDrivingRoute P o d : calls_at_most 1 (getDrivingRoute P o d).
Proof. intros log. exists [GetDrivingRoute o d]. split; [reflexivity | cbn; lia]. Qed.

Lemma slice_first_length {A} (n : nat) (l : list A) :
  (List.length (slice_first n l) <= n)%nat.
Proof. unfold slice_first. rewrite length_firstn. lia. Qed.

Lemma slice_last_length {A} (n : nat) (l : list A) :
  (List.length (slice_last n l) <= n)%nat.
Proof. unfold slice_last. rewrite length_skipn. lia. Qed.

Section RequestCount.
Variable P : Provider.

Lemma calls_calculateTaxiSegment a b :
  calls_at_most 1 (MixedRouteGenerator._calculateTaxiSegment P a b).
Proof.
  unfold MixedRouteGenerator._calculateTaxiSegment.
  eapply calls_weaken; [|apply calls_bind with (n2 := O);
    [apply calls_getDrivingRoute|]]; [lia|].
  intros [drv|]; [apply calls_ret | apply calls_throw].
Qed.

Lemma calls_generateStartTaxiRoutes o d stations :
  calls_at_most 10 (MixedRouteGenerator._generateStartTaxiRoutes P o d stations).
Proof.
  unfold MixedRouteGenerator._generateStartTaxiRoutes.
  eapply calls_weaken; [|apply calls_for_collect with (n := 2%nat)].
  - assert (H := slice_first_length 5 stations). lia.
  - intros station.
    eapply calls_weaken; [|apply calls_try_catch with (n1 := 2%nat) (n2 := O)];
      [lia| |intros e; apply calls_ret].
    eapply calls_weaken; [|apply calls_bind with (n2 := 1%nat);
      [apply calls_calculateTaxiSegment|]]; [lia|].
    intros leg.
    eapply calls_weaken; [|apply calls_bind with (n2 := O);
      [apply calls_getSubwayRoutes|]]; [lia|].
    intros [|t ts]; apply calls_ret.
Qed.

Lemma calls_generateEndTaxiRoutes o d stations :
  calls_at_most 10 (MixedRouteGenerator._generateEndTaxiRoutes P o d stations).
Proof.
  unfold MixedRouteGenerator._generateEndTaxiRoutes.
  eapply calls_weaken; [|apply calls_for_collect with (n := 2%nat)].
  - assert (H := slice_last_length 5 stations). lia.
  - intros station.
    eapply calls_weaken; [|apply calls_try_catch with (n1 := 2%nat) (n2 := O)];
      [lia| |intros e; apply calls_ret].
    eapply calls_weaken; [|apply calls_bind with (n2 := 1%nat);
      [apply calls_getSubwayRoutes|]]; [lia|].
    intros [|t ts]; [eapply calls_weaken; [|apply calls_ret]; lia|].
    eapply calls_weaken; [|apply calls_bind with (n2 := O);
      [apply calls_calculateTaxiSegment|]]; [lia|].
    intros leg. apply calls_ret.
Qed.

Lemma calls_generateBothTaxiRoutes o d stations :
  calls_at_most 12 (MixedRouteGenerator._generateBothTaxiRoutes P o d stations).
Proof.
  unfold MixedRouteGenerator._generateBothTaxiRoutes.
  eapply calls_weaken; [|apply calls_bind with (n1 := 12%nat) (n2 := O)];
    [lia| |intros perStart; apply calls_ret].
  eapply calls_weaken; [|apply calls_for_collect with (n := 6%nat)].
  - assert (H := slice_first_length 2 stations). lia.
  - intros startStation.
    eapply calls_weaken; [|apply calls_bind with (n1 := 6%nat) (n2 := O)];
      [lia| |intros inner; apply calls_ret].
    eapply calls_weaken; [|apply calls_for_collect with (n := 3%nat)].
    + assert (H := slice_last_length 2 stations). lia.
    + intros endStation.
      eapply calls_weaken; [|apply calls_try_catch with (n1 := 3%nat) (n2 := O)];
        [lia| |intros e; apply calls_ret].
      eapply calls_weaken; [|apply calls_bind with (n2 := 2%nat);
        [apply calls_calculateTaxiSegment|]]; [lia|].
      intros startTaxi.
      eapply calls_weaken; [|apply calls_bind with (n2 := 1%nat);
        [apply calls_getSubwayRoutes|]]; [lia|].
      intros [|t ts]; [eapply calls_weaken; [|apply calls_ret]; lia|].
      eapply calls_weaken; [|apply calls_bind with (n2 := O);
        [apply calls_calculateTaxiSegment|]]; [lia|].
      intros endTaxi. apply calls_ret.
Qed.

Lemma calls_generateMixedRoutes o d stations :
  calls_at_most 32 (MixedRouteGenerator.generateMixedRoutes P o d stations).
Proof.
  unfold MixedRouteGenerator.generateMixedRoutes.
  eapply calls_weaken; [|apply calls_bind with (n2 := 22%nat);
    [apply calls_generateStartTaxiRoutes|]]; [lia|].
  intros l1.
  eapply calls_weaken; [|apply calls_bind with (n2 := 12%nat);
    [apply calls_generateEndTaxiRoutes|]]; [lia|].
  intros l2.
  eapply calls_weaken; [|apply calls_bind with (n2 := O);
    [apply calls_generateBothTaxiRoutes|]]; [lia|].
  intros l3. apply calls_ret.
Qed.
End RequestCount.

(** *** The shape of the candidate list *)

Lemma post_generateMixedRoutes_pruned P o d stations :
  post (MixedRouteGenerator.generateMixedRoutes P o d stations)
       (fun l => exists raw,
          l = MixedRouteGenerator._pruneRoutes raw
          /\ Forall (fun r => type r = mixed) raw).
Proof.
  unfold MixedRouteGenerator.generateMixedRoutes.
  eapply post_bind; [apply post_generateStartTaxiRoutes|]. intros l1 H1.
  eapply post_bind; [apply post_generateEndTaxiRoutes|]. intros l2 H2.
  eapply post_bind; [apply post_generateBothTaxiRoutes|]. intros l3 H3.
  apply post_ret. exists (l1 ++ l2 ++ l3). split; [reflexivity|].
  rewrite !Forall_app. repeat split;
    (eapply Forall_impl; [|eassumption]); cbv beta; tauto.
Qed.

Lemma generateAllRoutes_stages (P : Provider) (o d : GeoPoint) (log : Log)
    (Q : list Route -> Prop) :
  (forall stations,
     post (MixedRouteGenerator.generateMixedRoutes P o d stations) Q) ->
  exists taxis hybrids ext,
    _generateAllRoutes P o d log
    = (Return (map subway_candidate (transits P log o d) ++ taxis ++ hybrids),
       log ++ GetSubwayRoutes o d :: GetDrivingRoute o d :: ext)
    /\ (List.length ext <= 32)%nat
    /\ (List.length taxis <= 1)%nat
    /\ Forall (fun r => type r = taxi /\ id r = "taxi_full") taxis
    /\ (taxis = [] <-> driving P (log ++ [GetSubwayRoutes o d]) o d = None)
    /\ Q hybrids.
Proof.
  intros HQ. unfold _generateAllRoutes.
  change (getSubwayRoutes P o d log)
    with (Return (transits P log o d), log ++ [GetSubwayRoutes o d]).
  cbv iota beta.
  set (log1 := log ++ [GetSubwayRoutes o d]).
  set (subs := map subway_candidate (transits P log o d)).
  set (m3 := bind (MixedRouteGenerator.getSubwayStationsAlongRoute o d)
               (fun stations =>
                  MixedRouteGenerator.generateMixedRoutes P o d stations)).
  assert (Hcalls : calls_at_most 32 m3).
  { subst m3. eapply calls_weaken; [|apply calls_bind with (n1 := O);
      [apply calls_ret | intros stations; apply calls_generateMixedRoutes]].
    lia. }
  assert (Hpost : post m3 Q).
  { subst m3. eapply post_bind; [apply post_any|]. intros stations _.
    apply HQ. }
  assert (Hret : returns m3).
  { subst m3. apply returns_bind; [apply returns_ret|]. intros stations.
    apply returns_generateMixedRoutes. }
  unfold _generateTaxiRoute, bind, getDrivingRoute.
  fold log1. destruct (Hcalls (log1 ++ [GetDrivingRoute o d])) as (ext & E3 & L3).
  destruct (Hret (log1 ++ [GetDrivingRoute o d])) as (hybrids & R3).
  destruct (driving P log1 o d) as [drv|] eqn:Edrv; cbn [ret fst snd];
    destruct (m3 (log1 ++ [GetDrivingRoute o d])) as [[l|e] log3] eqn:Em;
    cbn [fst snd] in E3, R3; try discriminate R3; subst log3.
  - eexists [_], l, ext. split; [|split; [exact L3|]].
    + unfold log1. rewrite <- !app_assoc. cbn [app]. reflexivity.
    + split; [cbn; lia|]. split; [repeat constructor|].
      split; [split; discriminate|]. exact (Hpost _ _ _ Em).
  - exists [], l, ext. split; [|split; [exact L3|]].
    + unfold log1. rewrite <- !app_assoc. cbn [app]. reflexivity.
    + split; [cbn; lia|]. split; [constructor|].
      split; [tauto|]. exact (Hpost _ _ _ Em).
Qed.

Lemma generateAllRoutes_shape (P : Provider) (o d : GeoPoint) (log : Log) :
  exists taxis hybrids ext,
    _generateAllRoutes P o d log
    = (Return (map subway_candidate (transits P log o d) ++ taxis ++ hybrids),
       log ++ GetSubwayRoutes o d :: GetDrivingRoute o d :: ext)
    /\ (List.length ext <= 32)%nat
    /\ (List.length taxis <= 1)%nat
    /\ Forall (fun r => type r = taxi /\ id r = "taxi_full") taxis
    /\ (taxis = [] <-> driving P (log ++ [GetSubwayRoutes o d]) o d = None)
    /\ exists raw,
         hybrids = MixedRouteGenerator._pruneRoutes raw
         /\ Forall (fun r => type r = mixed) raw.
Proof.
  apply generateAllRoutes_stages. intros stations.
  apply post_generateMixedRoutes_pruned.
Qed.

(** X9.  The candidate list is made of the provider's transit itineraries
    for the whole trip, in the provider's order, then at most one pure-taxi
    candidate named [taxi_full] (absent exactly when the provider has no
    driving estimate for the trip), then at most ten hybrid candidates, all
    of type mixed, none with a taxi leg of 2000 metres or less, in
    ascending order of the pruning key. *)
Theorem X9_candidate_list_shape (P : Provider) (origin destination : GeoPoint)
    (log : Log) :
  exists taxis hybrids log',
    _generateAllRoutes P origin destination log
    = (Return (map subway_candidate (transits P log origin destination)
               ++ taxis ++ hybrids), log')
    /\ (List.length taxis <= 1)%nat
    /\ Forall (fun r => type r = taxi /\ id r = "taxi_full") taxis
    /\ (taxis = []
        <-> driving P (log ++ [GetSubwayRoutes origin destination])
              origin destination = None)
    /\ (List.length hybrids <= 10)%nat
    /\ Forall (fun r => type r = mixed /\ ~ short_taxi_leg r) hybrids
    /\ ascending prune_key hybrids.
Proof.
  destruct (generateAllRoutes_shape P origin destination log)
    as (taxis & hybrids & ext & E & _ & Lt & Ft & Et & raw & -> & Hraw).
  destruct (pruneRoutes_facts raw) as (Hlen & Hasc & Hshort).
  eexists taxis, _, _. split; [exact E|].
  split; [exact Lt|]. split; [exact Ft|]. split; [exact Et|].
  split; [exact Hlen|]. split; [|exact Hasc].
  apply Forall_forall. intros r Hr. split; [|now apply Hshort].
  rewrite Forall_forall in Hraw. apply Hraw. now apply pruneRoutes_In.
Qed.

(** X10.  A planning call sends at most 34 requests to the provider: first
    the transit query and the driving query for the whole trip, then at
    most 32 queries for the hybrid candidates; and it reports at most the
    number of transit itineraries plus eleven candidates. *)
Theorem X10_request_budget (P : Provider) (now : Date) (nowISO : string)
    (params : PlanParams) (origin destination : GeoPoint) (log : Log) :
  p_origin params = Some origin -> p_destination params = Some destination ->
  exists res ext,
    planRoute P now nowISO params log
    = (Return res,
       log ++ GetSubwayRoutes origin destination
           :: GetDrivingRoute origin destination :: ext)
    /\ (List.length ext <= 32)%nat
    /\ (totalCandidates (meta res)
        <= List.length (transits P log origin destination) + 11)%nat.
Proof.
  intros Ho Hd.
  destruct (generateAllRoutes_shape P origin destination log)
    as (taxis & hybrids & ext & E & Lext & Lt & _ & _ & raw & -> & _).
  destruct (pruneRoutes_facts raw) as (Hlen & _ & _).
  unfold planRoute. rewrite Ho, Hd. unfold bind. rewrite E.
  eexists. exists ext. split; [reflexivity|]. split; [exact Lext|].
  cbn [meta totalCandidates]. rewrite !length_app, length_map. lia.
Qed.

Lemma X10_witness :
  exists res ext,
    planRoute mockProvider example_time example_iso example_params []
    = (Return res,
       [] ++ GetSubwayRoutes example_origin example_destination
          :: GetDrivingRoute example_origin example_destination :: ext)
    /\ (List.length ext <= 32)%nat
    /\ (totalCandidates (meta res)
        <= List.length (transits mockProvider [] example_origin
                          example_destination) + 11)%nat.
Proof.
  apply (X10_request_budget mockProvider example_time example_iso
           example_params example_origin example_destination []);
    reflexivity.
Defined.

(** *** Failures of the provider stay local *)

Lemma Forall_False_nil {A} (l : list A) : Forall (fun _ => False) l -> l = [].
Proof. destruct l as [|x xs]; [reflexivity|]. intros H. now inversion H. Qed.

Lemma post_impl {A} (m : M A) (Q Q' : A -> Prop) :
  (forall a, Q a -> Q' a) -> post m Q -> post m Q'.
Proof. intros HQ H log a log' E. apply HQ. exact (H _ _ _ E). Qed.

Lemma post_for_collect_none {A B} (body : A -> M (option B)) (l : list A) :
  (forall x, post (body x) (fun r => r = None)) ->
  post (for_collect body l) (fun rs => rs = []).
Proof.
  intros Hb. eapply post_impl; [apply Forall_False_nil|].
  apply post_for_collect. intros x.
  eapply post_impl; [|apply Hb]. cbv beta. intros r -> b [=].
Qed.

Section NoHybrid.
Variable P : Provider.
Hypothesis no_hybrid :
  (forall log a b, driving P log a b = None)
  \/ (forall log a b, transits P log a b = []).

Lemma post_leg_then_transit {A} a b o d (k : TaxiLeg -> list Transit -> M (option A)) :
  (forall leg, post (k leg []) (fun r => r = None)) ->
  post (leg <- MixedRouteGenerator._calculateTaxiSegment P a b ;;
        ts <- getSubwayRoutes P o d ;; k leg ts)
       (fun r => r = None).
Proof.
  intros Hk log r log'. unfold MixedRouteGenerator._calculateTaxiSegment,
    getDrivingRoute, getSubwayRoutes, throw, ret, bind. cbv beta iota.
  destruct no_hybrid as [Hd|Ht].
  - rewrite Hd. discriminate.
  - destruct (driving P log a b); [|discriminate]. rewrite Ht. apply Hk.
Qed.

Lemma post_transit_then_leg {A} a b o d (k : Transit -> TaxiLeg -> M (option A)) :
  post (ts <- getSubwayRoutes P o d ;;
        match ts with
        | t :: _ => leg <- MixedRouteGenerator._calculateTaxiSegment P a b ;; k t leg
        | [] => ret None
        end)
       (fun r => r = None).
Proof.
  intros log r log'. unfold MixedRouteGenerator._calculateTaxiSegment,
    getDrivingRoute, getSubwayRoutes, throw, ret, bind. cbv beta iota.
  destruct no_hybrid as [Hd|Ht].
  - destruct (transits P log o d); [now intros [= <- _]|]. rewrite Hd. discriminate.
  - rewrite Ht. now intros [= <- _].
Qed.

Lemma no_hybrid_generateMixedRoutes o d stations :
  post (MixedRouteGenerator.generateMixedRoutes P o d stations) (fun l => l = []).
Proof.
  unfold MixedRouteGenerator.generateMixedRoutes.
  eapply post_bind with (Q1 := fun l => l = []).
  { unfold MixedRouteGenerator._generateStartTaxiRoutes.
    apply post_for_collect_none. intros station.
    apply post_try_catch; [|intros e; now apply post_ret].
    apply post_leg_then_transit. intros leg. now apply post_ret. }
  intros l1 ->.
  eapply post_bind with (Q1 := fun l => l = []).
  { unfold MixedRouteGenerator._generateEndTaxiRoutes.
    apply post_for_collect_none. intros station.
    apply post_try_catch; [|intros e; now apply post_ret].
    apply (post_transit_then_leg station d o station
             (fun t leg => ret (Some _))). }
  intros l2 ->.
  eapply post_bind with (Q1 := fun l => l = []).
  { unfold MixedRouteGenerator._generateBothTaxiRoutes.
    eapply post_bind with (Q1 := Forall (fun l => l = [])).
    - apply post_for_collect. intros startStation.
      eapply post_bind with (Q1 := fun l => l = []).
      + apply post_for_collect_none. intros endStation.
        apply post_try_catch; [|intros e; now apply post_ret].
        apply post_leg_then_transit. intros leg. now apply post_ret.
      + intros inner ->. apply post_ret. now intros b [= <-].
    - intros perStart H. apply post_ret.
      induction H as [|x xs -> _ IH]; [reflexivity | exact IH]. }
  intros l3 ->. now apply post_ret.
Qed.
End NoHybrid.

(** X11.  When the provider has no driving estimate at all, the failure of
    every taxi leg is contained: the candidates are exactly the provider's
    transit itineraries for the whole trip, with no pure-taxi and no hybrid
    candidate, and the planning call still returns. *)
Theorem X11_no_driving_estimate (P : Provider) (origin destination : GeoPoint)
    (log : Log) :
  (forall log a b, driving P log a b = None) ->
  fst (_generateAllRoutes P origin destination log)
  = Return (map subway_candidate (transits P log origin destination)).
Proof.
  intros Hd.
  destruct (generateAllRoutes_stages P origin destination log (fun l => l = []))
    as (taxis & hybrids & ext & E & _ & _ & _ & Et & ->).
  - intros stations. apply no_hybrid_generateMixedRoutes. now left.
  - rewrite E. cbn [fst]. rewrite (proj2 Et (Hd _ _ _)).
    now rewrite !app_nil_r.
Qed.

Lemma X11_witness :
  fst (_generateAllRoutes transitOnlyProvider plain_origin plain_destination [])
  = Return (map subway_candidate
              (transits transitOnlyProvider [] plain_origin plain_destination)).
Proof.
  apply (X11_no_driving_estimate transitOnlyProvider). reflexivity.
Defined.

(** X12.  When the provider has no transit itinerary at all, no hybrid
    candidate is built: the only possible candidate is the pure-taxi one,
    present exactly when the provider has a driving estimate for the whole
    trip. *)
Theorem X12_no_transit_itinerary (P : Provider) (origin destination : GeoPoint)
    (log : Log) :
  (forall log a b, transits P log a b = []) ->
  exists candidates,
    fst (_generateAllRoutes P origin destination log) = Return candidates
    /\ (List.length candidates <= 1)%nat
    /\ Forall (fun r => type r = taxi /\ id r = "taxi_full") candidates
    /\ (candidates = []
        <-> driving P (log ++ [GetSubwayRoutes origin destination])
              origin destination = None).
Proof.
  intros Ht.
  destruct (generateAllRoutes_stages P origin destination log (fun l => l = []))
    as (taxis & hybrids & ext & E & _ & Lt & Ft & Et & ->).
  - intros stations. apply no_hybrid_generateMixedRoutes. now right.
  - exists taxis. rewrite E, Ht. cbn [fst map app]. rewrite app_nil_r.
    repeat split; tauto.
Qed.

Lemma X12_witness :
  exists candidates,
    fst (_generateAllRoutes silentProvider plain_origin plain_destination [])
    = Return candidates
    /\ (List.length candidates <= 1)%nat
    /\ Forall (fun r => type r = taxi /\ id r = "taxi_full") candidates
    /\ (candidates = []
        <-> driving silentProvider
              ([] ++ [GetSubwayRoutes plain_origin plain_destination])
              plain_origin plain_destination = None).
Proof.
  apply (X12_no_transit_itinerary silentProvider). reflexivity.
Defined.

(** *** Order properties of the fare estimate *)

Lemma round1_mono (a b : Q) :
  a <= b -> inject_Z (Math_round (a * 10)) / 10 <= inject_Z (Math_round (b * 10)) / 10.
Proof.
  intros H.
  assert (Hz : (Math_round (a * 10) <= Math_round (b * 10))%Z)
    by (apply Math_round_le; lra).
  rewrite Zle_Qle in Hz.
  change (inject_Z (Math_round (a * 10)) / 10)
    with (inject_Z (Math_round (a * 10)) * (1 # 10)).
  change (inject_Z (Math_round (b * 10)) / 10)
    with (inject_Z (Math_round (b * 10)) * (1 # 10)).
  lra.
Qed.

Lemma km_surcharge_mono (d1 d2 : Q) :
  d1 <= d2 ->
  Math_max 0 (d1 / 1000 - 3) * 2.3 <= Math_max 0 (d2 / 1000 - 3) * 2.3.
Proof.
  intros H. unfold Math_max. apply Qmult_le_compat_r; [|lra].
  apply Q.max_le_compat_l.
  change (d1 / 1000) with (d1 * (1 # 1000)).
  change (d2 / 1000) with (d2 * (1 # 1000)). lra.
Qed.

(** X13.  A longer or slower ride is never estimated cheaper: both fare
    estimators are monotone in the distance and in the duration, for every
    scenario argument. *)
Theorem X13_estimate_monotone (d1 d2 t1 t2 : Q) (scenario : option Scenario) :
  d1 <= d2 -> t1 <= t2 ->
  _estimateTaxiCost d1 t1 scenario <= _estimateTaxiCost d2 t2 scenario
  /\ MixedRouteGenerator._estimateTaxiCost d1 t1
     <= MixedRouteGenerator._estimateTaxiCost d2 t2.
Proof.
  intros Hd Ht. assert (K := km_surcharge_mono d1 d2 Hd).
  unfold _estimateTaxiCost, MixedRouteGenerator._estimateTaxiCost.
  set (k1 := Math_max 0 (d1 / 1000 - 3) * 2.3) in *.
  set (k2 := Math_max 0 (d2 / 1000 - 3) * 2.3) in *.
  split.
  - apply round1_mono. destruct scenario as [[]|]; cbn [default]; lra.
  - apply round1_mono. lra.
Qed.

Lemma X13_witness :
  _estimateTaxiCost 5000 10 (Some Peak) <= _estimateTaxiCost 52000 78 (Some Peak).
Proof.
  apply (X13_estimate_monotone 5000 52000 10 78 (Some Peak));
    vm_compute; discriminate.
Defined.

(** X14.  For a ride of non-negative duration the surcharges only raise the
    estimate: the estimate without scenario is at most the peak estimate,
    which is at most the late-night estimate; and the generator's estimator
    agrees with the planner's estimator without scenario. *)
Theorem X14_surcharge_order (distance duration : Q) :
  0 <= duration ->
  _estimateTaxiCost distance duration None
  <= _estimateTaxiCost distance duration (Some Peak)
  /\ _estimateTaxiCost distance duration (Some Peak)
     <= _estimateTaxiCost distance duration (Some LateNight)
  /\ MixedRouteGenerator._estimateTaxiCost distance duration
     = _estimateTaxiCost distance duration None
  /\ _estimateTaxiCost distance duration (Some Routine)
     = _estimateTaxiCost distance duration None
  /\ _estimateTaxiCost distance duration (Some RushToCatch)
     = _estimateTaxiCost distance duration None.
Proof.
  intros Ht. assert (K := km_surcharge_nonneg distance).
  unfold _estimateTaxiCost, MixedRouteGenerator._estimateTaxiCost.
  set (k := Math_max 0 (distance / 1000 - 3) * 2.3) in *.
  cbn [default].
  split; [apply round1_mono; lra|].
  split; [apply round1_mono; lra|].
  repeat split; reflexivity.
Qed.

Lemma X14_witness :
  _estimateTaxiCost 52000 78 None <= _estimateTaxiCost 52000 78 (Some Peak).
Proof.
  apply (X14_surcharge_order 52000 78). vm_compute. discriminate.
Defined.

Lemma planRoute_meta (P : Provider) (now : Date) (nowISO : string)
    (params : PlanParams) (o d : GeoPoint) (log log' : Log) (res : PlanResult) :
  p_origin params = Some o -> p_destination params = Some d ->
  planRoute P now nowISO params log = (Return res, log') ->
  preference (meta res) = default "balance" (p_preference params)
  /\ meta_scenario (meta res)
     = _detectScenario o d (default now (p_time params)).
Proof.
  intros Ho Hd E.
  destruct (planRoute_spec P now nowISO params o d log Ho Hd)
    as (rs & ext & _ & _ & E').
  rewrite E in E'. injection E' as -> _. split; reflexivity.
Qed.

(** X15.  When a planning call has candidates, its result names a fastest,
    a cheapest and a recommended route, chosen among all the candidates
    generated (not only the ten listed): no candidate has a smaller total
    duration than the fastest, none a smaller total cost than the cheapest,
    none a greater composite score than the recommended.  When the weights
    are numbers, every composite score is at most that of the recommended
    route; when they are undefined, every composite score is [NaN] and the
    recommended route is the first candidate. *)
Theorem X15_plan_selections (P : Provider) (now : Date) (nowISO : string)
    (params : PlanParams) (origin destination : GeoPoint) (log : Log) :
  p_origin params = Some origin -> p_destination params = Some destination ->
  exists candidates res log',
    _generateAllRoutes P origin destination log = (Return candidates, log')
    /\ planRoute P now nowISO params log = (Return res, log')
    /\ (candidates <> [] ->
        exists r f c,
          res_recommended res = Some r
          /\ res_fastest res = Some f
          /\ res_cheapest res = Some c
          /\ In (route (scored r)) candidates
          /\ In (route (scored f)) candidates
          /\ In (route (scored c)) candidates
          /\ (forall x, In x candidates ->
                        totalDuration (route (scored f)) <= totalDuration x)
          /\ (forall x, In x candidates ->
                        totalCost (route (scored c)) <= totalCost x)
          /\ (forall sr,
                In sr (_calculateScores candidates (preference (meta res))
                         (meta_scenario (meta res))) ->
                ~ num_lt (s_total (scores (scored r))) (s_total (scores sr)))
          /\ (weights_defined (preference (meta res)) (meta_scenario (meta res)) ->
              forall sr,
                In sr (_calculateScores candidates (preference (meta res))
                         (meta_scenario (meta res))) ->
                num_le (s_total (scores sr)) (s_total (scores (scored r))))
          /\ (weights_undefined (preference (meta res))
                (meta_scenario (meta res)) ->
              hd_error candidates = Some (route (scored r))
              /\ forall sr,
                   In sr (_calculateScores candidates (preference (meta res))
                            (meta_scenario (meta res))) ->
                   s_total (scores sr) = None)).
Proof.
  intros Ho Hd.
  destruct (planRoute_spec P now nowISO params origin destination log Ho Hd)
    as (rs & ext & E & _ & Eplan).
  eexists. eexists. eexists. split; [exact E|]. split; [exact Eplan|].
  intros Hne. cbn [res_recommended res_fastest res_cheapest meta preference
                   meta_scenario].
  set (pref := default "balance" (p_preference params)).
  set (sc := _detectScenario origin destination (default now (p_time params))).
  set (scoredAll := _calculateScores rs pref sc).
  assert (Hs : scoredAll <> []).
  { intros E0. apply (f_equal (@List.length ScoredRoute)) in E0.
    unfold scoredAll in E0. rewrite calculateScores_length in E0.
    destruct rs; [congruence | discriminate]. }
  destruct (recommend_first_least scoredAll sc pref Hs)
    as (r & f & c & -> & Hf & Hc & Hnum & Hnan).
  cbn [recommended fastest cheapest].
  destruct (calculateScores_totals rs pref sc) as (Tnum & Tnan).
  fold scoredAll in Tnum, Tnan.
  assert (Hmem : forall key x, first_least key scoredAll x -> In x scoredAll).
  { intros key x (pre & post & Ex & _).
    rewrite Ex. apply in_or_app. right. now left. }
  assert (Hroute : forall x, In x scoredAll -> In (route x) rs).
  { intros x Hx. rewrite <- (calculateScores_routes rs pref sc). fold scoredAll.
    now apply in_map. }
  assert (Hback : forall x, In x rs -> exists sr, In sr scoredAll /\ route sr = x).
  { intros x Hx. rewrite <- (calculateScores_routes rs pref sc) in Hx.
    apply in_map_iff in Hx as (sr & Esr & Hsr). now exists sr. }
  assert (Hle : weights_defined pref sc ->
                forall sr, In sr scoredAll ->
                           num_le (s_total (scores sr)) (s_total (scores (scored r)))).
  { intros Hw sr Hsr. assert (Hr := Hnum (Tnum Hw)).
    assert (H := first_least_least _ _ _ _ Hr Hsr). cbv beta in H.
    destruct (Tnum Hw sr Hsr) as (t & Et).
    destruct (Tnum Hw (scored r) (Hmem _ _ Hr)) as (tr & Etr).
    unfold total_of in H. rewrite Et, Etr in *. cbn in *. lra. }
  assert (Hhd : weights_undefined pref sc -> hd_error scoredAll = Some (scored r)).
  { intros Hw. exact (Hnan (Tnan Hw)). }
  assert (Hr_in : In (scored r) scoredAll).
  { destruct (weights_cases pref sc) as [Hw|Hw].
    - exact (Hmem _ _ (Hnum (Tnum Hw))).
    - specialize (Hhd Hw). destruct scoredAll as [|x xs]; [discriminate Hhd|].
      injection Hhd as <-. now left. }
  exists r, f, c.
  split; [reflexivity|]. split; [reflexivity|]. split; [reflexivity|].
  split; [now apply Hroute|].
  split; [apply Hroute; eapply Hmem; eauto|].
  split; [apply Hroute; eapply Hmem; eauto|].
  split.
  { intros x Hx. destruct (Hback x Hx) as (sr & Hsr & <-).
    exact (first_least_least _ _ _ _ Hf Hsr). }
  split.
  { intros x Hx. destruct (Hback x Hx) as (sr & Hsr & <-).
    exact (first_least_least _ _ _ _ Hc Hsr). }
  split.
  { intros sr Hsr Hlt. destruct (weights_cases pref sc) as [Hw|Hw].
    - assert (H := Hle Hw sr Hsr).
      destruct (s_total (scores sr)), (s_total (scores (scored r)));
        cbn in *; try contradiction. lra.
    - rewrite (Tnan Hw _ Hr_in) in Hlt. exact Hlt. }
  split; [exact Hle|].
  intros Hw. split; [|exact (Tnan Hw)].
  specialize (Hhd Hw). unfold scoredAll in Hhd.
  rewrite calculateScores_map in Hhd.
  destruct rs as [|x xs]; [discriminate Hhd|].
  cbn in Hhd. injection Hhd as <-. reflexivity.
Qed.

Lemma X15_witness :
  exists candidates res log',
    _generateAllRoutes detourProvider plain_origin plain_destination []
    = (Return candidates, log')
    /\ planRoute detourProvider example_time example_iso time_params []
       = (Return res, log')
    /\ exists r f c,
         res_recommended res = Some r
         /\ res_fastest res = Some f
         /\ res_cheapest res = Some c
         /\ id (route (scored r)) = "taxi_full"
         /\ id (route (scored f)) = "taxi_full"
         /\ id (route (scored c)) = "subway_0"
         /\ (forall sr,
               In sr (_calculateScores candidates (preference (meta res))
                        (meta_scenario (meta res))) ->
               num_le (s_total (scores sr)) (s_total (scores (scored r)))).
Proof.
  destruct (X15_plan_selections detourProvider example_time example_iso
              time_params plain_origin plain_destination [] eq_refl eq_refl)
    as (candidates & res & log' & E & Eplan & H).
  exists candidates, res, log'. split; [exact E|]. split; [exact Eplan|].
  assert (Hne : candidates <> []).
  { vm_compute in E. injection E as <- _. discriminate. }
  destruct (H Hne)
    as (r & f & c & Er & Ef & Ec & _ & _ & _ & _ & _ & _ & Hle & _).
  exists r, f, c. split; [exact Er|]. split; [exact Ef|]. split; [exact Ec|].
  assert (Hw : weights_defined (preference (meta res)) (meta_scenario (meta res))).
  { destruct (planRoute_meta detourProvider example_time example_iso
                time_params plain_origin plain_destination [] log' res
                eq_refl eq_refl Eplan) as (-> & _).
    left. reflexivity. }
  specialize (Hle Hw).
  vm_compute in Eplan. injection Eplan as <- _.
  cbn in Er, Ef, Ec. injection Er as <-. injection Ef as <-. injection Ec as <-.
  split; [reflexivity|]. split; [reflexivity|]. split; [reflexivity|].
  exact Hle.
Defined.

(** *** The provider facade *)

Lemma minutes_of_ceil (seconds : Q) :
  minutes_of seconds (inject_Z (AmapFacade.Math_ceil (seconds / 60))).
Proof.
  unfold minutes_of, AmapFacade.Math_ceil.
  assert (U := Qle_ceiling (seconds / 60)).
  assert (L := Qceiling_lt (seconds / 60)).
  unfold Z.sub in L. rewrite inject_Z_plus in L.
  change (inject_Z (- (1))) with (- (1)) in L.
  change (seconds / 60) with (seconds * (1 # 60)) in *.
  set (c := inject_Z (Qceiling (seconds * (1 # 60)))) in *.
  split; [now eexists|]. split; lra.
Qed.

Lemma map_throwing_Forall2 {A B} (f : A -> Outcome B) (l : list A) (l' : list B) :
  AmapFacade.map_throwing f l = Return l' ->
  Forall2 (fun x y => f x = Return y) l l'.
Proof.
  revert l'. induction l as [|x xs IH]; intros l'; cbn.
  - intros [= <-]. constructor.
  - destruct (f x) as [y|e] eqn:Ex; cbn; [|discriminate].
    destruct (AmapFacade.map_throwing f xs) as [ys|e]; cbn; [|discriminate].
    intros [= <-]. constructor; [exact Ex | now apply IH].
Qed.

Lemma Forall2_In_right {A B} (R : A -> B -> Prop) (l : list A) (l' : list B)
    (y : B) :
  Forall2 R l l' -> In y l' -> exists x, In x l /\ R x y.
Proof.
  induction 1 as [|x y' xs ys Hxy _ IH]; intros Hy; [contradiction|].
  destruct Hy as [<-|Hy].
  - exists x. split; [now left | exact Hxy].
  - destruct (IH Hy) as (x' & Hx' & HR). exists x'. split; [now right | exact HR].
Qed.

Lemma parse_segment_mode (seg : RawSegment) (s : Segment) :
  AmapFacade.parse_segment seg = Return (Some s) -> mode s <> taxi_mode.
Proof.
  unfold AmapFacade.parse_segment.
  destruct (match bus seg with
            | Some b => match buslines b with
                        | Some (line :: _) => Some line
                        | _ => None
                        end
            | None => None
            end) as [line|].
  - destruct (departure_stop line), (arrival_stop line); try discriminate.
    intros [= <-]. discriminate.
  - destruct (walking seg); intros [= <-]. discriminate.
Qed.

Lemma keep_some_length {A} (l : list (option A)) :
  (List.length (AmapFacade.keep_some l) <= List.length l)%nat.
Proof.
  unfold AmapFacade.keep_some.
  induction l as [|[a|] xs IH]; cbn in *; lia.
Qed.

Lemma parseTransitSegments_spec (segments : option (list RawSegment))
    (l : list Segment) :
  AmapFacade._parseTransitSegments segments = Return l ->
  no_taxi_leg l
  /\ exists segs, segments = Some segs
                  /\ (List.length l <= List.length segs)%nat.
Proof.
  unfold AmapFacade._parseTransitSegments.
  destruct segments as [segs|]; [|discriminate].
  destruct (AmapFacade.map_throwing AmapFacade.parse_segment segs) as [os|e] eqn:E;
    cbn; [|discriminate].
  intros [= <-]. apply map_throwing_Forall2 in E. split.
  - unfold no_taxi_leg. apply Forall_forall. intros s Hs.
    unfold AmapFacade.keep_some in Hs. apply in_flat_map in Hs as (o & Ho & Hs).
    destruct o as [s'|]; [|contradiction]. destruct Hs as [<-|[]].
    destruct (Forall2_In_right _ _ _ (Some s') E Ho) as (seg & _ & Hseg).
    now apply parse_segment_mode in Hseg.
  - exists segs. split; [reflexivity|].
    rewrite (Forall2_length E). apply keep_some_length.
Qed.

Lemma num_or_spec (x : option Q) (dflt : Q) :
  (forall c, x = Some c -> ~ c == 0 -> AmapFacade.num_or x dflt = c)
  /\ (x = None \/ (exists c, x = Some c /\ c == 0) ->
      AmapFacade.num_or x dflt = dflt).
Proof.
  unfold AmapFacade.num_or. split.
  - intros c -> Hc. destruct (Qeq_bool c 0) eqn:E; [|reflexivity].
    apply Qeq_bool_eq in E. contradiction.
  - intros [->|(c & -> & Hc)]; [reflexivity|].
    apply Qeq_bool_iff in Hc. now rewrite Hc.
Qed.

Lemma parse_transits_from_spec (index : nat) (transits : list RawTransit)
    (l : list Transit) :
  AmapFacade.parse_transits_from index transits = Return l ->
  Forall2 parsed_from transits l
  /\ forall i t, nth_error l i = Some t ->
                 t_id t = ("subway_" ++ show_Z (Z.of_nat (index + i)))%string.
Proof.
  revert index l. induction transits as [|rt rest IH]; intros index l; cbn.
  - intros [= <-]. split; [constructor|]. intros [|i] t; discriminate.
  - destruct (AmapFacade._parseTransitSegments (rt_segments rt)) as [segs|e] eqn:Es;
      cbn; [|discriminate].
    destruct (AmapFacade.parse_transits_from (S index) rest) as [ts|e] eqn:Er;
      cbn; [|discriminate].
    intros [= <-]. destruct (IH _ _ Er) as (Hts & Hid).
    apply parseTransitSegments_spec in Es as (Hno & Hlen). split.
    + constructor; [|exact Hts]. unfold parsed_from. cbn.
      split; [apply minutes_of_ceil|]. split; [reflexivity|].
      split; [reflexivity|].
      split; [apply num_or_spec|]. split; [apply num_or_spec|].
      split; assumption.
    + intros [|i] t; cbn.
      * intros [= <-]. cbn. now rewrite Nat.add_0_r.
      * intros Ht. rewrite (Hid i t Ht).
        replace (index + S i)%nat with (S index + i)%nat by lia. reflexivity.
Qed.

(** X16.  When the payload parses, the facade keeps its first three
    itineraries, in order, named [subway_0], [subway_1], [subway_2]; each
    carries the payload's distance and walking distance, the duration in
    whole minutes rounded up from the seconds, the payload's cost or 9 when
    the cost is absent or zero, and only subway and walking segments, at
    most as many as the payload has. *)
Theorem X16_parse_transits (transits : list RawTransit) (l : list Transit) :
  AmapFacade._parseSubwayRoutes (Some transits) = Return l ->
  Forall2 parsed_from (firstn 3 transits) l
  /\ (List.length l <= 3)%nat
  /\ forall i t, nth_error l i = Some t ->
                 t_id t = ("subway_" ++ show_Z (Z.of_nat i))%string.
Proof.
  unfold AmapFacade._parseSubwayRoutes, slice_first. intros H.
  apply parse_transits_from_spec in H as (H2 & Hid).
  split; [exact H2|]. split; [|exact Hid].
  rewrite <- (Forall2_length H2), length_firstn. lia.
Qed.

Lemma X16_witness :
  exists l,
    AmapFacade._parseSubwayRoutes (Some raw_transits) = Return l
    /\ Forall2 parsed_from (firstn 3 raw_transits) l
    /\ map t_id l = ["subway_0"; "subway_1"]
    /\ map t_duration l = [inject_Z 56; inject_Z 60]
    /\ map t_cost l = [6; 9].
Proof.
  destruct (AmapFacade._parseSubwayRoutes (Some raw_transits)) as [l|e] eqn:E;
    [|vm_compute in E; discriminate].
  exists l. split; [reflexivity|].
  split; [exact (proj1 (X16_parse_transits raw_transits l E))|].
  vm_compute in E. injection E as <-. repeat split; reflexivity.
Defined.

Lemma refused_data {A} (status : string) (route : option A) :
  refused (NetData status route) <->
  match String.eqb status "1", route with
  | true, Some _ => False
  | _, _ => True
  end.
Proof.
  unfold refused. destruct (String.eqb_spec status "1") as [->|Hne].
  - destruct route as [r|].
    + split; [|contradiction].
      intros (st & rt & [= <- <-] & [H|H]); [now apply H | discriminate].
    + split; [trivial|]. intros _. exists "1", None. auto.
  - split; [destruct route; trivial|]. intros _. exists status, route. auto.
Qed.

Lemma mock_transits_facts (o d : GeoPoint) :
  (List.length (_mockSubwayRoutes o d) <= 3)%nat
  /\ Forall (fun t => no_taxi_leg (t_segments t)) (_mockSubwayRoutes o d).
Proof.
  split; [cbn; lia|]. repeat constructor; discriminate.
Qed.

Lemma parseSubwayRoutes_facts (transits : list RawTransit) (l : list Transit) :
  AmapFacade._parseSubwayRoutes (Some transits) = Return l ->
  Forall2 parsed_from (firstn 3 transits) l /\ (List.length l <= 3)%nat.
Proof.
  unfold AmapFacade._parseSubwayRoutes, slice_first. intros H.
  apply parse_transits_from_spec in H as (H2 & Hid).
  split; [exact H2|].
  rewrite <- (Forall2_length H2), length_firstn. lia.
Qed.

Lemma facade_transit_cases (apiKey : option string)
    (reply : NetReply RawTransitRoute) (o d : GeoPoint) :
  let l := AmapFacade.getSubwayRoutes apiKey reply o d in
  (AmapFacade.no_key apiKey = true /\ l = _mockSubwayRoutes o d)
  \/ (AmapFacade.no_key apiKey = false
      /\ ((exists msg, reply = NetError msg) /\ l = _mockSubwayRoutes o d
          \/ refused reply /\ l = []
          \/ exists route,
               reply = NetData "1" (Some route)
               /\ ((exists e, AmapFacade._parseSubwayRoutes (rr_transits route)
                              = Throw e)
                   /\ l = _mockSubwayRoutes o d
                   \/ exists transits,
                        rr_transits route = Some transits
                        /\ AmapFacade._parseSubwayRoutes (Some transits)
                           = Return l))).
Proof.
  cbv zeta. unfold AmapFacade.getSubwayRoutes.
  destruct (AmapFacade.no_key apiKey); [left; now split|].
  right. split; [reflexivity|].
  destruct reply as [msg|status route].
  { left. split; [now exists msg | reflexivity]. }
  assert (Href := refused_data status route).
  destruct (String.eqb_spec status "1") as [->|Hne].
  - destruct route as [route|].
    + right. right. exists route. split; [reflexivity|].
      destruct (AmapFacade._parseSubwayRoutes (rr_transits route)) as [l|e] eqn:Ep.
      * right. destruct (rr_transits route) as [transits|]; [|discriminate Ep].
        now exists transits.
      * left. split; [now exists e | reflexivity].
    + right. left. split; [now apply Href | reflexivity].
  - right. left. split; [apply Href; destruct route; exact I|].
    now destruct route.
Qed.

(** X17.  The transit query of the facade never fails and never yields more
    than three itineraries, none with a taxi segment.  Without an API key,
    on a network error and on a payload that does not parse it yields the
    simulated itinerary; with a key, a declined request yields the empty
    list, and the empty list comes only from a declined request or from a
    payload without itineraries. *)
Theorem X17_facade_transit (apiKey : option string)
    (reply : NetReply RawTransitRoute) (origin destination : GeoPoint) :
  let l := AmapFacade.getSubwayRoutes apiKey reply origin destination in
  (List.length l <= 3)%nat
  /\ Forall (fun t => no_taxi_leg (t_segments t)) l
  /\ (AmapFacade.no_key apiKey = true \/ (exists msg, reply = NetError msg) ->
      l = _mockSubwayRoutes origin destination)
  /\ (forall route,
        reply = NetData "1" (Some route) ->
        (exists e, AmapFacade._parseSubwayRoutes (rr_transits route) = Throw e) ->
        l = _mockSubwayRoutes origin destination)
  /\ (AmapFacade.no_key apiKey = false -> refused reply -> l = [])
  /\ (l = [] ->
      AmapFacade.no_key apiKey = false
      /\ (refused reply
          \/ exists route,
               reply = NetData "1" (Some route)
               /\ rr_transits route = Some [])).
Proof.
  intros l.
  destruct (mock_transits_facts origin destination) as (Lm & Fm).
  assert (Hnr : forall route : RawTransitRoute,
            ~ refused (NetData "1" (Some route)))
    by (intros route H; now apply refused_data in H).
  destruct (facade_transit_cases apiKey reply origin destination)
    as [(Ek & El)|(Ek & [((msg & Er) & El)|[(Hr & El)|(route & Er & Hp)]])];
    fold l in El || idtac.
  - rewrite El. split; [exact Lm|]. split; [exact Fm|].
    split; [reflexivity|]. split; [reflexivity|].
    split; [congruence | discriminate].
  - rewrite El. split; [exact Lm|]. split; [exact Fm|].
    split; [reflexivity|]. split; [reflexivity|].
    split; [|discriminate]. intros _ (st & rt & E & _). congruence.
  - rewrite El. split; [cbn; lia|]. split; [constructor|].
    split; [intros [E|(msg & E)]; [congruence|];
            destruct Hr as (st & rt & E' & _); congruence|].
    split; [intros route E; subst reply; now apply Hnr in Hr|].
    split; [reflexivity|]. intros _. split; [exact Ek | now left].
  - destruct Hp as [((e & He) & El)|(transits & Et & Ep)].
    + fold l in El. rewrite El. split; [exact Lm|]. split; [exact Fm|].
      split; [reflexivity|]. split; [reflexivity|].
      split; [|discriminate]. intros _ Hr. subst reply. now apply Hnr in Hr.
    + fold l in Ep. destruct (parseSubwayRoutes_facts transits l Ep) as (H2 & Hlen).
      split; [exact Hlen|]. split.
      { apply Forall_forall. intros t Ht.
        destruct (Forall2_In_right _ _ _ t H2 Ht) as (rt & _ & Hp). apply Hp. }
      split; [intros [E|(msg & E)]; congruence|].
      split.
      { intros route' E (e & He). rewrite Er in E. injection E as <-.
        rewrite Et in He. congruence. }
      split; [intros _ Hr; subst reply; now apply Hnr in Hr|].
      intros E0. split; [exact Ek|]. right. exists route. split; [exact Er|].
      rewrite Et. f_equal. rewrite E0 in H2.
      destruct transits; [reflexivity | inversion H2].
Qed.

Lemma X17_witness :
  AmapFacade.getSubwayRoutes (Some "key") (NetError "timeout")
    plain_origin plain_destination
  = _mockSubwayRoutes plain_origin plain_destination.
Proof.
  apply (X17_facade_transit (Some "key") (NetError "timeout")
           plain_origin plain_destination).
  right. now exists "timeout".
Defined.

(** X18.  The driving query of the facade yields no estimate exactly when
    an API key is set and the provider declines the request; in every other
    case it yields one: the simulated estimate without a key, on a network
    error or on a payload without a path, and otherwise the first path of
    the payload, with its distance and its duration in whole minutes
    rounded up. *)
Theorem X18_facade_driving (apiKey : option string)
    (reply : NetReply RawDrivingRoute) (origin destination : GeoPoint) :
  let r := AmapFacade.getDrivingRoute apiKey reply origin destination in
  (r = None <-> AmapFacade.no_key apiKey = false /\ refused reply)
  /\ (AmapFacade.no_key apiKey = true \/ (exists msg, reply = NetError msg) ->
      r = Some (_mockDrivingRoute origin destination))
  /\ (forall route,
        reply = NetData "1" (Some route) ->
        rr_paths route = None \/ rr_paths route = Some [] ->
        r = Some (_mockDrivingRoute origin destination))
  /\ (AmapFacade.no_key apiKey = false ->
      forall route path rest,
        reply = NetData "1" (Some route) ->
        rr_paths route = Some (path :: rest) ->
        exists drv,
          r = Some drv
          /\ d_distance drv = pa_distance path
          /\ minutes_of (pa_duration path) (d_duration drv)).
Proof.
  intros r. subst r. unfold AmapFacade.getDrivingRoute.
  assert (Hnr : forall route : RawDrivingRoute,
            ~ refused (NetData "1" (Some route)))
    by (intros route H; now apply refused_data in H).
  destruct (AmapFacade.no_key apiKey) eqn:Ek.
  { split; [split; [discriminate | intros [[=] _]]|].
    split; [reflexivity|]. split; [reflexivity | discriminate]. }
  destruct reply as [msg|status route].
  { split; [split; [discriminate | intros [_ (st & rt & [=] & _)]]|].
    split; [reflexivity|]. split; [discriminate|]. discriminate. }
  assert (Href := refused_data status route).
  destruct (String.eqb_spec status "1") as [->|Hne].
  - destruct route as [route|].
    + assert (Hsome : forall x : option Driving,
                (exists drv, x = Some drv) -> (x = None <-> false = false /\
                   refused (NetData "1" (Some route)))).
      { intros x (drv & ->). split; [discriminate|].
        intros [_ H]. now apply Hnr in H. }
      destruct (rr_paths route) as [[|path rest]|] eqn:Ep; cbn.
      * split; [apply Hsome; eauto|].
        split; [intros [[=]|(msg & [=])]|]. split; [reflexivity|].
        intros _ route' path rest [= <-]. congruence.
      * split; [apply Hsome; eauto|].
        split; [intros [[=]|(msg & [=])]|].
        split; [intros route' [= <-] [E|E]; congruence|].
        intros _ route' path' rest' [= <-] E. rewrite Ep in E.
        injection E as <- <-. eexists. split; [reflexivity|].
        cbn. split; [reflexivity | apply minutes_of_ceil].
      * split; [apply Hsome; eauto|].
        split; [intros [[=]|(msg & [=])]|]. split; [reflexivity|].
        intros _ route' path rest [= <-]. congruence.
    + split; [split; [intros _; split; [reflexivity | now apply Href] | reflexivity]|].
      split; [intros [[=]|(msg & [=])]|]. split; discriminate.
  - assert (Hr : refused (NetData status route))
      by (apply Href; destruct route; exact I).
    cbn. split; [split; [now split | reflexivity]|].
    split; [intros [[=]|(msg & [=])]|].
    split; [intros route' [= -> _]; contradiction|].
    intros _ route' path rest [= -> _]. contradiction.
Qed.

Lemma X18_witness :
  exists drv,
    AmapFacade.getDrivingRoute (Some "key")
      (driving_reply raw_network [] plain_origin plain_destination)
      plain_origin plain_destination = Some drv
    /\ d_distance drv = 18000
    /\ minutes_of 1501 (d_duration drv).
Proof.
  destruct (X18_facade_driving (Some "key")
              (driving_reply raw_network [] plain_origin plain_destination)
              plain_origin plain_destination) as (_ & _ & _ & H).
  exact (H eq_refl _ _ _ eq_refl eq_refl).
Defined.

Lemma facade_transit_length (apiKey : option string)
    (reply : NetReply RawTransitRoute) (o d : GeoPoint) :
  (List.length (AmapFacade.getSubwayRoutes apiKey reply o d) <= 3)%nat.
Proof.
  destruct (mock_transits_facts o d) as (Lm & _).
  destruct (facade_transit_cases apiKey reply o d)
    as [(_ & ->)|(_ & [(_ & ->)|[(_ & ->)|(route & _ & Hp)]])];
    try exact Lm; [cbn; lia|].
  destruct Hp as [(_ & ->)|(transits & _ & Ep)]; [exact Lm|].
  now apply parseSubwayRoutes_facts in Ep.
Qed.

(** X19.  Served by the facade, whatever the API key and the network, a
    planning call with an origin and a destination returns a result with at
    most fourteen candidates, ten of which at most are listed. *)
Theorem X19_facade_plan_size (apiKey : option string) (net : Network)
    (now : Date) (nowISO : string) (params : PlanParams)
    (origin destination : GeoPoint) (log : Log) :
  p_origin params = Some origin -> p_destination params = Some destination ->
  exists res log',
    planRoute (AmapFacade.provider apiKey net) now nowISO params log
    = (Return res, log')
    /\ (totalCandidates (meta res) <= 14)%nat
    /\ (List.length (allRoutes res) <= 10)%nat.
Proof.
  intros Ho Hd. set (P := AmapFacade.provider apiKey net).
  destruct (generateAllRoutes_shape P origin destination log)
    as (taxis & hybrids & ext & E & _ & Lt & _ & _ & raw & -> & _).
  destruct (pruneRoutes_facts raw) as (Hlen & _ & _).
  unfold planRoute. rewrite Ho, Hd. unfold bind. rewrite E.
  eexists. eexists. split; [reflexivity|].
  cbn [meta totalCandidates allRoutes]. split.
  - rewrite !length_app, length_map.
    assert (H := facade_transit_length apiKey
                   (transit_reply net log origin destination) origin destination).
    change (transits P log origin destination)
      with (AmapFacade.getSubwayRoutes apiKey
              (transit_reply net log origin destination) origin destination).
    lia.
  - unfold slice_first. rewrite length_firstn. lia.
Qed.

Lemma X19_witness :
  exists res log',
    planRoute (AmapFacade.provider (Some "key") raw_network) example_time
      example_iso plain_params [] = (Return res, log')
    /\ (totalCandidates (meta res) <= 14)%nat
    /\ (List.length (allRoutes res) <= 10)%nat.
Proof.
  apply (X19_facade_plan_size (Some "key") raw_network example_time example_iso
           plain_params plain_origin plain_destination []); reflexivity.
Defined.

(** *** The entry points *)

Lemma str_or_nonempty (s : option string) (dflt : string) :
  dflt <> EmptyString -> Handler.str_or s dflt <> EmptyString.
Proof.
  intros Hd. unfold Handler.str_or. destruct s as [s|]; [|exact Hd].
  destruct (String.eqb_spec s EmptyString); assumption.
Qed.

Lemma planRoute_of_body (P : Provider) (now : Date) (nowISO : string)
    (body : Handler.Body) (start end_ : GeoPoint) (log : Log) :
  exists res ext,
    planRoute P now nowISO (params_of_body now body start end_) log
    = (Return res, log ++ ext).
Proof.
  destruct (planRoute_spec P now nowISO (params_of_body now body start end_)
              _ _ log eq_refl eq_refl) as (rs & ext & _ & _ & E).
  eexists. eexists. exact E.
Qed.

(** X20.  A planning request with its [start] and [end] is always answered
    with status 200 and code 0, carrying the planner's result for the
    origin and destination of the request; a missing or empty name is
    replaced by a default, as is a missing or empty preference, so the
    planner never sees an unnamed point through the handler. *)
Theorem X20_handler_success (P : Provider) (now : Date) (nowISO : string)
    (req : Handler.Request) (body : Handler.Body) (start end_ : GeoPoint)
    (log : Log) :
  Handler.method req = "POST" -> Handler.url req = "/api/routes/plan" ->
  Handler.body req = Handler.Present body ->
  Handler.b_start body = Some start ->
  Handler.b_end body = Some end_ ->
  let params := params_of_body now body start end_ in
  exists res log',
    planRoute P now nowISO params log = (Return res, log')
    /\ Handler.handler P now nowISO req log
       = (Return {| Handler.statusCode := 200;
                    Handler.json := Some (Handler.SuccessBody 0 "success" res) |},
          log')
    /\ (exists o d nmo nmd,
          p_origin params = Some o /\ p_destination params = Some d
          /\ name o = Some nmo /\ nmo <> EmptyString
          /\ name d = Some nmd /\ nmd <> EmptyString)
    /\ preference (meta res) <> EmptyString.
Proof.
  intros Hm Hu Hb Hs He params.
  destruct (planRoute_of_body P now nowISO body start end_ log)
    as (res & ext & E).
  exists res, (log ++ ext). split; [exact E|]. split.
  - unfold Handler.handler. rewrite Hm, Hu, Hb.
    change (String.eqb "POST" "OPTIONS") with false.
    change (String.eqb "/api/routes/plan" "/health") with false.
    change (String.eqb "/api/routes/plan" "/api/routes/plan") with true.
    change (String.eqb "POST" "POST") with true.
    cbv iota beta zeta. cbn [andb].
    unfold try_catch, bind, Handler.destructure, ret. rewrite Hs, He.
    change (planRoute P now nowISO _ log)
      with (planRoute P now nowISO (params_of_body now body start end_) log).
    rewrite E. reflexivity.
  - split.
    + do 4 eexists. repeat split; try reflexivity;
        apply str_or_nonempty; discriminate.
    + destruct (planRoute_meta P now nowISO
                  (params_of_body now body start end_)
                  _ _ log _ res eq_refl eq_refl E) as (-> & _).
      apply str_or_nonempty. discriminate.
Qed.

Lemma X20_witness :
  exists res log',
    planRoute mockProvider example_time example_iso
      (params_of_body example_time plain_body
         {| lng := Some 116.30; lat := Some 39.90; name := None |}
         plain_destination) []
    = (Return res, log')
    /\ Handler.handler mockProvider example_time example_iso plain_request []
       = (Return {| Handler.statusCode := 200;
                    Handler.json := Some (Handler.SuccessBody 0 "success" res) |},
          log')
    /\ preference (meta res) = "balance".
Proof.
  destruct (X20_handler_success mockProvider example_time example_iso
              plain_request plain_body _ _ []
              eq_refl eq_refl eq_refl eq_refl eq_refl)
    as (res & log' & E & Eh & _).
  exists res, log'. split; [exact E|]. split; [exact Eh|].
  vm_compute in E. injection E as <- _. reflexivity.
Defined.

Lemma bind_ret_l {A B} (a : A) (k : A -> M B) (log : Log) :
  bind (ret a) k log = k a log.
Proof. reflexivity. Qed.

Lemma handler_plan_unfold (P : Provider) (now : Date) (nowISO : string)
    (body : Handler.ReqBody) (log : Log) :
  Handler.handler P now nowISO
    {| Handler.method := "POST"; Handler.url := "/api/routes/plan";
       Handler.body := body |} log
  = try_catch
      (b <- Handler.destructure "req.body" body ;;
       match Handler.b_start b, Handler.b_end b with
       | Some start, Some end_ =>
           result <- planRoute P now nowISO (params_of_body now b start end_) ;;
           ret {| Handler.statusCode := 200;
                  Handler.json := Some (Handler.SuccessBody 0 "success" result) |}
       | _, _ =>
           ret {| Handler.statusCode := 400;
                  Handler.json := Some (Handler.ErrorBody 400 "缺少起点或终点参数") |}
       end)
      (fun error =>
         match error with
         | TypeError msg =>
             ret {| Handler.statusCode := 500;
                    Handler.json :=
                      Some (Handler.ErrorBody 500 ("服务器错误: " ++ msg)%string) |}
         end) log.
Proof. reflexivity. Qed.

(** X21.  The three entry points answer a planning request alike: for the
    same request body, the serverless handler, the Express route and the
    function-compute entry send the same requests to the provider and
    return the same status, 200 or 400, with the same payload; the
    function-compute entry takes the body as an object, as a string that
    parses, or from the event itself when the event has no body.  A string
    body that does not parse is answered with status 500 and the failure's
    message, before any provider request.  A request without a body is
    answered by the serverless handler and by the Express route with
    status 500 and the message of the same [TypeError], each under its own
    prefix, before any provider request. *)
Theorem X21_entry_points_agree (P : Provider) (now : Date) (nowISO : string)
    (JSON_parse : string -> string + Handler.Body)
    (event : FunctionCompute.Event) (requestId : string) (log : Log) :
  (forall body,
     FunctionCompute.ev_body event = FunctionCompute.BodyObject body
     \/ (exists s, FunctionCompute.ev_body event = FunctionCompute.BodyString s
                   /\ JSON_parse s = inr body)
     \/ (FunctionCompute.ev_body event = FunctionCompute.BodyFalsy
         /\ FunctionCompute.ev_fields event = body) ->
     exists resp fresp log',
       Handler.handler P now nowISO
         {| Handler.method := "POST"; Handler.url := "/api/routes/plan";
            Handler.body := Handler.Present body |} log = (Return resp, log')
       /\ ExpressApp.post_plan P now nowISO (Handler.Present body) log
          = (Return resp, log')
       /\ FunctionCompute.planRoute P now nowISO JSON_parse event requestId log
          = (Return fresp, log')
       /\ Handler.json resp = Some (FunctionCompute.fc_json fresp)
       /\ Handler.statusCode resp = FunctionCompute.fc_statusCode fresp
       /\ (Handler.statusCode resp = 200%Z \/ Handler.statusCode resp = 400%Z))
  /\ (forall s msg,
        FunctionCompute.ev_body event = FunctionCompute.BodyString s ->
        JSON_parse s = inl msg ->
        FunctionCompute.planRoute P now nowISO JSON_parse event requestId log
        = (Return {| FunctionCompute.fc_statusCode := 500;
                     FunctionCompute.fc_json :=
                       Handler.ErrorBody 500 ("路线规划失败: " ++ msg)%string;
                     FunctionCompute.fc_requestId := Some requestId |}, log))
  /\ (forall n,
        exists msg,
          Handler.handler P now nowISO
            {| Handler.method := "POST"; Handler.url := "/api/routes/plan";
               Handler.body := Handler.Absent n |} log
          = (Return {| Handler.statusCode := 500;
                       Handler.json :=
                         Some (Handler.ErrorBody 500
                                 ("服务器错误: " ++ msg)%string) |}, log)
          /\ ExpressApp.post_plan P now nowISO (Handler.Absent n) log
             = (Return {| Handler.statusCode := 500;
                          Handler.json :=
                            Some (Handler.ErrorBody 500
                                    ("路线规划失败: " ++ msg)%string) |}, log)).
Proof.
  split; [|split].
  - intros body Hb. rewrite handler_plan_unfold.
    assert (Efc : FunctionCompute.planRoute P now nowISO JSON_parse event
                    requestId log
                  = FunctionCompute.planRoute P now nowISO JSON_parse
                      {| FunctionCompute.ev_body := FunctionCompute.BodyObject body;
                         FunctionCompute.ev_fields := body |} requestId log).
    { unfold FunctionCompute.planRoute.
      destruct Hb as [E|[(s & E & Ep)|(E & Ef)]]; rewrite E;
        [|rewrite Ep|rewrite Ef]; reflexivity. }
    rewrite Efc.
    unfold ExpressApp.post_plan, FunctionCompute.planRoute.
    cbn [FunctionCompute.ev_body Handler.destructure].
    unfold try_catch. rewrite !bind_ret_l. cbv beta.
    destruct (Handler.b_start body) as [start|];
      [destruct (Handler.b_end body) as [end_|]|].
    + destruct (planRoute_of_body P now nowISO body start end_ log)
        as (res & ext & E).
      unfold bind.
      change (planRoute P now nowISO _ log)
        with (planRoute P now nowISO (params_of_body now body start end_) log).
      rewrite E. cbn. do 3 eexists. repeat split; try reflexivity. now left.
    + cbn. do 3 eexists. repeat split; try reflexivity. now right.
    + cbn. do 3 eexists. repeat split; try reflexivity. now right.
  - intros s msg Eb Ep. unfold FunctionCompute.planRoute.
    rewrite Eb, Ep. reflexivity.
  - intros n. rewrite handler_plan_unfold. unfold ExpressApp.post_plan.
    eexists. split; reflexivity.
Qed.

Lemma X21_witness :
  exists resp fresp log',
    Handler.handler mockProvider example_time example_iso plain_request []
    = (Return resp, log')
    /\ ExpressApp.post_plan mockProvider example_time example_iso
         (Handler.Present plain_body) []
       = (Return resp, log')
    /\ FunctionCompute.planRoute mockProvider example_time example_iso toy_parse
         {| FunctionCompute.ev_body := FunctionCompute.BodyString "{plain}";
            FunctionCompute.ev_fields := plain_body |} "req-1" []
       = (Return fresp, log')
    /\ Handler.json resp = Some (FunctionCompute.fc_json fresp)
    /\ Handler.statusCode resp = FunctionCompute.fc_statusCode fresp
    /\ (Handler.statusCode resp = 200%Z \/ Handler.statusCode resp = 400%Z).
Proof.
  destruct (X21_entry_points_agree mockProvider example_time example_iso
              toy_parse
              {| FunctionCompute.ev_body := FunctionCompute.BodyString "{plain}";
                 FunctionCompute.ev_fields := plain_body |} "req-1" [])
    as (H & _).
  apply (H plain_body). right. left. exists "{plain}". split; reflexivity.
Defined.

(** X22.  Only the planning route reaches the provider: any request that is
    not a [POST] to [/api/routes/plan] is answered at once, with status 200
    for an [OPTIONS] request and for [GET /health], and with status 404
    otherwise. *)
Theorem X22_handler_other_routes (P : Provider) (now : Date) (nowISO : string)
    (req : Handler.Request) (log : Log) :
  ~ (Handler.method req = "POST" /\ Handler.url req = "/api/routes/plan") ->
  exists resp,
    Handler.handler P now nowISO req log = (Return resp, log)
    /\ (Handler.method req = "OPTIONS" ->
        Handler.statusCode resp = 200%Z /\ Handler.json resp = None)
    /\ (Handler.method req <> "OPTIONS" ->
        (Handler.method req = "GET" /\ Handler.url req = "/health" ->
         Handler.statusCode resp = 200%Z)
        /\ (~ (Handler.method req = "GET" /\ Handler.url req = "/health") ->
            Handler.statusCode resp = 404%Z)).
Proof.
  intros Hnot. unfold Handler.handler.
  destruct (String.eqb_spec (Handler.method req) "OPTIONS") as [Eo|Eo].
  { eexists. split; [reflexivity|]. split; [now split | contradiction]. }
  unfold try_catch.
  destruct (String.eqb_spec (Handler.url req) "/health") as [Eh|Eh];
    destruct (String.eqb_spec (Handler.method req) "GET") as [Eg|Eg];
    cbn [andb].
  - eexists. split; [reflexivity|]. split; [contradiction|].
    intros _. split; [reflexivity | tauto].
  - destruct (String.eqb_spec (Handler.url req) "/api/routes/plan") as [Ep|Ep];
      [rewrite Eh in Ep; discriminate|]. cbn [andb].
    eexists. split; [reflexivity|]. split; [contradiction|].
    intros _. split; [tauto | reflexivity].
  - destruct (String.eqb_spec (Handler.url req) "/api/routes/plan") as [Ep|Ep];
      destruct (String.eqb_spec (Handler.method req) "POST") as [Em|Em];
      cbn [andb]; try (rewrite Eg in Em; discriminate).
    all: eexists; (split; [reflexivity|]); (split; [contradiction|]);
      intros _; split; [tauto | reflexivity].
  - destruct (String.eqb_spec (Handler.url req) "/api/routes/plan") as [Ep|Ep];
      destruct (String.eqb_spec (Handler.method req) "POST") as [Em|Em];
      cbn [andb]; try tauto.
    all: eexists; (split; [reflexivity|]); (split; [contradiction|]);
      intros _; split; [tauto | reflexivity].
Qed.

Lemma X22_witness :
  exists resp,
    Handler.handler mockProvider example_time example_iso
      {| Handler.method := "GET"; Handler.url := "/api/routes/plan";
         Handler.body := Handler.Present plain_body |} [] = (Return resp, [])
    /\ Handler.statusCode resp = 404%Z.
Proof.
  destruct (X22_handler_other_routes mockProvider example_time example_iso
              {| Handler.method := "GET"; Handler.url := "/api/routes/plan";
                 Handler.body := Handler.Present plain_body |} [])
    as (resp & E & _ & H).
  - intros [Hm _]. discriminate Hm.
  - exists resp. split; [exact E|].
    apply H; [discriminate|]. intros [_ Hu]. discriminate Hu.
Defined.
